(** * AstroBot: the scientific-value parser, the density calculator and the
    menu navigation of [astro_bot3.py], embedded in Rocq.

    Conventions of the embedding.
    - A Python [str] is a list of Unicode code points ([pystr]); literals are
      written [u "..."] and decoded from the UTF-8 bytes of the Rocq string.
    - A Python [int] is a [Z].  A Python [float] is kept as the exact
      rational value [Q] of the result, rounding ignored, as long as that
      value lies well inside the range of a double ([float_class_of]); a
      result that has clearly overflowed or underflowed behaves as it does
      in CPython, and one that is close to the limits is [Untracked].  The
      sign of a zero is not kept: [0.0] and [-0.0] are both [0].
    - A Python [dict] is a [gmap].
    - A computation that may raise is an [outcome]: [Returns v], [Raises], or
      [Untracked] when the value leaves the rational model (a fractional
      power, a non-finite float, a float close to the limits of the
      range). *)

From Stdlib Require Import List ZArith NArith QArith Qpower Qabs Qreals Bool String Ascii.
From Stdlib Require Import Reals Machin Lia Psatz.
From stdpp Require Import gmap strings list fin_maps.

Import ListNotations.
#[local] Open Scope Z_scope.

(** ** Python strings as lists of code points *)

Module PyStr.

Abbreviation pystr := (list N) (only parsing).

(** UTF-8 decoding of the bytes of a Rocq string literal (well-formed input). *)
Fixpoint utf8_decode (bs : list N) : pystr :=
  match bs with
  | [] => []
  | b :: r =>
      if (b <? 128)%N then b :: utf8_decode r
      else if (b <? 224)%N then
        match r with
        | b1 :: r1 => ((b - 192) * 64 + (b1 - 128))%N :: utf8_decode r1
        | _ => []
        end
      else if (b <? 240)%N then
        match r with
        | b1 :: b2 :: r2 =>
            ((b - 224) * 4096 + (b1 - 128) * 64 + (b2 - 128))%N :: utf8_decode r2
        | _ => []
        end
      else
        match r with
        | b1 :: b2 :: b3 :: r3 =>
            ((b - 240) * 262144 + (b1 - 128) * 4096 + (b2 - 128) * 64 + (b3 - 128))%N
              :: utf8_decode r3
        | _ => []
        end
  end.

Definition u (s : string) : pystr :=
  utf8_decode (List.map N_of_ascii (list_ascii_of_string s)).
#[global] Arguments u s : simpl never.

Definition eqb (a b : pystr) : bool := bool_decide (a = b).

(** [a.startswith(p)] *)
Fixpoint startswith (p a : pystr) : bool :=
  match p, a with
  | [], _ => true
  | x :: p', y :: a' => (x =? y)%N && startswith p' a'
  | _ :: _, [] => false
  end.

(** [a.find(sub, start)], [None] standing for [-1]; [start <= len(a)]. *)
Fixpoint find_at (sub a : pystr) (pos : nat) : option nat :=
  if startswith sub a then Some pos
  else match a with
       | [] => None
       | _ :: a' => find_at sub a' (S pos)
       end.

Definition find (sub a : pystr) (start : nat) : option nat :=
  if (start <=? length a)%nat then find_at sub (drop start a) start else None.

(** [sub in a] *)
Definition contains (sub a : pystr) : bool :=
  match find sub a 0 with Some _ => true | None => false end.

(** [a[i:j]] for [0 <= i], [0 <= j] *)
Definition slice (a : pystr) (i j : nat) : pystr := take (j - i) (drop i a).

(** [a.replace(old, new)] for a one-character [old]. *)
Definition replace1 (old : N) (new : pystr) (a : pystr) : pystr :=
  flat_map (fun c => if (c =? old)%N then new else [c]) a.

(** [a.split(sep)] for a one-character [sep]. *)
Fixpoint split_on (sep : N) (a : pystr) : list pystr :=
  match a with
  | [] => [[]]
  | c :: a' =>
      if (c =? sep)%N then [] :: split_on sep a'
      else match split_on sep a' with
           | w :: ws => (c :: w) :: ws
           | [] => [[c]]
           end
  end.

(** Case mappings of [str.lower] and [str.upper], on the blocks the bot's
    labels and commands are written in: Basic Latin, Latin-1 Supplement and
    Cyrillic U+0400..U+045F.  Other code points are left unchanged. *)
Definition lower_cp (c : N) : pystr :=
  (if (65 <=? c) && (c <=? 90) then [c + 32]
   else if (192 <=? c) && (c <=? 222) && negb (c =? 215) then [c + 32]
   else if (c =? 304) then [105; 775]
   else if (1024 <=? c) && (c <=? 1039) then [c + 80]
   else if (1040 <=? c) && (c <=? 1071) then [c + 32]
   else [c])%N.

Definition upper_cp (c : N) : pystr :=
  (if (97 <=? c) && (c <=? 122) then [c - 32]
   else if (c =? 181) then [924]
   else if (c =? 223) then [83; 83]
   else if (224 <=? c) && (c <=? 254) && negb (c =? 247) then [c - 32]
   else if (c =? 255) then [376]
   else if (1072 <=? c) && (c <=? 1103) then [c - 32]
   else if (1104 <=? c) && (c <=? 1119) then [c - 80]
   else [c])%N.

Definition lower (a : pystr) : pystr := flat_map lower_cp a.
Definition upper (a : pystr) : pystr := flat_map upper_cp a.

(** General category Nd (decimal digits) of Unicode 14: what [\d] matches in
    a [str] pattern and what [float] converts.  Every range is a run of ten
    digits (the last one five runs), so the digit value is the offset modulo
    ten. *)
Definition nd_ranges : list (N * N) :=
  [(48, 57); (1632, 1641); (1776, 1785); (1984, 1993); (2406, 2415);
   (2534, 2543); (2662, 2671); (2790, 2799); (2918, 2927); (3046, 3055);
   (3174, 3183); (3302, 3311); (3430, 3439); (3558, 3567); (3664, 3673);
   (3792, 3801); (3872, 3881); (4160, 4169); (4240, 4249); (6112, 6121);
   (6160, 6169); (6470, 6479); (6608, 6617); (6784, 6793); (6800, 6809);
   (6992, 7001); (7088, 7097); (7232, 7241); (7248, 7257); (42528, 42537);
   (43216, 43225); (43264, 43273); (43472, 43481); (43504, 43513);
   (43600, 43609); (44016, 44025); (65296, 65305); (66720, 66729);
   (68912, 68921); (69734, 69743); (69872, 69881); (69942, 69951);
   (70096, 70105); (70384, 70393); (70736, 70745); (70864, 70873);
   (71248, 71257); (71360, 71369); (71472, 71481); (71904, 71913);
   (72016, 72025); (72784, 72793); (73040, 73049); (73120, 73129);
   (92768, 92777); (92864, 92873); (93008, 93017); (120782, 120831);
   (123200, 123209); (123632, 123641); (125264, 125273);
   (130032, 130041)]%N.

Definition decimal_value (c : N) : option N :=
  match List.find (fun r => (fst r <=? c) && (c <=? snd r))%N nd_ranges with
  | Some r => Some ((c - fst r) mod 10)%N
  | None => None
  end.

Definition is_decimal (c : N) : bool :=
  match decimal_value c with Some _ => true | None => false end.

Definition is_ascii_digit (c : N) : bool := ((48 <=? c) && (c <=? 57))%N.

(** [str.isspace] on one code point. *)
Definition is_space (c : N) : bool :=
  ((9 <=? c) && (c <=? 13) || (28 <=? c) && (c <=? 32) || (c =? 133)
   || (c =? 160) || (c =? 5760) || (8192 <=? c) && (c <=? 8202)
   || (c =? 8232) || (c =? 8233) || (c =? 8239) || (c =? 8287)
   || (c =? 12288))%N.

End PyStr.

Import PyStr.

(** ** Outcomes of Python computations *)

Inductive outcome (A : Type) : Type :=
| Returns (a : A)   (* normal completion *)
| Raises            (* an exception of class [Exception] propagates *)
| Untracked.        (* the value is outside the rational model *)
Arguments Returns {A} a.
Arguments Raises {A}.
Arguments Untracked {A}.

#[export] Instance outcome_ret : MRet outcome := fun A a => Returns a.
#[export] Instance outcome_bind : MBind outcome := fun A B k m =>
  match m with
  | Returns a => k a
  | Raises => Raises
  | Untracked => Untracked
  end.

(** [try: body  except Exception: handler] *)
Definition try_except {A} (body handler : outcome A) : outcome A :=
  match body with
  | Raises => handler
  | _ => body
  end.

(** ** Python numbers *)

Inductive pyval : Type :=
| PyInt (z : Z)
| PyFloat (q : Q)
| PyEllipsis.

(** [float(v)] for the operands of mixed arithmetic. *)
Definition as_float (v : pyval) : Q :=
  match v with
  | PyInt z => inject_Z z
  | PyFloat q => q
  | PyEllipsis => 0%Q
  end.

Definition is_number (v : pyval) : bool :=
  match v with PyEllipsis => false | _ => true end.

Definition Qzero (q : Q) : bool := (Qnum q =? 0)%Z.
Definition Qneg (q : Q) : bool := (Qnum q <? 0)%Z.
Definition Qintegral (q : Q) : bool := (Qden (Qred q) =? 1)%positive.

(** *** The range of a float

    A float is a double: its normal range is 2⁻¹⁰²² to just under 2¹⁰²⁴ and
    its least positive value is 2⁻¹⁰⁷⁴.  By the magnitude of the exact result
    of an operation the model tells four cases, with a margin that rounding
    cannot cross: the result is a normal float (or zero), it has underflowed
    to [0.0], it has overflowed, or it is too close to a limit to tell. *)
Definition float_tiny : Q := Eval vm_compute in (1 # Z.to_pos (2 ^ 1076)).
Definition float_low : Q := Eval vm_compute in (1 # Z.to_pos (2 ^ 1021)).
Definition float_high : Q := Eval vm_compute in (inject_Z (2 ^ 1023)).
Definition float_huge : Q := Eval vm_compute in (inject_Z (2 ^ 1025)).

Inductive float_class : Type := Normal | Underflow | Overflow | Borderline.

Definition float_class_of (q : Q) : float_class :=
  if Qzero q then Normal
  else if Qle_bool (Qabs q) float_tiny then Underflow
  else if Qle_bool float_huge (Qabs q) then Overflow
  else if Qle_bool float_low (Qabs q) && Qle_bool (Qabs q) float_high then Normal
  else Borderline.

(** The float an operation with exact result [q] leaves.  [overflow] is what
    the operation does when the result is too large: [**] and the division of
    two ints raise [OverflowError]; literals, [float(str)], [+], [-], [*] and
    the division of floats give [inf]. *)
Definition float_of (overflow : outcome Q) (q : Q) : outcome Q :=
  match float_class_of q with
  | Normal => Returns q
  | Underflow => Returns 0%Q
  | Overflow => overflow
  | Borderline => Untracked
  end.

Definition float_result (overflow : outcome Q) (q : Q) : outcome pyval :=
  x ← float_of overflow q; Returns (PyFloat x).

(** The ints that convert to a float: those that round to a finite double. *)
Definition int_max : Z := Eval vm_compute in (2 ^ 1024 - 2 ^ 970).

(** The conversion of an operand of mixed arithmetic to a float. *)
Definition to_float (v : pyval) : outcome Q :=
  match v with
  | PyInt z =>
      if (Z.abs z <? int_max)%Z then Returns (inject_Z z)
      else Raises                  (* OverflowError: int too large to convert to float *)
  | PyFloat q => Returns q
  | PyEllipsis => Raises                              (* TypeError *)
  end.

Definition py_pos (v : pyval) : outcome pyval :=
  match v with
  | PyEllipsis => Raises
  | _ => Returns v
  end.

Definition py_neg (v : pyval) : outcome pyval :=
  match v with
  | PyInt z => Returns (PyInt (- z))
  | PyFloat q => Returns (PyFloat (- q))
  | PyEllipsis => Raises
  end.

Definition py_arith (fz : Z -> Z -> Z) (fq : Q -> Q -> Q) (a b : pyval) : outcome pyval :=
  match a, b with
  | PyEllipsis, _ | _, PyEllipsis => Raises
  | PyInt x, PyInt y => Returns (PyInt (fz x y))
  | _, _ => x ← to_float a; y ← to_float b; float_result Untracked (fq x y)
  end.

Definition py_add := py_arith Z.add Qplus.
Definition py_sub := py_arith Z.sub Qminus.
Definition py_mul := py_arith Z.mul Qmult.

(** [x ** y] on floats: a zero base raised to a negative power raises
    [ZeroDivisionError]; an integral exponent stays rational, and a result
    that overflows raises [OverflowError]; any other power of a non-zero
    base is not tracked (it is irrational in general, complex for a negative
    base). *)
Definition float_pow (x y : Q) : outcome pyval :=
  if Qzero x then
    if Qneg y then Raises
    else if Qzero y then Returns (PyFloat 1) else Returns (PyFloat 0)
  else if Qintegral y then float_result Raises (Qpower x (Qnum (Qred y)))
  else Untracked.

(** [a ** b]: ints with a non-negative exponent stay ints; every other case
    converts both operands to floats. *)
Definition py_pow (a b : pyval) : outcome pyval :=
  match a, b with
  | PyEllipsis, _ | _, PyEllipsis => Raises
  | PyInt x, PyInt y =>
      if (0 <=? y)%Z then Returns (PyInt (x ^ y))
      else p ← to_float a; q ← to_float b; float_pow p q
  | _, _ => p ← to_float a; q ← to_float b; float_pow p q
  end.

(** ** The expression language [eval] meets after sanitising

    After [parse_scientific_number] has filtered and rewritten its argument,
    the string handed to [eval] is written with ASCII digits, [.], [e], [E],
    [+], [-] and [*] (and possibly non-ASCII decimal digits, which [eval]
    rejects).  [py_eval] models [eval] on that alphabet: Python's tokenizer,
    the expression grammar restricted to these tokens, and evaluation. *)

Module Eval.

Inductive token : Type :=
| TNum (v : pyval)
| TName
| TEllipsis
| TDot
| TPlus
| TMinus
| TStar
| TPow.

Inductive chclass : Type :=
| CDigit (d : N) | CDot | CExp | CPlus | CMinus | CStar | COther.

Definition classify (c : N) : chclass :=
  if is_ascii_digit c then CDigit (c - 48)
  else if (c =? 46)%N then CDot
  else if (c =? 101)%N || (c =? 69)%N then CExp
  else if (c =? 43)%N then CPlus
  else if (c =? 45)%N then CMinus
  else if (c =? 42)%N then CStar
  else COther.

Definition digits_value (ds : list N) : Z :=
  fold_left (fun acc d => acc * 10 + Z.of_N d) ds 0.

(** A decimal integer literal: leading zeros only in a literal that is zero. *)
Definition int_token (ds : list N) : option token :=
  match ds with
  | 0%N :: _ :: _ =>
      if forallb (N.eqb 0) ds then Some (TNum (PyInt 0)) else None
  | _ => Some (TNum (PyInt (digits_value ds)))
  end.

(** A float literal [ds.fs] with decimal exponent [ex]. *)
Definition float_value (ds fs : list N) (ex : Z) : Q :=
  (Qmake (digits_value (ds ++ fs)) (Z.to_pos (10 ^ Z.of_nat (length fs)))
   * Qpower 10 ex)%Q.

Definition float_token (ds fs : list N) (neg : bool) (es : list N) : token :=
  TNum (PyFloat (float_value ds fs
                   (if neg then - digits_value es else digits_value es))).

Inductive lexstate : Type :=
| LStart
| LInt (ds : list N)
| LFrac (ds fs : list N)
| LExpMark (ds fs : list N)
| LExpSign (ds fs : list N) (neg : bool)
| LExp (ds fs : list N) (neg : bool) (es : list N)
| LName
| LDot1
| LDot2
| LStar.

(** First character of a token. *)
Definition lex_start (c : chclass) : option (list token * lexstate) :=
  match c with
  | CDigit d => Some ([], LInt [d])
  | CDot => Some ([], LDot1)
  | CExp => Some ([], LName)
  | CPlus => Some ([TPlus], LStart)
  | CMinus => Some ([TMinus], LStart)
  | CStar => Some ([], LStar)
  | COther => None
  end.

(** Close the pending token(s) [ts] and start a new one at [c]. *)
Definition lex_emit (ts : list token) (c : chclass) : option (list token * lexstate) :=
  match lex_start c with
  | Some (ts', st) => Some (ts ++ ts', st)
  | None => None
  end.

Definition lex_step (st : lexstate) (c : chclass) : option (list token * lexstate) :=
  match st, c with
  | LStart, _ => lex_start c
  | LInt ds, CDigit d => Some ([], LInt (ds ++ [d]))
  | LInt ds, CDot => Some ([], LFrac ds [])
  | LInt ds, CExp => Some ([], LExpMark ds [])
  | LInt ds, _ =>
      match int_token ds with
      | Some t => lex_emit [t] c
      | None => None
      end
  | LFrac ds fs, CDigit d => Some ([], LFrac ds (fs ++ [d]))
  | LFrac ds fs, CExp => Some ([], LExpMark ds fs)
  | LFrac ds fs, _ => lex_emit [float_token ds fs false []] c
  | LExpMark ds fs, CDigit d => Some ([], LExp ds fs false [d])
  | LExpMark ds fs, CPlus => Some ([], LExpSign ds fs false)
  | LExpMark ds fs, CMinus => Some ([], LExpSign ds fs true)
  | LExpMark _ _, _ => None
  | LExpSign ds fs neg, CDigit d => Some ([], LExp ds fs neg [d])
  | LExpSign _ _ _, _ => None
  | LExp ds fs neg es, CDigit d => Some ([], LExp ds fs neg (es ++ [d]))
  | LExp _ _ _ _, CExp => None
  | LExp ds fs neg es, _ => lex_emit [float_token ds fs neg es] c
  | LName, CDigit _ => Some ([], LName)
  | LName, CExp => Some ([], LName)
  | LName, _ => lex_emit [TName] c
  | LDot1, CDigit d => Some ([], LFrac [] [d])
  | LDot1, CDot => Some ([], LDot2)
  | LDot1, _ => lex_emit [TDot] c
  | LDot2, CDot => Some ([TEllipsis], LStart)
  | LDot2, CDigit d => Some ([TDot], LFrac [] [d])
  | LDot2, _ => lex_emit [TDot; TDot] c
  | LStar, CStar => Some ([TPow], LStart)
  | LStar, _ => lex_emit [TStar] c
  end.

Definition lex_finish (st : lexstate) : option (list token) :=
  match st with
  | LStart => Some []
  | LInt ds => match int_token ds with Some t => Some [t] | None => None end
  | LFrac ds fs => Some [float_token ds fs false []]
  | LExpMark _ _ | LExpSign _ _ _ => None
  | LExp ds fs neg es => Some [float_token ds fs neg es]
  | LName => Some [TName]
  | LDot1 => Some [TDot]
  | LDot2 => Some [TDot; TDot]
  | LStar => Some [TStar]
  end.

Fixpoint lex (st : lexstate) (s : pystr) : option (list token) :=
  match s with
  | [] => lex_finish st
  | c :: s' =>
      match lex_step st (classify c) with
      | Some (ts, st') =>
          match lex st' s' with
          | Some rest => Some (ts ++ rest)
          | None => None
          end
      | None => None
      end
  end.

Definition tokenize (s : pystr) : option (list token) := lex LStart s.

(** Abstract syntax of the expressions these tokens can form. *)
Inductive unop : Type := UPos | UNeg.
Inductive binop : Type := Add | Sub | Mul | Pow.

Inductive expr : Type :=
| ENum (v : pyval)
| EName
| EEllipsis
| EAttr (e : expr)
| EUn (o : unop) (e : expr)
| EBin (o : binop) (l r : expr).

(** atom: NAME | NUMBER | '...' *)
Definition parse_atom (ts : list token) : option (expr * list token) :=
  match ts with
  | TNum v :: r => Some (ENum v, r)
  | TName :: r => Some (EName, r)
  | TEllipsis :: r => Some (EEllipsis, r)
  | _ => None
  end.

(** primary: primary '.' NAME | atom *)
Fixpoint parse_attrs (e : expr) (ts : list token) : expr * list token :=
  match ts with
  | TDot :: TName :: r => parse_attrs (EAttr e) r
  | _ => (e, ts)
  end.

Definition parse_primary (ts : list token) : option (expr * list token) :=
  match parse_atom ts with
  | Some (a, r) => Some (parse_attrs a r)
  | None => None
  end.

(** factor: '+' factor | '-' factor | power;  power: primary ['**' factor] *)
Fixpoint parse_factor (fuel : nat) (ts : list token) : option (expr * list token) :=
  match fuel with
  | O => None
  | S fuel' =>
      match ts with
      | TPlus :: r =>
          match parse_factor fuel' r with
          | Some (e, r') => Some (EUn UPos e, r')
          | None => None
          end
      | TMinus :: r =>
          match parse_factor fuel' r with
          | Some (e, r') => Some (EUn UNeg e, r')
          | None => None
          end
      | _ =>
          match parse_primary ts with
          | Some (p, TPow :: r) =>
              match parse_factor fuel' r with
              | Some (e, r') => Some (EBin Pow p e, r')
              | None => None
              end
          | other => other
          end
      end
  end.

(** term: term '*' factor | factor *)
Fixpoint parse_term_rest (fuel : nat) (l : expr) (ts : list token) : option (expr * list token) :=
  match fuel with
  | O => None
  | S fuel' =>
      match ts with
      | TStar :: r =>
          match parse_factor fuel' r with
          | Some (e, r') => parse_term_rest fuel' (EBin Mul l e) r'
          | None => None
          end
      | _ => Some (l, ts)
      end
  end.

Definition parse_term (fuel : nat) (ts : list token) : option (expr * list token) :=
  match parse_factor fuel ts with
  | Some (e, r) => parse_term_rest fuel e r
  | None => None
  end.

(** sum: sum ('+' | '-') term | term *)
Fixpoint parse_sum_rest (fuel : nat) (l : expr) (ts : list token) : option (expr * list token) :=
  match fuel with
  | O => None
  | S fuel' =>
      match ts with
      | TPlus :: r =>
          match parse_term fuel' r with
          | Some (e, r') => parse_sum_rest fuel' (EBin Add l e) r'
          | None => None
          end
      | TMinus :: r =>
          match parse_term fuel' r with
          | Some (e, r') => parse_sum_rest fuel' (EBin Sub l e) r'
          | None => None
          end
      | _ => Some (l, ts)
      end
  end.

Definition parse_sum (fuel : nat) (ts : list token) : option (expr * list token) :=
  match parse_term fuel ts with
  | Some (e, r) => parse_sum_rest fuel e r
  | None => None
  end.

Definition parse_with (fuel : nat) (ts : list token) : option expr :=
  match parse_sum fuel ts with
  | Some (e, []) => Some e
  | _ => None
  end.

(** Every recursive call consumes a token, so [S (length ts)] steps suffice
    (see [parse_fuel_enough]). *)
Definition parse (ts : list token) : option expr := parse_with (S (length ts)) ts.

Definition apply_unop (o : unop) : pyval -> outcome pyval :=
  match o with UPos => py_pos | UNeg => py_neg end.

Definition apply_binop (o : binop) : pyval -> pyval -> outcome pyval :=
  match o with Add => py_add | Sub => py_sub | Mul => py_mul | Pow => py_pow end.

Fixpoint eval_expr (e : expr) : outcome pyval :=
  match e with
  | ENum (PyFloat q) => float_result Untracked q    (* a literal out of range is inf or 0.0 *)
  | ENum v => Returns v
  | EName => Raises                                  (* NameError *)
  | EEllipsis => Returns PyEllipsis
  | EAttr e1 => _ ← eval_expr e1; Raises             (* AttributeError *)
  | EUn o e1 => v ← eval_expr e1; apply_unop o v
  | EBin o l r => a ← eval_expr l; b ← eval_expr r; apply_binop o a b
  end.

Definition py_eval (s : pystr) : outcome pyval :=
  match tokenize s with
  | None => Raises                                   (* SyntaxError *)
  | Some ts =>
      match parse ts with
      | None => Raises                               (* SyntaxError *)
      | Some e => eval_expr e
      end
  end.

End Eval.

(** ** CelestialDatabase *)

Abbreviation record := (gmap string pystr) (only parsing).
Abbreviation catalogue := (gmap pystr (gmap string pystr)) (only parsing).

Definition superscript_map : list (N * N) :=
  [(8304, 48); (185, 49); (178, 50); (179, 51); (8308, 52);
   (8309, 53); (8310, 54); (8311, 55); (8312, 56); (8313, 57)]%N.

(** The characters outside the class [[^\d×\.eE\+\-^⁰¹²³⁴⁵⁶⁷⁸⁹]]. *)
Definition kept_char (c : N) : bool :=
  is_decimal c || (c =? 215)%N || (c =? 46)%N || (c =? 101)%N || (c =? 69)%N
  || (c =? 43)%N || (c =? 45)%N || (c =? 94)%N
  || bool_decide (c ∈ superscript_map.*1).

Definition strip_units (s : pystr) : pystr := List.filter kept_char s.

Definition replace_superscripts (s : pystr) : pystr :=
  fold_left (fun acc p => replace1 (fst p) [snd p] acc) superscript_map s.

(** The string handed to [eval]. *)
Definition residue (value_str : pystr) : pystr :=
  let value_str := strip_units value_str in
  let value_str := replace_superscripts value_str in
  let value_str := replace1 215 (u "*") value_str in
  let value_str := replace1 94 (u "**") value_str in
  value_str.

Definition parse_scientific_number (value_str : pystr) : outcome (option pyval) :=
  match value_str with
  | [] => Returns None
  | _ =>
      try_except
        (v ← Eval.py_eval (residue value_str); Returns (Some v))
        (Returns None)
  end.

Definition Qlt_bool (x y : Q) : bool := negb (Qle_bool y x).

(** [a / b]: the quotient of two ints is computed from the ints and raises
    [OverflowError] when it is too large; otherwise both operands are
    converted to floats. *)
Definition py_div (a b : pyval) : outcome pyval :=
  match a, b with
  | PyEllipsis, _ | _, PyEllipsis => Raises
  | PyInt x, PyInt y =>
      if (y =? 0)%Z then Raises                       (* ZeroDivisionError *)
      else float_result Raises (inject_Z x / inject_Z y)
  | _, _ =>
      x ← to_float a; y ← to_float b;
      if Qzero y then Raises                          (* ZeroDivisionError *)
      else float_result Untracked (x / y)
  end.

(** [a > b] *)
Definition py_gt (a b : pyval) : outcome bool :=
  match a, b with
  | PyEllipsis, _ | _, PyEllipsis => Raises
  | _, _ => Returns (Qlt_bool (as_float b) (as_float a))
  end.

(** [body.get(key, '')] and [body[key]] *)
Definition get_or_empty (body : record) (key : string) : pystr :=
  default [] (body !! key).

Definition getitem (body : record) (key : string) : outcome pystr :=
  match body !! key with
  | Some v => Returns v
  | None => Raises                                    (* KeyError *)
  end.

(** The dictionary [calculate_density] returns. *)
Record density_info : Type := {
  name : pystr;
  mass_kg : pyval;
  radius_m : pyval;
  volume_m3 : pyval;
  density_kg_m3 : pyval;
  density_g_cm3 : pyval;
  formula : pystr
}.

Definition calculate_density (data : catalogue) (body_name : pystr)
  : outcome (option density_info) :=
  match data !! body_name with
  | None => Returns None
  | Some body =>
      if bool_decide (body = ∅) then Returns None
      else
        try_except
          (mass ← parse_scientific_number (get_or_empty body "mass");
           radius ← parse_scientific_number (get_or_empty body "radius");
           match mass, radius with
           | Some mass, Some radius =>
               four_thirds ← py_div (PyInt 4) (PyInt 3);
               k ← py_mul four_thirds (PyFloat 3.1415926535);
               cube ← py_pow radius (PyInt 3);
               volume ← py_mul k cube;
               positive ← py_gt volume (PyInt 0);
               density ← (if positive : bool then py_div mass volume
                          else Returns (PyInt 0));
               density_g ← py_div density (PyInt 1000);
               Returns (Some {| name := body_name;
                                mass_kg := mass;
                                radius_m := radius;
                                volume_m3 := volume;
                                density_kg_m3 := density;
                                density_g_cm3 := density_g;
                                formula := u "ρ = 3M/(4πR³)" |})
           | _, _ => Returns None
           end)
          (Returns None)
  end.

Definition field (key value : string) : string * pystr := (key, u value).

Definition create_sample_data : catalogue :=
  list_to_map [
    (u "Солнце",
     list_to_map [
       field "emoji" "☀️";
       field "name_en" "Sun";
       field "type" "Звезда (G2V)";
       field "mass" "1.9885×10³⁰ кг";
       field "radius" "6.957×10⁸ м";
       field "distance" "1 а.е.";
       field "period" "25.05 дней (экватор)";
       field "luminosity" "3.828×10²⁶ Вт (1 L☉)";
       field "temperature" "5772 K";
       field "accuracy" "Высокая (данные с космических аппаратов)";
       field "sources" "NASA, SOHO, SDO";
       field "task" "Определить светимость Солнца";
       field "solution" "L = 4πR²σT⁴ = 4×3.1416×(6.957×10⁸)²×5.67×10⁻⁸×5772⁴ ≈ 3.828×10²⁶ Вт"]);
    (u "Меркурий",
     list_to_map [
       field "emoji" "☿";
       field "name_en" "Mercury";
       field "type" "Планета земной группы";
       field "mass" "3.3011×10²³ кг";
       field "radius" "2.4397×10⁶ м";
       field "distance" "0.3871 а.е.";
       field "period" "87.97 дней";
       field "temperature" "440 K (средн.)";
       field "accuracy" "Высокая (данные MESSENGER)";
       field "sources" "NASA, MESSENGER";
       field "task" "Рассчитать ускорение свободного падения";
       field "solution" "g = GM/R² = 6.674×10⁻¹¹×3.301×10²³/(2.44×10⁶)² ≈ 3.70 м/с²"]);
    (u "Венера",
     list_to_map [
       field "emoji" "♀";
       field "name_en" "Venus";
       field "type" "Планета земной группы";
       field "mass" "4.8675×10²⁴ кг";
       field "radius" "6.0518×10⁶ м";
       field "distance" "0.7233 а.е.";
       field "period" "224.7 дней";
       field "temperature" "737 K";
       field "accuracy" "Высокая (данные Magellan)";
       field "sources" "NASA, ESA, Magellan";
       field "task" "Сравнить с Землей по массе";
       field "solution" "M_Венеры/M_Земли = 4.8675×10²⁴/5.9722×10²⁴ ≈ 0.815"]);
    (u "Земля",
     list_to_map [
       field "emoji" "🌍";
       field "name_en" "Earth";
       field "type" "Планета земной группы";
       field "mass" "5.9722×10²⁴ кг";
       field "radius" "6.371×10⁶ м";
       field "distance" "1 а.е.";
       field "period" "365.25 дней";
       field "temperature" "288 K (средн.)";
       field "accuracy" "Очень высокая";
       field "sources" "Международные стандарты";
       field "task" "Рассчитать первую космическую скорость";
       field "solution" "v₁ = √(GM/R) = √(6.674×10⁻¹¹×5.972×10²⁴/6.371×10⁶) ≈ 7.91 км/с"]);
    (u "Марс",
     list_to_map [
       field "emoji" "♂";
       field "name_en" "Mars";
       field "type" "Планета земной группы";
       field "mass" "6.4171×10²³ кг";
       field "radius" "3.3895×10⁶ м";
       field "distance" "1.5237 а.е.";
       field "period" "686.98 дней";
       field "temperature" "210 K (средн.)";
       field "accuracy" "Высокая (данные орбитальных аппаратов)";
       field "sources" "NASA, ESA, Mars Reconnaissance Orbiter";
       field "task" "Найти плотность Марса";
       field "solution" "ρ = 3M/(4πR³) = 3×6.417×10²³/(4×3.1416×(3.390×10⁶)³) ≈ 3933 кг/м³"]);
    (u "Юпитер",
     list_to_map [
       field "emoji" "♃";
       field "name_en" "Jupiter";
       field "type" "Газовый гигант";
       field "mass" "1.8982×10²⁷ кг";
       field "radius" "6.9911×10⁷ м";
       field "distance" "5.2038 а.е.";
       field "period" "4332.59 дней";
       field "temperature" "165 K (уровень 1 бар)";
       field "accuracy" "Высокая (данные Juno)";
       field "sources" "NASA, Juno, Galileo";
       field "task" "Рассчитать ускорение на экваторе";
       field "solution" "g = GM/R² = 6.674×10⁻¹¹×1.898×10²⁷/(6.991×10⁷)² ≈ 24.79 м/с²"]);
    (u "Сатурн",
     list_to_map [
       field "emoji" "♄";
       field "name_en" "Saturn";
       field "type" "Газовый гигант";
       field "mass" "5.6834×10²⁶ кг";
       field "radius" "5.8232×10⁷ м";
       field "distance" "9.5826 а.е.";
       field "period" "10759.22 дней";
       field "temperature" "134 K (уровень 1 бар)";
       field "accuracy" "Высокая (данные Cassini)";
       field "sources" "NASA, ESA, Cassini";
       field "task" "Определить плотность";
       field "solution" "ρ = 3M/(4πR³) = 3×5.683×10²⁶/(4×3.1416×(5.823×10⁷)³) ≈ 687 кг/м³"]);
    (u "Уран",
     list_to_map [
       field "emoji" "♅";
       field "name_en" "Uranus";
       field "type" "Ледяной гигант";
       field "mass" "8.6810×10²⁵ кг";
       field "radius" "2.5362×10⁷ м";
       field "distance" "19.191 а.е.";
       field "period" "30687.15 дней";
       field "temperature" "76 K (тропопауза)";
       field "accuracy" "Средняя (данные Voyager 2)";
       field "sources" "NASA, Voyager 2";
       field "task" "Рассчитать первую космическую скорость";
       field "solution" "v₁ = √(GM/R) = √(6.674×10⁻¹¹×8.681×10²⁵/2.536×10⁷) ≈ 15.1 км/с"]);
    (u "Нептун",
     list_to_map [
       field "emoji" "♆";
       field "name_en" "Neptune";
       field "type" "Ледяной гигант";
       field "mass" "1.02413×10²⁶ кг";
       field "radius" "2.4622×10⁷ м";
       field "distance" "30.07 а.е.";
       field "period" "60190.03 дней";
       field "temperature" "72 K (тропопауза)";
       field "accuracy" "Средняя (данные Voyager 2)";
       field "sources" "NASA, Voyager 2";
       field "task" "Сравнить с Ураном";
       field "solution" "M_Нептуна/M_Урана = 1.024×10²⁶/8.681×10²⁵ ≈ 1.18"]);
    (u "Сириус",
     list_to_map [
       field "emoji" "⭐️";
       field "name_en" "Sirius";
       field "type" "Двойная звезда (A1V + DA2)";
       field "mass" "2.02 M☉ (Сириус A)";
       field "radius" "1.71 R☉";
       field "distance" "2.64 пк (8.6 св. лет)";
       field "luminosity" "25.4 L☉";
       field "temperature" "9940 K";
       field "accuracy" "Высокая (параллакс Hipparcos)";
       field "sources" "Hipparcos, Hubble, Gaia";
       field "task" "Рассчитать абсолютную звездную величину";
       field "solution" "M = m - 5lg(d/10) = -1.46 - 5lg(2.64/10) ≈ +1.42"])].

(** ** [float(str)]

    The argument is brought to ASCII (decimal digits of any script become
    ASCII digits, Unicode spaces become a space, any other non-ASCII
    character is rejected), surrounding blanks are dropped, underscores are
    allowed between digits, and the rest must be a decimal literal with an
    optional exponent, or one of [inf], [infinity], [nan]. *)

Module Float.

Definition to_ascii_cp (c : N) : N :=
  if (c <? 127)%N then c
  else if is_space c then 32%N
  else match decimal_value c with
       | Some d => (48 + d)%N
       | None => 63%N
       end.

Definition to_ascii (s : pystr) : pystr :=
  if forallb (fun c => c <? 128)%N s then s else List.map to_ascii_cp s.

Definition is_blank (c : N) : bool := ((9 <=? c) && (c <=? 13) || (c =? 32))%N.

Fixpoint lstrip (s : pystr) : pystr :=
  match s with
  | c :: r => if is_blank c then lstrip r else s
  | [] => []
  end.

Definition strip (s : pystr) : pystr := rev (lstrip (rev (lstrip s))).

(** An underscore needs a digit on both sides. *)
Fixpoint drop_underscores (prev : N) (s : pystr) : option pystr :=
  match s with
  | [] => if (prev =? 95)%N then None else Some []
  | c :: r =>
      if (c =? 95)%N then
        if is_ascii_digit prev then drop_underscores c r else None
      else if (prev =? 95)%N && negb (is_ascii_digit c) then None
      else match drop_underscores c r with
           | Some r' => Some (c :: r')
           | None => None
           end
  end.

Definition split_sign (s : pystr) : bool * pystr :=
  match s with
  | 43%N :: r => (false, r)
  | 45%N :: r => (true, r)
  | _ => (false, s)
  end.

Fixpoint span_digits (s : pystr) : list N * pystr :=
  match s with
  | c :: r =>
      if is_ascii_digit c then
        let '(ds, r') := span_digits r in ((c - 48)%N :: ds, r')
      else ([], s)
  | [] => ([], [])
  end.

Definition signed (neg : bool) (q : Q) : Q := if neg then (- q)%Q else q.

Definition parse_decimal (s : pystr) : option Q :=
  let '(neg, s1) := split_sign s in
  let '(ds, s2) := span_digits s1 in
  let '(fs, s3) := match s2 with
                   | 46%N :: r => span_digits r
                   | _ => ([], s2)
                   end in
  match ds ++ fs with
  | [] => None
  | _ =>
      match s3 with
      | [] => Some (signed neg (Eval.float_value ds fs 0))
      | c :: r =>
          if (c =? 101)%N || (c =? 69)%N then
            let '(eneg, r1) := split_sign r in
            match span_digits r1 with
            | (d :: es, []) =>
                Some (signed neg
                        (Eval.float_value ds fs
                           (if eneg then - Eval.digits_value (d :: es)
                            else Eval.digits_value (d :: es))))
            | _ => None
            end
          else None
      end
  end.

Definition is_inf_or_nan (s : pystr) : bool :=
  let body := lower (snd (split_sign s)) in
  eqb body (u "inf") || eqb body (u "infinity") || eqb body (u "nan").

Definition py_float (s : pystr) : outcome Q :=
  match drop_underscores 0 (strip (to_ascii s)) with
  | None => Raises                                    (* ValueError *)
  | Some t =>
      match parse_decimal t with
      | Some q => float_of Untracked q          (* out of range: inf or 0.0 *)
      | None => if is_inf_or_nan t then Untracked else Raises
      end
  end.

End Float.

(** ** Outbound messages

    A message text is kept as the pieces of its f-string: literal text and
    formatted numbers ([{x:.2f}], [{x:.3e}]). *)

Inductive piece : Type :=
| Lit (s : pystr)
| Fixed (digits : nat) (x : Q)
| Sci (digits : nat) (x : Q)
| ErrnoText (errno : Z).   (* [str(e)] of an exception raised from [errno] *)

Abbreviation message := (list piece) (only parsing).

Inductive markup : Type :=
| ReplyKeyboardMarkup (keyboard : list (list pystr))
| InlineKeyboardMarkup (keyboard : list (list (pystr * pystr))).

Inductive parse_mode : Type := Plain | Markdown.

Inductive action : Type :=
| answer
| reply_text (text : message) (mode : parse_mode) (reply_markup : option markup)
| edit_message_text (text : message) (mode : parse_mode) (reply_markup : option markup)
| edit_message_reply_markup (reply_markup : option markup).

(** A handler emits actions and completes, raises or leaves the model. *)
Definition handler (A : Type) : Type := (list action * outcome A)%type.

Definition hret {A} (a : A) : handler A := ([], Returns a).

Definition hbind {A B} (m : handler A) (k : A -> handler B) : handler B :=
  match m with
  | (acts, Returns a) => let '(acts', o) := k a in (acts ++ acts', o)
  | (acts, Raises) => (acts, Raises)
  | (acts, Untracked) => (acts, Untracked)
  end.

#[export] Instance handler_ret : MRet handler := @hret.
#[export] Instance handler_bind : MBind handler := fun A B k m => hbind m k.

Definition send (a : action) : handler unit := ([a], Returns tt).
Definition lift {A} (o : outcome A) : handler A := ([], o).

(** [format(v, '.Nf')] *)
Definition fixed (digits : nat) (v : pyval) : outcome piece :=
  x ← to_float v; Returns (Fixed digits x).

(** ** Keyboards *)

Definition get_main_keyboard : markup :=
  ReplyKeyboardMarkup
    [[u "🪐 8 Планет"; u "⭐️ Сириус"; u "☀️ Солнце"];
     [u "📊 Сравнить"; u "📝 Задачи"; u "🔬 Методы"];
     [u "❓ Помощь"]].

Definition get_planets_keyboard : markup :=
  InlineKeyboardMarkup
    [[(u "☿ Меркурий", u "body_Меркурий"); (u "♀ Венера", u "body_Венера")];
     [(u "🌍 Земля", u "body_Земля"); (u "♂ Марс", u "body_Марс")];
     [(u "♃ Юпитер", u "body_Юпитер"); (u "♄ Сатурн", u "body_Сатурн")];
     [(u "♅ Уран", u "body_Уран"); (u "♆ Нептун", u "body_Нептун")];
     [(u "🔙 Назад в меню", u "back_main")]].

Definition get_compare_keyboard : markup :=
  InlineKeyboardMarkup
    [[(u "Земля vs Марс", u "compare_Земля_Марс");
      (u "Венера vs Земля", u "compare_Венера_Земля")];
     [(u "Юпитер vs Сатурн", u "compare_Юпитер_Сатурн");
      (u "Солнце vs Сириус", u "compare_Солнце_Сириус")];
     [(u "🔙 Назад в меню", u "back_main")]].

Definition get_tasks_keyboard : markup :=
  InlineKeyboardMarkup
    [[(u "📐 Космические скорости", u "task_velocity");
      (u "⚖️ Сравнение масс", u "task_mass")];
     [(u "🌍 Сила тяжести", u "task_gravity");
      (u "🔄 Периоды", u "task_period")];
     [(u "⭐️ Звездные задачи", u "task_stars")];
     [(u "🔙 Назад в меню", u "back_main")]].

(** The literal narrative blocks of [show_comparison], [show_task_with_solution],
    [show_methods] and [show_help]. *)

Module Texts.

Definition gravity_earth_mars : pystr :=
  u "📝 **Сравнение силы тяжести:**
g_Земля = 9.81 м/с²
g_Марс = 3.71 м/с²
Отношение: g_Марс/g_Земля = 3.71/9.81 ≈ 0.38

📐 **Формула сравнения:** g₁/g₂ = (M₁/M₂) × (R₂²/R₁²)

🎯 **Вывод:** Сила тяжести на Марсе составляет ~38% от земной
".

Definition gravity_venus_earth : pystr :=
  u "📝 **Сравнение силы тяжести:**
g_Венера = 8.87 м/с²
g_Земля = 9.81 м/с²
Отношение: g_Венера/g_Земля = 8.87/9.81 ≈ 0.904

📐 **Формула сравнения:** g = GM/R²

🎯 **Вывод:** Сила тяжести на Венере ~90% от земной, несмотря на близкие размеры
".

Definition density_jupiter_saturn : pystr :=
  u "📝 **Сравнение плотности:**
ρ_Юпитер = 1.33 г/см³
ρ_Сатурн = 0.69 г/см³
Отношение: ρ_Юпитер/ρ_Сатурн ≈ 1.93

📐 **Формула:** ρ = 3M/(4πR³)

🎯 **Вывод:** Юпитер почти в 2 раза плотнее Сатурна
".

Definition luminosity_sun_sirius : pystr :=
  u "📝 **Сравнение светимости:**
L_Солнце = 1 L☉
L_Сириус = 25.4 L☉
Отношение: L_Сириус/L_Солнце = 25.4

📐 **Формула:** L ∝ M³·⁵ (зависимость масса-светимость для главной последовательности)

🎯 **Вывод:** Сириус в 25.4 раза ярче Солнца
".

Definition task_velocity : pystr :=
  u "
🚀 **ЗАДАЧА: Космические скорости Марса**

📝 **Условие:**
Вычислите первую и вторую космические скорости для Марса.

📐 **Формулы:**
1. Первая космическая скорость (круговая орбита):
   v₁ = √(GM/R)
2. Вторая космическая скорость (параболическая):
   v₂ = √(2GM/R) = v₁√2

🔢 **Данные для Марса:**
- G = 6.67430×10⁻¹¹ м³/(кг·с²)
- M_Марс = 6.4171×10²³ кг
- R_Марс = 3.3895×10⁶ м

📝 **Решение:**
1. **Первая космическая скорость:**
   v₁ = √(6.67430×10⁻¹¹ × 6.4171×10²³ / 3.3895×10⁶)
   v₁ = √(1.264×10⁷) ≈ 3.56×10³ м/с

2. **Вторая космическая скорость:**
   v₂ = √(2) × v₁ = 1.414 × 3.56×10³ ≈ 5.03×10³ м/с

🎯 **Ответы:**
- Первая космическая скорость Марса: **~3.56 км/с**
- Вторая космическая скорость Марса: **~5.03 км/с**

📊 **Сравнение с Землей:**
- Земля: v₁ = 7.91 км/с, v₂ = 11.2 км/с
- Марс в 2.2 раза легче удержать на орбите!
".

Definition task_mass : pystr :=
  u "
⚖️ **ЗАДАЧА: Сравнение масс планет-гигантов**

📝 **Условие:**
Во сколько раз масса Юпитера больше массы Сатурна?

📐 **Формула сравнения масс:**
N = M₁/M₂

🔢 **Данные:**
- M_Юпитер = 1.8982×10²⁷ кг
- M_Сатурн = 5.6834×10²⁶ кг

📝 **Решение:**
N = M_Юпитер / M_Сатурн
N = 1.8982×10²⁷ / 5.6834×10²⁶
N = 3.339

🎯 **Ответ:**
Юпитер в **3.34 раза** массивнее Сатурна

📊 **Распределение массы в Солнечной системе:**
- Солнце: 99.86%
- Юпитер: 0.10%
- Остальные планеты: 0.04%
".

Definition task_gravity : pystr :=
  u "
🌍 **ЗАДАЧА: Сила тяжести на планетах земной группы**

📝 **Условие:**
Рассчитайте ускорение свободного падения на Венере.

📐 **Формула:**
g = GM/R²

🔢 **Данные для Венеры:**
- M_Венера = 4.8675×10²⁴ кг
- R_Венера = 6.0518×10⁶ м
- M_Земля = 5.9722×10²⁴ кг
- R_Земля = 6.371×10⁶ м

📝 **Решение:**
1. **Ускорение на Венере:**
   g_В = (6.67430×10⁻¹¹ × 4.8675×10²⁴) / (6.0518×10⁶)²
   g_В ≈ 8.87 м/с²

2. **Ускорение на Земле:**
   g_З = (6.67430×10⁻¹¹ × 5.9722×10²⁴) / (6.371×10⁶)²
   g_З ≈ 9.82 м/с²

3. **Сравнение:**
   g_В / g_З = 8.87 / 9.82 ≈ 0.903

🎯 **Ответы:**
- Ускорение на Венере: **8.87 м/с²**
- На Земле: **9.82 м/с²**
- Отношение: **~0.90** (90% от земного)
".

Definition task_period : pystr :=
  u "
🔄 **ЗАДАЧА: Орбитальные и синодические периоды**

📝 **Условие:** Определите синодический период Венеры.

📐 **Формула:**
1/S = 1/T₁ - 1/T₂

🔢 **Данные:**
- T_Венера = 224.7 дней
- T_Земля = 365.25 дней

📝 **Решение:**
1/S = 1/224.7 - 1/365.25
1/S = 0.004451 - 0.002738 = 0.001713
S = 1/0.001713 ≈ 583.8 дней

🎯 **Ответ:** Синодический период Венеры **~584 дня**

📊 **Таблица периодов (дни):**
- Меркурий: 87.97 (сид.), 115.9 (синод.)
- Венера: 224.7 (сид.), 583.9 (синод.)
- Земля: 365.25
- Марс: 687.0 (сид.), 779.9 (синод.)
".

Definition task_stars : pystr :=
  u "
⭐️ **ЗАДАЧА: Звездные характеристики Сириуса**

📝 **Условие:** Во сколько раз Сириус ярче Солнца?

🔢 **Данные:**
- L_Сириус = 25.4 L☉
- L_Солнце = 1 L☉

📝 **Решение:**
N = L_Сириус / L_Солнце = 25.4 / 1 = 25.4

🎯 **Ответ:** Сириус в **25.4 раза** ярче Солнца

📊 **Характеристики Сириуса:**
- Расстояние: 8.6 св. лет
- Температура: 9940 K
- Спектральный класс: A1V
- Возраст: ~200-300 млн лет
".

Definition methods : pystr :=
  u "
🔬 *МЕТОДЫ АСТРОНОМИЧЕСКИХ ИЗМЕРЕНИЙ*

*📡 Определение массы:*
• Планеты: по движению спутников
• Звезды в двойных системах: третий закон Кеплера

*📏 Определение радиуса:*
• Радиолокация (планеты)
• Интерферометрия (звезды)
• Затменные двойные системы

*☀️ Определение светимости:*
• Фотометрия + параллакс
• Модели атмосфер звезд

*📍 Определение расстояния:*
• Тригонометрический параллакс
• Спектроскопический параллакс
• Цефеиды
".

Definition help_text : pystr :=
  u "
❓ *ПОМОЩЬ ПО ИСПОЛЬЗОВАНИЮ ASTROBOT*

*Основные функции:*
• 🪐 **8 Планет** - информация о планетах
• ⭐️ **Сириус** - данные о звезде
• ☀️ **Солнце** - параметры нашей звезды
• 📊 **Сравнить** - сравнение объектов
• 📝 **Задачи** - олимпиадные задачи
• 🔬 **Методы** - методики измерений

*🎯 Для олимпиад:*
• Все задачи содержат полное решение
• Указаны все используемые формулы
• Приведены промежуточные расчеты

*✅ Особенности:*
• К каждой задаче прилагается решение
• Показаны все шаги расчета
• Формулы указаны в решениях задач
".

End Texts.

(** ** Handlers *)

Section Handlers.

Variable CELESTIAL_DATA : catalogue.

Definition planets : list pystr :=
  [u "Меркурий"; u "Венера"; u "Земля"; u "Марс";
   u "Юпитер"; u "Сатурн"; u "Уран"; u "Нептун"].

(** The lines of [format_body_info] that are guarded by
    [if key in body and body[key]]. *)
Definition optional_line (body : record) (key : string) (label : pystr) : pystr :=
  match body !! key with
  | Some (c :: v) => label ++ (c :: v) ++ u "
"
  | _ => []
  end.

Definition format_body_info (body_name : pystr) (body : record) : outcome pystr :=
  emoji ← getitem body "emoji";
  name_en ← getitem body "name_en";
  let response := emoji ++ u " *" ++ upper body_name ++ u "* (" ++ name_en ++ u ")

" in
  type ← getitem body "type";
  let response := response ++ u "📌 *Тип:* " ++ type ++ u "

" in
  mass ← getitem body "mass";
  let response := response ++ u "⚖️ *Масса:* " ++ mass ++ u "
" in
  radius ← getitem body "radius";
  let response := response ++ u "📏 *Радиус:* " ++ radius ++ u "
" in
  let response := response ++ optional_line body "distance" (u "📍 *Расстояние:* ") in
  let response := response ++ optional_line body "period" (u "🔄 *Период обращения:* ") in
  let response := response ++ optional_line body "luminosity" (u "☀️ *Светимость:* ") in
  let response := response ++ optional_line body "temperature" (u "🌡️ *Температура:* ") in
  accuracy ← getitem body "accuracy";
  let response := response ++ u "
📊 *Точность:* " ++ accuracy ++ u "
" in
  sources ← getitem body "sources";
  let response := response ++ u "📚 *Источники:* " ++ sources ++ u "

" in
  task ← getitem body "task";
  let response := response ++ u "🎯 *" ++ task ++ u "*

" in
  solution ← getitem body "solution";
  let response := response ++ solution in
  let response := response ++ u "

_Используйте данные для решения олимпиадных задач!_" in
  Returns response.

Definition not_found (body_name : pystr) : message :=
  [Lit (u "❌ Объект '" ++ body_name ++ u "' не найден в базе данных.")].

Definition send_body_info (body_name : pystr) (body : record) : handler unit :=
  response ← lift (format_body_info body_name body);
  send (reply_text [Lit response] Markdown (Some get_main_keyboard)).

Definition show_celestial_body_direct (body_name : pystr) : handler unit :=
  match CELESTIAL_DATA !! body_name with
  | None => send (reply_text (not_found body_name) Plain (Some get_main_keyboard))
  | Some body => send_body_info body_name body
  end.

Definition show_celestial_body_inline (body_name : pystr) : handler unit :=
  match CELESTIAL_DATA !! body_name with
  | None => send (edit_message_text (not_found body_name) Markdown None)
  | Some body =>
      response ← lift (format_body_info body_name body);
      let keyboard :=
        if bool_decide (body_name ∈ planets)
        then [[(u "🔙 Назад к планетам", u "back_planets")]]
        else [[(u "🔙 Назад в меню", u "back_main")]] in
      send (edit_message_text [Lit response] Markdown
              (Some (InlineKeyboardMarkup keyboard)))
  end.

(** The density block of the three density comparisons. *)
Definition density_lines (body1 body2 : pystr) (label1 label2 : pystr) : outcome message :=
  density1 ← calculate_density CELESTIAL_DATA body1;
  density2 ← calculate_density CELESTIAL_DATA body2;
  match density1, density2 with
  | Some density1, Some density2 =>
      d1 ← fixed 0 (density_kg_m3 density1);
      d2 ← fixed 0 (density_kg_m3 density2);
      ratio ← py_div (density_kg_m3 density1) (density_kg_m3 density2);
      ratio ← fixed 2 ratio;
      Returns [Lit (u "📏 *Плотность:*
");
               Lit label1; d1; Lit (u " кг/м³
");
               Lit label2; d2; Lit (u " кг/м³
");
               Lit (u "• Отношение: "); ratio; Lit (u "

")]
  | _, _ => Returns []
  end.

Definition show_comparison (body1 body2 : pystr) : handler unit :=
  match CELESTIAL_DATA !! body1, CELESTIAL_DATA !! body2 with
  | Some b1, Some b2 =>
      emoji1 ← lift (getitem b1 "emoji");
      emoji2 ← lift (getitem b2 "emoji");
      let response :=
        [Lit (u "📊 *СРАВНЕНИЕ: " ++ emoji1 ++ u " " ++ body1 ++ u " vs "
              ++ emoji2 ++ u " " ++ body2 ++ u "*

")] in
      mass1 ← lift (getitem b1 "mass");
      mass2 ← lift (getitem b2 "mass");
      let response := response ++
        [Lit (u "⚖️ *Масса:*
• " ++ body1 ++ u ": " ++ mass1 ++ u "
• " ++ body2 ++ u ": " ++ mass2 ++ u "

")] in
      radius1 ← lift (getitem b1 "radius");
      radius2 ← lift (getitem b2 "radius");
      let response := response ++
        [Lit (u "📏 *Радиус:*
• " ++ body1 ++ u ": " ++ radius1 ++ u "
• " ++ body2 ++ u ": " ++ radius2 ++ u "

")] in
      special ←
        (if eqb body1 (u "Земля") && eqb body2 (u "Марс") then
           lines ← lift (density_lines (u "Земля") (u "Марс") (u "• Земля: ") (u "• Марс: "));
           mret (lines ++ [Lit Texts.gravity_earth_mars])
         else if eqb body1 (u "Венера") && eqb body2 (u "Земля") then
           lines ← lift (density_lines (u "Венера") (u "Земля") (u "• Венера: ") (u "• Земля: "));
           mret (lines ++ [Lit Texts.gravity_venus_earth])
         else if eqb body1 (u "Юпитер") && eqb body2 (u "Сатурн") then
           lines ← lift (density_lines (u "Юпитер") (u "Сатурн") (u "• Юпитер: ") (u "• Сатурн: "));
           mret (lines ++ [Lit Texts.density_jupiter_saturn])
         else if eqb body1 (u "Солнце") && eqb body2 (u "Сириус") then
           mret [Lit Texts.luminosity_sun_sirius]
         else mret []) : handler message;
      let keyboard := [[(u "🔙 Назад к сравнению", u "back_compare")]] in
      send (edit_message_text (response ++ special) Markdown
              (Some (InlineKeyboardMarkup keyboard)))
  | _, _ =>
      send (edit_message_text [Lit (u "❌ Один из объектов не найден в базе данных.")]
              Plain None)
  end.

Definition tasks : list (pystr * pystr) :=
  [(u "velocity", Texts.task_velocity);
   (u "mass", Texts.task_mass);
   (u "gravity", Texts.task_gravity);
   (u "period", Texts.task_period);
   (u "stars", Texts.task_stars)].

Definition show_task_with_solution (task_type : pystr) : handler unit :=
  let response :=
    match List.find (fun kv => eqb (fst kv) task_type) tasks with
    | Some kv => snd kv ++ u "

🔍 *Используйте данные из бота для решения своих задач!*"
    | None => u "📝 Выберите тип задачи из списка выше"
    end in
  let keyboard := [[(u "🔙 Назад к задачам", u "back_tasks")]] in
  send (edit_message_text [Lit response] Markdown
          (Some (InlineKeyboardMarkup keyboard))).

(** The f-string of the result block. *)
Definition density_report (mass radius volume density_kg_m3 density_g_cm3 : Q) : message :=
  [Lit (u "
📏 *РЕЗУЛЬТАТ РАСЧЕТА ПЛОТНОСТИ*

*Входные данные:*
• Масса: "); Sci 3 mass; Lit (u " кг
• Радиус: "); Sci 3 radius; Lit (u " м

*📐 Расчет:*
1. Объем: V = (4/3)πR³ = "); Sci 3 volume; Lit (u " м³
2. Плотность: ρ = M/V

*📊 Результаты:*
• Плотность: "); Fixed 2 density_kg_m3; Lit (u " кг/м³
• Плотность: "); Fixed 3 density_g_cm3; Lit (u " г/см³
")].

(** [text[start:end]] up to the next space, with [,] turned into [.]. *)
Definition number_after (key : pystr) (text : pystr) : pystr :=
  let start := match find key text 0 with
               | Some i => (i + length key)%nat
               | None => (length key - 1)%nat
               end in
  let stop := match find (u " ") text start with
              | Some j => j
              | None => length text
              end in
  replace1 44 (u ".") (slice text start stop).

Definition calculate_density_from_text (text : pystr) : handler unit :=
  let text := lower text in
  if contains (u "масса=") text && contains (u "радиус=") text then
    let mass_str := number_after (u "масса=") text in
    let radius_str := number_after (u "радиус=") text in
    match Float.py_float mass_str with
    | Untracked => lift Untracked
    | Raises =>                                       (* except ValueError *)
        send (reply_text
                [Lit (u "❌ Ошибка в формате чисел. Используйте научную нотацию.")]
                Markdown None)
    | Returns mass =>
        match Float.py_float radius_str with
        | Untracked => lift Untracked
        | Raises =>                                   (* except ValueError *)
            send (reply_text
                    [Lit (u "❌ Ошибка в формате чисел. Используйте научную нотацию.")]
                    Markdown None)
        | Returns radius =>
            match float_of Raises (radius ^ 3) with     (* radius ** 3 *)
            | Untracked => lift Untracked
            | Raises =>                   (* OverflowError; except Exception as e *)
                send (reply_text [Lit (u "❌ Ошибка расчета: "); ErrnoText 34]
                        Markdown None)
            | Returns cube =>
                match float_of Untracked (4 / 3 * 3.1415926535 * cube) with
                | Returns volume =>
                    if Qzero volume then  (* ZeroDivisionError; except Exception as e *)
                      send (reply_text
                              [Lit (u "❌ Ошибка расчета: " ++ u "float division by zero")]
                              Markdown None)
                    else
                      match float_of Untracked (mass / volume) with
                      | Returns density_kg_m3 =>
                          match float_of Untracked (density_kg_m3 / 1000) with
                          | Returns density_g_cm3 =>
                              send (reply_text
                                      (density_report mass radius volume
                                         density_kg_m3 density_g_cm3)
                                      Markdown None)
                          | _ => lift Untracked
                          end
                      | _ => lift Untracked
                      end
                | _ => lift Untracked
                end
            end
        end
    end
  else
    send (reply_text
            [Lit (u "❌ Неверный формат. Используйте:
`плотность: масса=5.9722e24 радиус=6.371e6`")]
            Markdown None).

Definition show_methods : handler unit :=
  send (reply_text [Lit Texts.methods] Markdown (Some get_main_keyboard)).

Definition show_help : handler unit :=
  send (reply_text [Lit Texts.help_text] Markdown (Some get_main_keyboard)).

Definition handle_message (text : pystr) : handler unit :=
  if eqb text (u "🪐 8 Планет") then
    send (reply_text [Lit (u "🌌 *Выберите планету:*
(8 планет Солнечной системы)")] Markdown (Some get_planets_keyboard))
  else if eqb text (u "⭐️ Сириус") then show_celestial_body_direct (u "Сириус")
  else if eqb text (u "☀️ Солнце") then show_celestial_body_direct (u "Солнце")
  else if eqb text (u "📊 Сравнить") then
    send (reply_text [Lit (u "⚖️ *Выберите пару для сравнения:*")]
            Markdown (Some get_compare_keyboard))
  else if eqb text (u "📝 Задачи") then
    send (reply_text [Lit (u "📚 *Выберите тип задачи из списка ниже:*")]
            Markdown (Some get_tasks_keyboard))
  else if eqb text (u "🔬 Методы") then show_methods
  else if eqb text (u "❓ Помощь") then show_help
  else if startswith (u "плотность:") (lower text) then
    calculate_density_from_text text
  else
    send (reply_text [Lit (u "Пожалуйста, используйте кнопки меню ⬇️")]
            Plain (Some get_main_keyboard)).

(** [data.split("_")[i]] *)
Definition split_item (data : pystr) (i : nat) : outcome pystr :=
  match split_on 95 data !! i with
  | Some w => Returns w
  | None => Raises                                    (* IndexError *)
  end.

Definition button_callback (data : pystr) : handler unit :=
  send answer;;
  if startswith (u "body_") data then
    body_name ← lift (split_item data 1);
    show_celestial_body_inline body_name
  else if startswith (u "compare_") data then
    match tail (split_on 95 data) with
    | [body1; body2] => show_comparison body1 body2
    | _ => mret tt
    end
  else if startswith (u "task_") data then
    task_type ← lift (split_item data 1);
    show_task_with_solution task_type
  else if eqb data (u "back_main") then
    send (edit_message_text [Lit (u "🏠 *Возврат в главное меню*")] Markdown None);;
    send (edit_message_reply_markup None);;
    send (reply_text [Lit (u "Главное меню:")] Plain (Some get_main_keyboard))
  else if eqb data (u "back_planets") then
    send (edit_message_text [Lit (u "🌌 *Выберите планету:*")]
            Markdown (Some get_planets_keyboard))
  else if eqb data (u "back_compare") then
    send (edit_message_text [Lit (u "⚖️ *Выберите пару для сравнения:*")]
            Markdown (Some get_compare_keyboard))
  else if eqb data (u "back_tasks") then
    send (edit_message_text [Lit (u "📚 *Выберите тип задачи:*")]
            Markdown (Some get_tasks_keyboard))
  else mret tt.

End Handlers.

(** ** The [/start] command *)

Definition welcome : pystr := u "
🚀 *Добро пожаловать в AstroBot!*
*Справочник для олимпиадной астрономии*

*Доступные объекты:*
• ☀️ **Солнце** - наша звезда
• 🪐 **8 Планет** - от Меркурия до Нептуна
• ⭐️ **Сириус** - самая яркая звезда

*Функции:*
📊 **Сравнить** - сравнение двух объектов
📝 **Задачи** - олимпиадные задачи с решениями
🔬 **Методы** - методики измерений
❓ **Помощь** - справка по боту

*Нажмите кнопку ниже для начала:*
".

Definition start_command : handler unit :=
  send (reply_text [Lit welcome] Markdown (Some get_main_keyboard)).

(** ** CelestialDatabase: loading and saving the catalogue

    The class reads and writes one file, [json_file].  The world is that
    file (absent, or present with some contents), whether it can be opened
    for reading, and what the next attempt to write it does.  The two
    functions of the [json] module are parameters.  Log messages are left
    out. *)

Module Database.

(** What [json.load] can return: a catalogue, or another JSON value, of
    which the code observes the truth value and whether [len] applies. *)
Inductive pydata : Type :=
| Dict (c : gmap (list N) (gmap string (list N)))
| Other (truth sized : bool).

(** [bool(data)] *)
Definition truthy (data : pydata) : bool :=
  match data with
  | Dict c => negb (bool_decide (c = ∅))
  | Other truth _ => truth
  end.

(** Whether [len(data)] returns (it raises [TypeError] otherwise). *)
Definition has_len (data : pydata) : bool :=
  match data with
  | Dict _ => true
  | Other _ sized => sized
  end.

Section Files.

Variable content : Type.
(** [json.dump(data, f, ensure_ascii=False, indent=2)]: the text written. *)
Variable json_dump : pydata -> content.
(** [json.load(f)]: the value read, or [None] for [JSONDecodeError] and any
    other exception. *)
Variable json_load : content -> option pydata.

(** What [with open(json_file, 'w') as f: json.dump(...)] does: it completes,
    or [open] raises, or the file is opened (and truncated) and the writing
    raises, leaving [partial] behind. *)
Inductive write_result : Type :=
| Written
| OpenFailed
| DumpFailed (partial : content).

Record world : Type := {
  file : option content;
  readable : bool;
  on_write : write_result
}.

Definition write (w : world) (c : content) : world * bool :=
  match on_write w with
  | Written =>
      ({| file := Some c; readable := readable w; on_write := on_write w |}, true)
  | OpenFailed => (w, false)
  | DumpFailed partial =>
      ({| file := Some partial; readable := readable w; on_write := on_write w |}, false)
  end.

(** The exception of a failed write is caught and logged. *)
Definition save_data (w : world) (data : pydata) : world :=
  fst (write w (json_dump data)).

Definition create_sample_data (w : world) : world * pydata :=
  let data := Dict create_sample_data in
  (save_data w data, data).

(** [load_data], called by [__init__] with [self.data = {}]: every exception
    leaves the empty dictionary. *)
Definition load_data (w : world) : world * pydata :=
  match file w with
  | None => create_sample_data w             (* not os.path.exists(json_file) *)
  | Some c =>
      if readable w then
        match json_load c with
        | Some data =>
            if has_len data then (w, data)
            else (w, Dict ∅)                   (* TypeError from len(self.data) *)
        | None => (w, Dict ∅)
        end
      else (w, Dict ∅)
  end.

(** Module initialisation: [celestial_db = CelestialDatabase(...)],
    [CELESTIAL_DATA = celestial_db.data], and [sys.exit(1)] (here [None])
    when the data is falsy. *)
Definition startup (w : world) : world * option pydata :=
  let '(w', data) := load_data w in
  (w', if truthy data then Some data else None).

End Files.

End Database.

(** ** Predicates used in the statements *)

(** A character that can contribute a digit to the residue: a decimal digit
    of any script or a superscript digit. *)
Definition is_digit_char (c : N) : bool :=
  is_decimal c || bool_decide (c ∈ superscript_map.*1).

Definition has_digit (s : pystr) : bool := existsb is_digit_char s.

Definition is_num_token (t : Eval.token) : bool :=
  match t with Eval.TNum _ => true | _ => false end.

Fixpoint has_literal (e : Eval.expr) : bool :=
  match e with
  | Eval.ENum _ => true
  | Eval.EName | Eval.EEllipsis => false
  | Eval.EAttr e1 | Eval.EUn _ e1 => has_literal e1
  | Eval.EBin _ l r => has_literal l || has_literal r
  end.

(** Lexer states that hold the digits of an unfinished number. *)
Definition in_number (st : Eval.lexstate) : bool :=
  match st with
  | Eval.LInt _ | Eval.LFrac _ _ | Eval.LExpMark _ _
  | Eval.LExpSign _ _ _ | Eval.LExp _ _ _ _ => true
  | _ => false
  end.

(** The tokens a lexer state can emit first. *)
Definition may_start (st : Eval.lexstate) (t : Eval.token) : bool :=
  match st, t with
  | Eval.LStart, _ => true
  | Eval.LName, Eval.TName => true
  | Eval.LDot1, (Eval.TDot | Eval.TNum _ | Eval.TEllipsis) => true
  | Eval.LDot2, (Eval.TDot | Eval.TEllipsis) => true
  | Eval.LStar, (Eval.TStar | Eval.TPow) => true
  | (Eval.LInt _ | Eval.LFrac _ _ | Eval.LExpMark _ _
     | Eval.LExpSign _ _ _ | Eval.LExp _ _ _ _), Eval.TNum _ => true
  | _, _ => false
  end.

(** The keyboard shown once a handler is done: the markup of its last
    action. *)
Definition rendered_markup {A} (h : handler A) : option markup :=
  match last (fst h) with
  | Some (reply_text _ _ m) => m
  | Some (edit_message_text _ _ m) => m
  | Some (edit_message_reply_markup m) => m
  | _ => None
  end.

(** The callback tokens of the inline buttons a handler leaves on screen. *)
Definition offered_tokens {A} (h : handler A) : list pystr :=
  match rendered_markup h with
  | Some (InlineKeyboardMarkup keyboard) => List.map snd (concat keyboard)
  | _ => []
  end.

(** The messages a handler sent or edited. *)
Definition is_render (a : action) : bool :=
  match a with
  | reply_text _ _ _ | edit_message_text _ _ _ => true
  | _ => false
  end.

(** The keys [format_body_info] reads without a guard. *)
Definition required_keys : list string :=
  ["emoji"; "name_en"; "type"; "mass"; "radius";
   "accuracy"; "sources"; "task"; "solution"]%string.

(** Rational partial sums of the series the Standard Library bounds [PI]
    with ([PI_2_3_7_ineq]). *)
Fixpoint qpow (q : Q) (n : nat) : Q :=
  match n with
  | O => 1%Q
  | S n' => (q * qpow q n')%Q
  end.

Definition ratan_seq_q (x : Q) (n : nat) : Q :=
  (qpow x (2 * n + 1) / inject_Z (Z.of_nat (2 * n + 1)))%Q.

Definition pi_term_q (i : nat) : Q :=
  (qpow (-1) i * (2 * ratan_seq_q (1 # 3) i + ratan_seq_q (1 # 7) i))%Q.

Fixpoint pi_sum_q (n : nat) : Q :=
  match n with
  | O => pi_term_q 0
  | S i => (pi_sum_q i + pi_term_q (S i))%Q
  end.

(** The string [d1.d2×10] followed by the superscript of the digit [e]. *)
Definition superscript_form (d1 d2 e : N) : pystr :=
  [48 + d1; 46; 48 + d2; 215; 49; 48; nth (N.to_nat e) superscript_map.*1 0]%N.

(** What the parser returns on [superscript_form d1 d2 e]: the mantissa times
    the integer [10e], which is the mantissa times ten to the [e] only for a
    zero mantissa. *)
Definition pasted_exponent (d1 d2 e : N) : bool :=
  let mantissa := Eval.float_value [d1] [d2] 0 in
  match parse_scientific_number (superscript_form d1 d2 e) with
  | Returns (Some (PyFloat q)) =>
      Qeq_bool q (mantissa * inject_Z (100 + Z.of_N e))
      && implb (Qeq_bool q (mantissa * 10 ^ Z.of_N e)) (Qzero mantissa)
  | _ => false
  end.

Definition decimal_digits : list N := [0; 1; 2; 3; 4; 5; 6; 7; 8; 9]%N.

(** The alphabet of the strings [parse_scientific_number] hands to [eval]:
    decimal digits, [.], [e], [E], [+], [-] and [*]. *)
Definition eval_alphabet (c : N) : bool :=
  is_decimal c || (c =? 46)%N || (c =? 101)%N || (c =? 69)%N
  || (c =? 43)%N || (c =? 45)%N || (c =? 42)%N.

(** The kept characters other than the superscripts. *)
Definition kept_plain (c : N) : bool :=
  is_decimal c || (c =? 215)%N || (c =? 46)%N || (c =? 101)%N || (c =? 69)%N
  || (c =? 43)%N || (c =? 45)%N || (c =? 94)%N.

(** The ASCII rendering of a list of decimal digits. *)
Definition ascii_digits (ds : list N) : pystr := List.map (N.add 48) ds.

Definition all_digits (ds : list N) : bool := forallb (fun d => d <? 10)%N ds.

(** The characters of a plain decimal literal with exponent. *)
Definition plain_char (c : N) : bool :=
  is_ascii_digit c || (c =? 46)%N || (c =? 101)%N || (c =? 69)%N
  || (c =? 43)%N || (c =? 45)%N.

Definition is_answer (a : action) : bool :=
  match a with answer => true | _ => false end.

(** The keyboards the callback screens carry. *)
Definition inline_keyboards : list (option markup) :=
  [None;
   Some get_planets_keyboard; Some get_compare_keyboard; Some get_tasks_keyboard;
   Some (InlineKeyboardMarkup [[(u "🔙 Назад к планетам", u "back_planets")]]);
   Some (InlineKeyboardMarkup [[(u "🔙 Назад в меню", u "back_main")]]);
   Some (InlineKeyboardMarkup [[(u "🔙 Назад к сравнению", u "back_compare")]]);
   Some (InlineKeyboardMarkup [[(u "🔙 Назад к задачам", u "back_tasks")]])].

(** The keyboards the replies to text messages carry. *)
Definition reply_keyboards : list (option markup) :=
  [None; Some get_main_keyboard;
   Some get_planets_keyboard; Some get_compare_keyboard; Some get_tasks_keyboard].

(** An edit of the message under the pressed button. *)
Definition inline_screen (a : action) : Prop :=
  match a with
  | edit_message_text _ _ m => m ∈ inline_keyboards
  | _ => False
  end.

(** A reply to a text message. *)
Definition reply_screen (a : action) : Prop :=
  match a with
  | reply_text _ _ m => m ∈ reply_keyboards
  | _ => False
  end.

(** A handler that sends one message of kind [P] when it completes and
    nothing when it does not. *)
Definition one_action {A} (P : action -> Prop) (h : handler A) : Prop :=
  match snd h with
  | Returns _ => exists a, fst h = [a] /\ P a
  | _ => fst h = []
  end.

(** The callback tokens of a keyboard. *)
Definition markup_tokens (m : option markup) : list pystr :=
  match m with
  | Some (InlineKeyboardMarkup keyboard) => List.map snd (concat keyboard)
  | _ => []
  end.

(** The labels of a reply keyboard. *)
Definition markup_labels (m : markup) : list pystr :=
  match m with
  | ReplyKeyboardMarkup keyboard => concat keyboard
  | _ => []
  end.

(** The three actions of the [back_main] branch. *)
Definition back_main_actions : list action :=
  [answer;
   edit_message_text [Lit (u "🏠 *Возврат в главное меню*")] Markdown None;
   edit_message_reply_markup None;
   reply_text [Lit (u "Главное меню:")] Plain (Some get_main_keyboard)].

(** A callback that completes and shows a screen. *)
Definition shows_screen (h : handler unit) : bool :=
  match snd h with
  | Returns _ => existsb is_render (fst h)
  | _ => false
  end.

(** A float result inside the normal range (or zero). *)
Definition normal (q : Q) : Prop := float_class_of q = Normal.

(** The mass and every result of the density computation for mass [m] and
    radius [r] are inside the normal range. *)
Definition density_in_range (m r : Q) : Prop :=
  normal m /\ normal (r ^ 3) /\ normal (4 / 3 * 3.1415926535 * r ^ 3)
  /\ normal (m / (4 / 3 * 3.1415926535 * r ^ 3))
  /\ normal (m / (4 / 3 * 3.1415926535 * r ^ 3) / 1000).

(** Replace a string literal by its code points. *)
Ltac literal s :=
  let v := eval vm_compute in (u s) in change (u s) with v.

(** * Facts about the expression parser *)

Module EvalFacts.
Import Eval.

Lemma parse_attrs_length e ts e' r :
  parse_attrs e ts = (e', r) -> (length r <= length ts)%nat.
Proof.
  revert e. induction ts as [ts IH] using (well_founded_induction
    (well_founded_ltof _ (@length token))).
  intros e H. destruct ts as [|[] [|[] ts']]; simpl in H;
    try (injection H as <- <-; simpl; lia).
  apply IH in H; [simpl; lia | unfold ltof; simpl; lia].
Qed.

Lemma parse_primary_length ts e r :
  parse_primary ts = Some (e, r) -> (length r < length ts)%nat.
Proof.
  unfold parse_primary, parse_atom. intros H.
  destruct ts as [|[] ts']; try discriminate;
    injection H as H; apply parse_attrs_length in H; simpl; lia.
Qed.

Lemma parse_factor_length fuel : forall ts e r,
  parse_factor fuel ts = Some (e, r) -> (length r < length ts)%nat.
Proof.
  induction fuel as [|fuel IH]; intros ts e r H; [discriminate|].
  simpl in H.
  assert (Hpow : forall ts,
    match parse_primary ts with
    | Some (p, TPow :: r0) =>
        match parse_factor fuel r0 with
        | Some (e0, r') => Some (EBin Pow p e0, r')
        | None => None
        end
    | other => other
    end = Some (e, r) -> (length r < length ts)%nat).
  { clear H ts. intros ts H.
    destruct (parse_primary ts) as [[p rest]|] eqn:Hp; [|discriminate].
    apply parse_primary_length in Hp.
    destruct rest as [|[] rest']; try (injection H as <- <-; exact Hp).
    destruct (parse_factor fuel rest') as [[e0 r']|] eqn:Hf; [|discriminate].
    injection H as <- <-. apply IH in Hf. simpl in Hp. lia. }
  destruct ts as [|[] ts']; try (apply Hpow in H; exact H).
  - destruct (parse_factor fuel ts') as [[e0 r']|] eqn:Hf; [|discriminate].
    injection H as <- <-. apply IH in Hf. simpl. lia.
  - destruct (parse_factor fuel ts') as [[e0 r']|] eqn:Hf; [|discriminate].
    injection H as <- <-. apply IH in Hf. simpl. lia.
Qed.


Lemma parse_term_rest_length fuel : forall l ts e r,
  parse_term_rest fuel l ts = Some (e, r) -> (length r <= length ts)%nat.
Proof.
  induction fuel as [|fuel IH]; intros l ts e r H; [discriminate|].
  simpl in H. destruct ts as [|[] ts']; try (injection H as <- <-; lia).
  destruct (parse_factor fuel ts') as [[e0 r']|] eqn:Hf; [|discriminate].
  apply parse_factor_length in Hf. apply IH in H. simpl. lia.
Qed.

Lemma parse_term_length fuel ts e r :
  parse_term fuel ts = Some (e, r) -> (length r < length ts)%nat.
Proof.
  unfold parse_term. intros H.
  destruct (parse_factor fuel ts) as [[e0 r']|] eqn:Hf; [|discriminate].
  apply parse_factor_length in Hf. apply parse_term_rest_length in H. lia.
Qed.

(** Fuel above the number of tokens does not change a result. *)
Lemma parse_factor_fuel f1 : forall f2 ts,
  (length ts < f1)%nat -> (length ts < f2)%nat ->
  parse_factor f1 ts = parse_factor f2 ts.
Proof.
  induction f1 as [|f1 IH]; intros f2 ts H1 H2; [lia|].
  destruct f2 as [|f2]; [lia|]. simpl.
  destruct ts as [|t ts']; [reflexivity|].
  assert (Hrec : parse_factor f1 ts' = parse_factor f2 ts')
    by (apply IH; simpl in *; lia).
  assert (Hpow : forall ts0, (length ts0 < S f1)%nat -> (length ts0 < S f2)%nat ->
    match parse_primary ts0 with
    | Some (p, TPow :: r0) =>
        match parse_factor f1 r0 with
        | Some (e0, r') => Some (EBin Pow p e0, r')
        | None => None
        end
    | other => other
    end =
    match parse_primary ts0 with
    | Some (p, TPow :: r0) =>
        match parse_factor f2 r0 with
        | Some (e0, r') => Some (EBin Pow p e0, r')
        | None => None
        end
    | other => other
    end).
  { intros ts0 Ha Hb.
    destruct (parse_primary ts0) as [[p rest]|] eqn:Hp; [|reflexivity].
    apply parse_primary_length in Hp.
    destruct rest as [|[] rest']; try reflexivity.
    rewrite (IH f2 rest'); [reflexivity| |]; simpl in Hp; lia. }
  destruct t; try (apply Hpow; assumption); rewrite Hrec; reflexivity.
Qed.

Lemma parse_term_rest_fuel f1 : forall f2 l ts,
  (length ts < f1)%nat -> (length ts < f2)%nat ->
  parse_term_rest f1 l ts = parse_term_rest f2 l ts.
Proof.
  induction f1 as [|f1 IH]; intros f2 l ts H1 H2; [lia|].
  destruct f2 as [|f2]; [lia|]. simpl.
  destruct ts as [|[] ts']; try reflexivity.
  simpl in H1, H2.
  rewrite (parse_factor_fuel f1 f2 ts') by lia.
  destruct (parse_factor f2 ts') as [[e0 r']|] eqn:Hf; [|reflexivity].
  apply parse_factor_length in Hf. apply IH; lia.
Qed.

Lemma parse_term_fuel f1 f2 ts :
  (length ts < f1)%nat -> (length ts < f2)%nat ->
  parse_term f1 ts = parse_term f2 ts.
Proof.
  intros H1 H2. unfold parse_term.
  rewrite (parse_factor_fuel f1 f2 ts) by lia.
  destruct (parse_factor f2 ts) as [[e0 r']|] eqn:Hf; [|reflexivity].
  apply parse_factor_length in Hf. apply parse_term_rest_fuel; lia.
Qed.

Lemma parse_sum_rest_fuel f1 : forall f2 l ts,
  (length ts < f1)%nat -> (length ts < f2)%nat ->
  parse_sum_rest f1 l ts = parse_sum_rest f2 l ts.
Proof.
  induction f1 as [|f1 IH]; intros f2 l ts H1 H2; [lia|].
  destruct f2 as [|f2]; [lia|]. simpl.
  destruct ts as [|[] ts']; try reflexivity; simpl in H1, H2;
    rewrite (parse_term_fuel f1 f2 ts') by lia;
    (destruct (parse_term f2 ts') as [[e0 r']|] eqn:Hf; [|reflexivity]);
    apply parse_term_length in Hf; apply IH; lia.
Qed.

Lemma parse_sum_fuel f1 f2 ts :
  (length ts < f1)%nat -> (length ts < f2)%nat ->
  parse_sum f1 ts = parse_sum f2 ts.
Proof.
  intros H1 H2. unfold parse_sum.
  rewrite (parse_term_fuel f1 f2 ts) by lia.
  destruct (parse_term f2 ts) as [[e0 r']|] eqn:Hf; [|reflexivity].
  apply parse_term_length in Hf. apply parse_sum_rest_fuel; lia.
Qed.

(** The fuel [parse] runs with is enough: more fuel gives the same answer,
    so a failure of [parse] is a syntax error and not an exhausted budget. *)
Lemma parse_fuel_enough ts fuel :
  (length ts < fuel)%nat -> parse_with fuel ts = parse ts.
Proof.
  intros H. unfold parse, parse_with.
  rewrite (parse_sum_fuel fuel (S (length ts)) ts) by lia. reflexivity.
Qed.


(** *** Strings without digits *)

Lemma classify_digit c d : classify c = CDigit d -> is_ascii_digit c = true.
Proof.
  unfold classify. destruct (is_ascii_digit c); [reflexivity|].
  repeat match goal with |- context [if ?b then _ else _] => destruct b end;
    discriminate.
Qed.

Lemma classify_dot c : classify c = CDot -> c = 46%N.
Proof.
  unfold classify. destruct (is_ascii_digit c); [discriminate|].
  destruct (c =? 46)%N eqn:E; [intros _; apply N.eqb_eq, E|].
  repeat match goal with |- context [if ?b then _ else _] => destruct b end;
    discriminate.
Qed.

Lemma lex_start_numfree c out st :
  lex_start c = Some (out, st) -> (forall d, c <> CDigit d) ->
  forallb (fun t => negb (is_num_token t)) out = true /\ in_number st = false.
Proof.
  intros H Hc. destruct c; simpl in H; try discriminate;
    try (injection H as <- <-; split; reflexivity).
  exfalso. eapply Hc; reflexivity.
Qed.

Lemma lex_step_numfree st c out st' :
  in_number st = false -> (forall d, c <> CDigit d) ->
  lex_step st c = Some (out, st') ->
  forallb (fun t => negb (is_num_token t)) out = true /\ in_number st' = false.
Proof.
  intros Hst Hc H.
  destruct st; try discriminate Hst; destruct c;
    try (exfalso; eapply Hc; reflexivity);
    simpl in H; try discriminate;
    injection H as <- <-; split; reflexivity.
Qed.

Lemma lex_numfree s : forall st ts,
  in_number st = false ->
  forallb (fun c => negb (is_ascii_digit c)) s = true ->
  lex st s = Some ts ->
  forallb (fun t => negb (is_num_token t)) ts = true.
Proof.
  induction s as [|c s IH]; intros st ts Hst Hs H.
  - destruct st; try discriminate Hst; simpl in H;
      injection H as <-; reflexivity.
  - simpl in H, Hs. apply andb_true_iff in Hs as [Hc Hs].
    destruct (lex_step st (classify c)) as [[out st']|] eqn:Hstep; [|discriminate].
    destruct (lex st' s) as [rest|] eqn:Hrest; [|discriminate].
    injection H as <-.
    apply lex_step_numfree in Hstep as [Hout Hst']; [|assumption|].
    + rewrite forallb_app, Hout. simpl. eapply IH; eassumption.
    + intros d Hd. apply classify_digit in Hd. rewrite Hd in Hc. discriminate.
Qed.

Lemma parse_attrs_numfree ts : forall e e' r,
  forallb (fun t => negb (is_num_token t)) ts = true ->
  has_literal e = false ->
  parse_attrs e ts = (e', r) ->
  has_literal e' = false /\ forallb (fun t => negb (is_num_token t)) r = true.
Proof.
  induction ts as [ts IH] using (well_founded_induction
    (well_founded_ltof _ (@length token))).
  intros e e' r Hts He H.
  destruct ts as [|[] [|[] ts']]; simpl in H;
    try (injection H as <- <-; split; assumption).
  apply (IH ts') with (e := EAttr e); [unfold ltof; simpl; lia | exact Hts | exact He | exact H].
Qed.

Lemma parse_primary_numfree ts e r :
  forallb (fun t => negb (is_num_token t)) ts = true ->
  parse_primary ts = Some (e, r) ->
  has_literal e = false /\ forallb (fun t => negb (is_num_token t)) r = true.
Proof.
  unfold parse_primary, parse_atom. intros Hts H.
  destruct ts as [|[] ts']; try discriminate;
    injection H as H; eapply parse_attrs_numfree in H; eauto.
Qed.

Lemma parse_factor_numfree fuel : forall ts e r,
  forallb (fun t => negb (is_num_token t)) ts = true ->
  parse_factor fuel ts = Some (e, r) ->
  has_literal e = false /\ forallb (fun t => negb (is_num_token t)) r = true.
Proof.
  induction fuel as [|fuel IH]; intros ts e r Hts H; [discriminate|].
  simpl in H.
  assert (Hpow :
    match parse_primary ts with
    | Some (p, TPow :: r0) =>
        match parse_factor fuel r0 with
        | Some (e0, r') => Some (EBin Pow p e0, r')
        | None => None
        end
    | other => other
    end = Some (e, r) ->
    has_literal e = false /\ forallb (fun t => negb (is_num_token t)) r = true).
  { clear H. intros H.
    destruct (parse_primary ts) as [[p rest]|] eqn:Hp; [|discriminate].
    apply parse_primary_numfree in Hp as [Hp Hrest]; [|assumption].
    destruct rest as [|[] rest']; try (injection H as <- <-; split; assumption).
    destruct (parse_factor fuel rest') as [[e0 r']|] eqn:Hf; [|discriminate].
    injection H as <- <-. apply IH in Hf as [He0 Hr']; [|exact Hrest].
    simpl. rewrite Hp, He0. split; [reflexivity | assumption]. }
  destruct ts as [|[] ts']; try (apply Hpow; exact H);
    (destruct (parse_factor fuel ts') as [[e0 r']|] eqn:Hf; [|discriminate]);
    injection H as <- <-; (apply IH in Hf; [exact Hf | exact Hts]).
Qed.

Lemma parse_term_rest_numfree fuel : forall l ts e r,
  forallb (fun t => negb (is_num_token t)) ts = true ->
  has_literal l = false ->
  parse_term_rest fuel l ts = Some (e, r) ->
  has_literal e = false /\ forallb (fun t => negb (is_num_token t)) r = true.
Proof.
  induction fuel as [|fuel IH]; intros l ts e r Hts Hl H; [discriminate|].
  simpl in H. destruct ts as [|[] ts']; try (injection H as <- <-; split; assumption).
  destruct (parse_factor fuel ts') as [[e0 r']|] eqn:Hf; [|discriminate].
  apply parse_factor_numfree in Hf as [He0 Hr']; [|exact Hts].
  eapply IH in H; [exact H | exact Hr' |]. simpl. rewrite Hl, He0. reflexivity.
Qed.

Lemma parse_term_numfree fuel ts e r :
  forallb (fun t => negb (is_num_token t)) ts = true ->
  parse_term fuel ts = Some (e, r) ->
  has_literal e = false /\ forallb (fun t => negb (is_num_token t)) r = true.
Proof.
  unfold parse_term. intros Hts H.
  destruct (parse_factor fuel ts) as [[e0 r']|] eqn:Hf; [|discriminate].
  apply parse_factor_numfree in Hf as [He0 Hr']; [|exact Hts].
  eapply parse_term_rest_numfree; eassumption.
Qed.

Lemma parse_sum_rest_numfree fuel : forall l ts e r,
  forallb (fun t => negb (is_num_token t)) ts = true ->
  has_literal l = false ->
  parse_sum_rest fuel l ts = Some (e, r) ->
  has_literal e = false /\ forallb (fun t => negb (is_num_token t)) r = true.
Proof.
  induction fuel as [|fuel IH]; intros l ts e r Hts Hl H; [discriminate|].
  simpl in H. destruct ts as [|[] ts']; try (injection H as <- <-; split; assumption);
    (destruct (parse_term fuel ts') as [[e0 r']|] eqn:Hf; [|discriminate]);
    (apply parse_term_numfree in Hf as [He0 Hr']; [|exact Hts]);
    (eapply IH in H; [exact H | exact Hr' |]); simpl; rewrite Hl, He0; reflexivity.
Qed.

Lemma parse_numfree ts e :
  forallb (fun t => negb (is_num_token t)) ts = true ->
  parse ts = Some e -> has_literal e = false.
Proof.
  unfold parse, parse_with, parse_sum. intros Hts H.
  destruct (parse_term (S (length ts)) ts) as [[e0 r0]|] eqn:Ht; [|discriminate].
  apply parse_term_numfree in Ht as [He0 Hr0]; [|exact Hts].
  destruct (parse_sum_rest (S (length ts)) e0 r0) as [[e1 r1]|] eqn:Hs; [|discriminate].
  apply parse_sum_rest_numfree in Hs as [He1 _]; [|assumption..].
  destruct r1; [|discriminate]. injection H as <-. exact He1.
Qed.

(** An expression without a numeric literal either raises or is the bare
    [...] atom. *)
Lemma eval_numfree e :
  has_literal e = false ->
  eval_expr e = Raises \/ e = EEllipsis.
Proof.
  induction e as [v| | |e1 IH|o e1 IH|o l IHl r IHr]; simpl; intros H.
  - discriminate.
  - left; reflexivity.
  - right; reflexivity.
  - left. destruct (IH H) as [-> | ->]; reflexivity.
  - left. destruct (IH H) as [-> | ->]; [reflexivity|]. destruct o; reflexivity.
  - left. apply orb_false_iff in H as [Hl Hr].
    destruct (IHl Hl) as [-> | ->]; [reflexivity|].
    destruct (IHr Hr) as [-> | ->]; [reflexivity|]. destruct o; reflexivity.
Qed.


(** *** The only source of the value [Ellipsis] *)

Lemma parse_attrs_ellipsis ts : forall e r,
  parse_attrs e ts = (EEllipsis, r) -> e = EEllipsis /\ r = ts.
Proof.
  induction ts as [ts IH] using (well_founded_induction
    (well_founded_ltof _ (@length token))).
  intros e r H.
  destruct ts as [|[] [|[] ts']]; simpl in H;
    try (injection H as <- <-; split; reflexivity).
  apply (IH ts') in H; [|unfold ltof; simpl; lia].
  destruct H as [H _]. discriminate.
Qed.

Lemma parse_primary_ellipsis ts r :
  parse_primary ts = Some (EEllipsis, r) -> ts = TEllipsis :: r.
Proof.
  unfold parse_primary, parse_atom. intros H.
  destruct ts as [|[] ts']; try discriminate;
    injection H as H; apply parse_attrs_ellipsis in H as [H ->];
    try discriminate; reflexivity.
Qed.

Lemma parse_factor_ellipsis fuel ts r :
  parse_factor fuel ts = Some (EEllipsis, r) -> ts = TEllipsis :: r.
Proof.
  destruct fuel as [|fuel]; [discriminate|]. simpl. intros H.
  assert (Hpow :
    match parse_primary ts with
    | Some (p, TPow :: r0) =>
        match parse_factor fuel r0 with
        | Some (e0, r') => Some (EBin Pow p e0, r')
        | None => None
        end
    | other => other
    end = Some (EEllipsis, r) -> ts = TEllipsis :: r).
  { clear H. intros H.
    destruct (parse_primary ts) as [[p rest]|] eqn:Hp; [|discriminate].
    destruct rest as [|[] rest'];
      try (injection H as -> <-; apply parse_primary_ellipsis; exact Hp).
    destruct (parse_factor fuel rest') as [[e0 r']|]; discriminate. }
  destruct ts as [|[] ts']; try (apply Hpow; exact H);
    destruct (parse_factor fuel ts') as [[e0 r']|]; discriminate.
Qed.

Lemma parse_term_rest_ellipsis fuel : forall l ts r,
  parse_term_rest fuel l ts = Some (EEllipsis, r) -> l = EEllipsis /\ r = ts.
Proof.
  induction fuel as [|fuel IH]; intros l ts r H; [discriminate|].
  simpl in H. destruct ts as [|[] ts']; try (injection H as <- <-; split; reflexivity).
  destruct (parse_factor fuel ts') as [[e0 r']|]; [|discriminate].
  apply IH in H as [H _]. discriminate.
Qed.

Lemma parse_sum_rest_ellipsis fuel : forall l ts r,
  parse_sum_rest fuel l ts = Some (EEllipsis, r) -> l = EEllipsis /\ r = ts.
Proof.
  induction fuel as [|fuel IH]; intros l ts r H; [discriminate|].
  simpl in H. destruct ts as [|[] ts']; try (injection H as <- <-; split; reflexivity);
    (destruct (parse_term fuel ts') as [[e0 r']|]; [|discriminate]);
    apply IH in H as [H _]; discriminate.
Qed.

Lemma parse_ellipsis ts : parse ts = Some EEllipsis -> ts = [TEllipsis].
Proof.
  unfold parse, parse_with, parse_sum, parse_term. intros H.
  destruct (parse_factor (S (length ts)) ts) as [[e0 r0]|] eqn:Hf; [|discriminate].
  destruct (parse_term_rest (S (length ts)) e0 r0) as [[e1 r1]|] eqn:Ht; [|discriminate].
  destruct (parse_sum_rest (S (length ts)) e1 r1) as [[e2 r2]|] eqn:Hs; [|discriminate].
  destruct r2; [|discriminate]. injection H as ->.
  apply parse_sum_rest_ellipsis in Hs as [-> <-].
  apply parse_term_rest_ellipsis in Ht as [-> <-].
  apply parse_factor_ellipsis in Hf. exact Hf.
Qed.

Lemma int_token_num ds t : int_token ds = Some t -> is_num_token t = true.
Proof.
  unfold int_token. intros H.
  destruct ds as [|[|p] [|d ds']]; try (injection H as <-; reflexivity).
  destruct (forallb _ _); [injection H as <-; reflexivity | discriminate].
Qed.

Lemma lex_step_progress st c out st' :
  lex_step st c = Some (out, st') -> out <> [] \/ st' <> LStart.
Proof.
  intros H. destruct st; destruct c; simpl in H;
    repeat match type of H with
           | context [int_token ?ds] => destruct (int_token ds)
           end;
    try discriminate; injection H as <- <-;
    first [left; discriminate | right; discriminate].
Qed.

Lemma lex_nonempty s : forall st ts,
  lex st s = Some ts -> st <> LStart \/ s <> [] -> ts <> [].
Proof.
  induction s as [|c s IH]; intros st ts H Hne.
  - destruct Hne as [Hne|Hne]; [|congruence].
    destruct st; simpl in H; try congruence;
      repeat match type of H with
             | context [int_token ?ds] => destruct (int_token ds)
             end;
      try discriminate; injection H as <-; discriminate.
  - simpl in H.
    destruct (lex_step st (classify c)) as [[out st']|] eqn:Hstep; [|discriminate].
    destruct (lex st' s) as [rest|] eqn:Hrest; [|discriminate].
    injection H as <-.
    apply lex_step_progress in Hstep as [Hout | Hst'].
    + destruct out; [congruence | discriminate].
    + apply IH in Hrest; [|left; exact Hst'].
      destruct out; [exact Hrest | discriminate].
Qed.

Lemma lex_start_empty s : lex LStart s = Some [] -> s = [].
Proof.
  intros H. destruct s as [|c s]; [reflexivity|].
  exfalso. eapply lex_nonempty; [exact H | right; discriminate | reflexivity].
Qed.

Lemma lex_step_head st c out st' :
  lex_step st c = Some (out, st') ->
  match out with
  | t :: _ => may_start st t = true
  | [] => forall t, may_start st' t = true -> may_start st t = true
  end.
Proof.
  intros H. destruct st; destruct c; simpl in H;
    repeat match type of H with
           | context [int_token ?ds] =>
               let E := fresh "E" in
               destruct (int_token ds) eqn:E;
               [apply int_token_num in E|]
           end;
    try discriminate; injection H as <- <-; simpl;
    try reflexivity; try assumption;
    try (intros [] Ht; simpl in *; congruence).
Qed.

Lemma lex_head s : forall st t ts,
  lex st s = Some (t :: ts) -> may_start st t = true.
Proof.
  induction s as [|c s IH]; intros st t ts H.
  - destruct st; simpl in H; try reflexivity;
      repeat match type of H with
             | context [int_token ?ds] =>
                 let E := fresh "E" in
                 destruct (int_token ds) eqn:E;
                 [apply int_token_num in E|]
             end;
      try discriminate; injection H as <- <-; simpl; try reflexivity; assumption.
  - simpl in H.
    destruct (lex_step st (classify c)) as [[out st']|] eqn:Hstep; [|discriminate].
    destruct (lex st' s) as [rest|] eqn:Hrest; [|discriminate].
    injection H as H. apply lex_step_head in Hstep.
    destruct out as [|t0 out'].
    + simpl in H. subst rest. apply Hstep. eapply IH. exact Hrest.
    + simpl in H. injection H as <- _. exact Hstep.
Qed.

(** [...] is the only string that lexes to the single token [...]. *)
Lemma lex_not_ellipsis st s :
  may_start st TEllipsis = false -> lex st s <> Some [TEllipsis].
Proof.
  intros Hst H. apply lex_head in H. congruence.
Qed.

Lemma lex_dot2_ellipsis s : lex LDot2 s = Some [TEllipsis] -> s = [46]%N.
Proof.
  intros H. destruct s as [|c s]; [discriminate|]. simpl in H.
  destruct (classify c) eqn:C; simpl in H; try discriminate;
    match type of H with
    | context [lex ?st s] => destruct (lex st s) as [rest|] eqn:L; [|discriminate]
    end;
    injection H as H; try discriminate.
  subst rest. apply lex_start_empty in L. subst s.
  apply classify_dot in C. subst c. reflexivity.
Qed.

Lemma lex_dot1_ellipsis s : lex LDot1 s = Some [TEllipsis] -> s = [46; 46]%N.
Proof.
  intros H. destruct s as [|c s]; [discriminate|]. simpl in H.
  destruct (classify c) eqn:C; simpl in H; try discriminate;
    match type of H with
    | context [lex ?st s] => destruct (lex st s) as [rest|] eqn:L; [|discriminate]
    end;
    injection H as H; try discriminate.
  - simpl in H. subst rest. apply lex_not_ellipsis in L; [contradiction|reflexivity].
  - simpl in H. subst rest. apply lex_dot2_ellipsis in L. subst s.
    apply classify_dot in C. subst c. reflexivity.
Qed.

(** [...] is the only string that lexes to the single token [...]. *)
Lemma tokenize_ellipsis s :
  tokenize s = Some [TEllipsis] -> s = [46; 46; 46]%N.
Proof.
  unfold tokenize.
  intros H. destruct s as [|c s]; [discriminate|]. simpl in H.
  destruct (classify c) eqn:C; simpl in H; try discriminate;
    match type of H with
    | context [lex ?st s] => destruct (lex st s) as [rest|] eqn:L; [|discriminate]
    end;
    injection H as H; try discriminate;
    simpl in H; subst rest;
    try (apply lex_not_ellipsis in L; [contradiction|reflexivity]).
  apply lex_dot1_ellipsis in L. subst s.
  apply classify_dot in C. subst c. reflexivity.
Qed.

End EvalFacts.

(** * Facts about the sanitiser *)

Lemma replace1_absent old new a :
  forallb (fun c => negb (c =? old)%N) a = true -> replace1 old new a = a.
Proof.
  induction a as [|c a IH]; simpl; intros H; [reflexivity|].
  apply andb_true_iff in H as [Hc Ha]. apply negb_true_iff in Hc.
  rewrite Hc. simpl. f_equal. apply IH, Ha.
Qed.

Lemma replace1_forallb (P : N -> bool) old new a :
  forallb P a = true -> forallb P new = true ->
  forallb P (replace1 old new a) = true.
Proof.
  intros Ha Hnew. induction a as [|c a IH]; simpl in *; [reflexivity|].
  apply andb_true_iff in Ha as [Hc Ha].
  rewrite forallb_app. rewrite (IH Ha), andb_true_r.
  destruct (c =? old)%N; [exact Hnew | simpl; rewrite Hc; reflexivity].
Qed.

Lemma ascii_digit_is_decimal c : is_ascii_digit c = true -> is_decimal c = true.
Proof.
  unfold is_ascii_digit, is_decimal, decimal_value, nd_ranges. intros H.
  cbn [List.find fst snd]. rewrite H. reflexivity.
Qed.

Lemma fold_replace1_absent (m : list (N * N)) s :
  (forall p, In p m -> forallb (fun c => negb (c =? fst p)%N) s = true) ->
  fold_left (fun acc p => replace1 (fst p) [snd p] acc) m s = s.
Proof.
  induction m as [|p m IH]; intros Hall; [reflexivity|]. simpl.
  rewrite replace1_absent by (apply Hall; left; reflexivity).
  apply IH. intros q Hq. apply Hall. right. exact Hq.
Qed.

Lemma replace_superscripts_absent s :
  forallb (fun c => negb (bool_decide (c ∈ superscript_map.*1))) s = true ->
  replace_superscripts s = s.
Proof.
  intros H. apply fold_replace1_absent. intros p Hp.
  apply forallb_forall. intros c Hc.
  rewrite forallb_forall in H. specialize (H c Hc).
  apply negb_true_iff in H. apply bool_decide_eq_false in H.
  apply negb_true_iff, N.eqb_neq. intros ->. apply H.
  apply list_elem_of_fmap. exists p. split; [reflexivity|].
  apply list_elem_of_In. exact Hp.
Qed.

Lemma residue_no_digit s :
  has_digit s = false ->
  forallb (fun c => negb (is_ascii_digit c)) (residue s) = true.
Proof.
  intros H. unfold residue.
  assert (Hs : forall c, In c s -> is_digit_char c = false).
  { intros c Hc. destruct (is_digit_char c) eqn:E; [|reflexivity].
    unfold has_digit in H. rewrite <- H. symmetry.
    apply existsb_exists. exists c. split; assumption. }
  assert (Hsup : forallb (fun c => negb (bool_decide (c ∈ superscript_map.*1)))
                   (strip_units s) = true).
  { apply forallb_forall. intros c Hc. apply filter_In in Hc as [Hc _].
    apply Hs in Hc. apply orb_false_iff in Hc as [_ Hc]. rewrite Hc. reflexivity. }
  rewrite (replace_superscripts_absent _ Hsup).
  apply replace1_forallb; [apply replace1_forallb|]; try reflexivity.
  apply forallb_forall. intros c Hc. apply filter_In in Hc as [Hc _].
  apply Hs in Hc. apply orb_false_iff in Hc as [Hc _].
  destruct (is_ascii_digit c) eqn:E; [|reflexivity].
  apply ascii_digit_is_decimal in E. congruence.
Qed.

(** Characters outside the kept class do not reach [eval]. *)
Lemma residue_drops_units s1 c s2 :
  kept_char c = false -> residue (s1 ++ c :: s2) = residue (s1 ++ s2).
Proof.
  intros H. unfold residue, strip_units.
  rewrite !List.filter_app. simpl. rewrite H. reflexivity.
Qed.

Lemma forallb_of_Forall (f : N -> bool) l :
  Forall (fun c => f c = true) l -> forallb f l = true.
Proof.
  induction 1 as [|c l Hc _ IH]; simpl; [reflexivity|]. rewrite Hc, IH. reflexivity.
Qed.

Lemma replace1_weaken (P Q : N -> bool) old new a :
  forallb P a = true -> forallb Q new = true ->
  (forall c, P c = true -> c <> old -> Q c = true) ->
  forallb Q (replace1 old new a) = true.
Proof.
  intros Ha Hnew Hpq. induction a as [|c a IH]; simpl in *; [reflexivity|].
  apply andb_true_iff in Ha as [Hc Ha].
  rewrite forallb_app, (IH Ha), andb_true_r.
  destruct (c =? old)%N eqn:E; [exact Hnew|].
  simpl. rewrite (Hpq c Hc); [reflexivity|]. apply N.eqb_neq, E.
Qed.

Lemma fold_replace1_plain (m : list (N * N)) : forall acc,
  Forall (fun c => kept_plain c = true \/ In c (List.map fst m)) acc ->
  Forall (fun p => kept_plain (snd p) = true) m ->
  Forall (fun c => kept_plain c = true)
    (fold_left (fun acc p => replace1 (fst p) [snd p] acc) m acc).
Proof.
  induction m as [|p m IH]; intros acc Hacc Hm; simpl.
  - eapply Forall_impl; [exact Hacc|]. intros c [H | []]. exact H.
  - apply Forall_cons_1 in Hm as [Hp Hm]. apply IH; [|exact Hm].
    clear IH. induction acc as [|c acc IHacc]; simpl; [constructor|].
    apply Forall_cons_1 in Hacc as [Hc Hacc].
    apply Forall_app. split; [|apply IHacc, Hacc].
    destruct (c =? fst p)%N eqn:E.
    + constructor; [left; exact Hp | constructor].
    + constructor; [|constructor]. destruct Hc as [Hc | [Hc | Hc]].
      * left. exact Hc.
      * apply N.eqb_neq in E. congruence.
      * right. exact Hc.
Qed.

(** [eval] is only ever asked about strings over the modelled alphabet. *)
Lemma residue_alphabet s : forallb eval_alphabet (residue s) = true.
Proof.
  unfold residue.
  assert (Hplain : forallb kept_plain (replace_superscripts (strip_units s)) = true).
  { apply forallb_of_Forall, fold_replace1_plain.
    - apply List.Forall_forall. intros c Hc. apply filter_In in Hc as [_ Hc].
      unfold kept_char in Hc. unfold kept_plain.
      apply orb_true_iff in Hc as [Hc | Hc]; [left; exact Hc|].
      right. apply bool_decide_eq_true in Hc. apply list_elem_of_In in Hc. exact Hc.
    - repeat constructor. }
  eapply replace1_weaken with (P := fun c => kept_plain c && negb (c =? 215)%N
                                          || (c =? 42)%N).
  - eapply replace1_weaken; [exact Hplain | reflexivity |].
    intros c Hc Hne. rewrite Hc. apply N.eqb_neq in Hne. rewrite Hne. reflexivity.
  - reflexivity.
  - intros c Hc Hne. apply N.eqb_neq in Hne.
    unfold kept_plain in Hc. unfold eval_alphabet.
    rewrite Hne in Hc. rewrite orb_false_r in Hc.
    destruct (is_decimal c); [reflexivity|]. simpl in *.
    destruct (c =? 215)%N; simpl in *.
    + destruct (c =? 42)%N; [|discriminate]. repeat rewrite orb_true_r. reflexivity.
    + repeat match goal with
             | |- context [(c =? ?k)%N] => destruct (c =? k)%N; simpl in *
             end; try reflexivity; discriminate.
Qed.

(** * Facts about [parse_scientific_number] and [calculate_density] *)

Lemma parse_scientific_number_total s :
  parse_scientific_number s <> Raises.
Proof.
  unfold parse_scientific_number. destruct s as [|c s]; [discriminate|].
  destruct (Eval.py_eval _); discriminate.
Qed.

Lemma parse_no_digit s :
  has_digit s = false -> residue s <> [46; 46; 46]%N ->
  parse_scientific_number s = Returns None.
Proof.
  intros Hd Hne. unfold parse_scientific_number.
  destruct s as [|c s]; [reflexivity|].
  set (r := residue (c :: s)) in *.
  assert (Hr := residue_no_digit (c :: s) Hd). fold r in Hr.
  unfold Eval.py_eval.
  destruct (Eval.tokenize r) as [ts|] eqn:Ht; [|reflexivity].
  assert (Hts := EvalFacts.lex_numfree r Eval.LStart ts eq_refl Hr Ht).
  destruct (Eval.parse ts) as [e|] eqn:Hp; [|reflexivity].
  destruct (EvalFacts.eval_numfree e (EvalFacts.parse_numfree ts e Hts Hp)) as [-> | ->];
    [reflexivity|].
  apply EvalFacts.parse_ellipsis in Hp. subst ts.
  apply EvalFacts.tokenize_ellipsis in Ht. contradiction.
Qed.

Lemma parse_unparseable s :
  Eval.py_eval (residue s) = Raises -> parse_scientific_number s = Returns None.
Proof.
  intros H. unfold parse_scientific_number. destruct s; [reflexivity|].
  rewrite H. reflexivity.
Qed.

Lemma calculate_density_total data body_name :
  calculate_density data body_name <> Raises.
Proof.
  unfold calculate_density.
  destruct (data !! body_name) as [body|]; [|discriminate].
  destruct (bool_decide (body = ∅)); [discriminate|].
  match goal with |- try_except ?b _ <> _ => destruct b end; discriminate.
Qed.

Lemma calculate_density_mass_unavailable data body_name body :
  data !! body_name = Some body ->
  parse_scientific_number (get_or_empty body "mass") = Returns None ->
  parse_scientific_number (get_or_empty body "radius") <> Untracked ->
  calculate_density data body_name = Returns None.
Proof.
  intros Hb Hm Hr. unfold calculate_density. rewrite Hb.
  destruct (bool_decide (body = ∅)); [reflexivity|].
  rewrite Hm. simpl.
  destruct (parse_scientific_number (get_or_empty body "radius")) as [[r|]| |] eqn:E;
    try reflexivity; try contradiction.
Qed.

Lemma calculate_density_radius_unavailable data body_name body m :
  data !! body_name = Some body ->
  parse_scientific_number (get_or_empty body "mass") = Returns m ->
  parse_scientific_number (get_or_empty body "radius") = Returns None ->
  calculate_density data body_name = Returns None.
Proof.
  intros Hb Hm Hr. unfold calculate_density. rewrite Hb.
  destruct (bool_decide (body = ∅)); [reflexivity|].
  rewrite Hm, Hr. simpl. destruct m; reflexivity.
Qed.

(** * Facts about the arithmetic *)

Lemma Qzero_iff q : Qzero q = true <-> (q == 0)%Q.
Proof.
  unfold Qzero, Qeq. simpl. rewrite Z.eqb_eq. lia.
Qed.

Lemma Qlt_bool_iff x y : Qlt_bool x y = true <-> (x < y)%Q.
Proof.
  unfold Qlt_bool. rewrite negb_true_iff. split.
  - intros H. apply Qnot_le_lt. intros Hle. apply Qle_bool_iff in Hle. congruence.
  - intros H. destruct (Qle_bool y x) eqn:E; [|reflexivity].
    apply Qle_bool_iff in E. exfalso. eapply Qlt_not_le; eassumption.
Qed.

Lemma Qcube q : (q ^ 3 == q * q * q)%Q.
Proof. simpl. ring. Qed.

Lemma cube_sign q : (0 < q -> 0 < q ^ 3)%Q.
Proof.
  intros H. rewrite Qcube. repeat apply Qmult_lt_0_compat; exact H.
Qed.

Lemma cube_nonpos q : (q <= 0 -> q ^ 3 <= 0)%Q.
Proof.
  intros H. rewrite Qcube. nra.
Qed.

(** ** The range of a float *)

Lemma Qzero_compat q q' : (q == q')%Q -> Qzero q = Qzero q'.
Proof.
  intros H. destruct (Qzero q) eqn:E, (Qzero q') eqn:E'; try reflexivity.
  - apply Qzero_iff in E. rewrite H in E. apply Qzero_iff in E. congruence.
  - apply Qzero_iff in E'. rewrite <- H in E'. apply Qzero_iff in E'. congruence.
Qed.

Lemma Qle_bool_compat x x' y y' :
  (x == x')%Q -> (y == y')%Q -> Qle_bool x y = Qle_bool x' y'.
Proof.
  intros Hx Hy. destruct (Qle_bool x y) eqn:E, (Qle_bool x' y') eqn:E'; try reflexivity.
  - apply Qle_bool_iff in E. rewrite Hx, Hy in E. apply Qle_bool_iff in E. congruence.
  - apply Qle_bool_iff in E'. rewrite <- Hx, <- Hy in E'. apply Qle_bool_iff in E'.
    congruence.
Qed.

Lemma float_class_of_compat q q' : (q == q')%Q -> float_class_of q = float_class_of q'.
Proof.
  intros H. unfold float_class_of.
  assert (Ha : (Qabs q == Qabs q')%Q) by (rewrite H; reflexivity).
  rewrite (Qzero_compat q q' H).
  rewrite (Qle_bool_compat (Qabs q) (Qabs q') float_tiny float_tiny Ha (Qeq_refl _)).
  rewrite (Qle_bool_compat float_huge float_huge (Qabs q) (Qabs q') (Qeq_refl _) Ha).
  rewrite (Qle_bool_compat float_low float_low (Qabs q) (Qabs q') (Qeq_refl _) Ha).
  rewrite (Qle_bool_compat (Qabs q) (Qabs q') float_high float_high Ha (Qeq_refl _)).
  reflexivity.
Qed.

Lemma normal_compat q q' : (q == q')%Q -> normal q -> normal q'.
Proof. unfold normal. intros H. rewrite (float_class_of_compat q q' H). auto. Qed.

Lemma float_of_normal overflow q : normal q -> float_of overflow q = Returns q.
Proof. unfold float_of, normal. intros ->. reflexivity. Qed.

Lemma float_result_normal overflow q :
  normal q -> float_result overflow q = Returns (PyFloat q).
Proof. unfold float_result. intros H. rewrite (float_of_normal _ _ H). reflexivity. Qed.

Lemma normal_zero q : (q == 0)%Q -> normal q.
Proof.
  intros H. unfold normal, float_class_of.
  rewrite (proj2 (Qzero_iff q) H). reflexivity.
Qed.

(** A normal magnitude is at most 2¹⁰²³. *)
Lemma normal_bound q : normal q -> (Qabs q <= float_high)%Q.
Proof.
  unfold normal, float_class_of. destruct (Qzero q) eqn:Hz.
  - intros _. apply Qzero_iff in Hz. rewrite Hz. discriminate.
  - destruct (Qle_bool (Qabs q) float_tiny); [discriminate|].
    destruct (Qle_bool float_huge (Qabs q)); [discriminate|].
    destruct (Qle_bool float_low (Qabs q)); [|discriminate].
    destruct (Qle_bool (Qabs q) float_high) eqn:E; [|discriminate].
    intros _. apply Qle_bool_iff, E.
Qed.

(** An int of normal magnitude converts to a float. *)
Lemma to_float_normal v :
  is_number v = true -> normal (as_float v) -> to_float v = Returns (as_float v).
Proof.
  destruct v as [z|q|]; intros Hv Hn; [| reflexivity | discriminate].
  apply normal_bound in Hn. unfold to_float, as_float in *.
  assert (Hlt : (Z.abs z <? int_max)%Z = true).
  { apply Z.ltb_lt. unfold Qle, Qabs, inject_Z, float_high in Hn. cbn [Qnum Qden] in Hn.
    unfold int_max. lia. }
  rewrite Hlt. reflexivity.
Qed.

(** ** The density calculators on numbers *)

(** [(4 / 3) * 3.1415926535 * (radius ** 3)] *)
Lemma volume_computed vr :
  is_number vr = true ->
  normal (as_float vr ^ 3) -> normal (4 / 3 * 3.1415926535 * as_float vr ^ 3) ->
  exists cube volume,
    py_pow vr (PyInt 3) = Returns cube /\
    py_mul (PyFloat (4 / 3 * 3.1415926535)) cube = Returns (PyFloat volume) /\
    (volume == 4 / 3 * 3.1415926535 * as_float vr ^ 3)%Q.
Proof.
  destruct vr as [z|q|]; intros Hv Hc Hvol; [| |discriminate]; cbn [as_float] in *.
  - assert (Hz : (inject_Z (z ^ 3) == inject_Z z ^ 3)%Q).
    { rewrite Qcube. unfold Qeq. simpl. lia. }
    exists (PyInt (z ^ 3)), (4 / 3 * 3.1415926535 * inject_Z (z ^ 3))%Q.
    split; [reflexivity|]. split; [|rewrite Hz; reflexivity].
    unfold py_mul, py_arith.
    assert (Hn : normal (inject_Z (z ^ 3))).
    { apply (normal_compat (inject_Z z ^ 3)); [symmetry; exact Hz | exact Hc]. }
    rewrite (to_float_normal (PyInt (z ^ 3)) eq_refl Hn).
    cbn [to_float as_float mbind outcome_bind].
    apply float_result_normal.
    apply (normal_compat (4 / 3 * 3.1415926535 * inject_Z z ^ 3));
      [rewrite Hz; reflexivity | exact Hvol].
  - unfold py_pow. cbn [to_float mbind outcome_bind].
    change (Z.abs 3 <? int_max)%Z with true. cbv iota. cbn [mbind outcome_bind].
    unfold float_pow. destruct (Qzero q) eqn:Hq.
    + change (Qneg (inject_Z 3)) with false. change (Qzero (inject_Z 3)) with false.
      cbv iota. apply Qzero_iff in Hq.
      exists (PyFloat 0), (4 / 3 * 3.1415926535 * 0)%Q.
      split; [reflexivity|]. split; [reflexivity|]. rewrite Hq. reflexivity.
    + change (Qintegral (inject_Z 3)) with true. cbv iota.
      change (Qnum (Qred (inject_Z 3))) with 3%Z.
      rewrite (float_result_normal _ _ Hc).
      exists (PyFloat (q ^ 3)), (4 / 3 * 3.1415926535 * q ^ 3)%Q.
      split; [reflexivity|]. split; [|reflexivity].
      unfold py_mul, py_arith. cbn [to_float mbind outcome_bind].
      apply float_result_normal, Hvol.
Qed.

(** [mass / volume] and [density / 1000] *)
Lemma density_computed vm volume :
  is_number vm = true -> normal (as_float vm) -> Qzero volume = false ->
  normal (as_float vm / volume) -> normal (as_float vm / volume / 1000) ->
  py_div vm (PyFloat volume) = Returns (PyFloat (as_float vm / volume)) /\
  py_div (PyFloat (as_float vm / volume)) (PyInt 1000)
  = Returns (PyFloat (as_float vm / volume / 1000)).
Proof.
  intros Hv Hm Hz Hd Hg. split.
  - unfold py_div. destruct vm as [z|q|]; [| |discriminate].
    + rewrite (to_float_normal (PyInt z) eq_refl Hm).
      cbn [to_float as_float mbind outcome_bind]. rewrite Hz.
      apply float_result_normal, Hd.
    + cbn [to_float as_float mbind outcome_bind]. rewrite Hz.
      apply float_result_normal, Hd.
  - unfold py_div. cbn [to_float mbind outcome_bind].
    change (Z.abs 1000 <? int_max)%Z with true. cbv iota. cbn [mbind outcome_bind].
    change (Qzero (inject_Z 1000)) with false. cbv iota.
    apply float_result_normal, Hg.
Qed.

(** Closed form of [calculate_density] on a record whose mass and radius
    parse, the radius to a number whose cube and volume are inside the
    normal range. *)
Lemma calculate_density_numeric data body_name body vm vr :
  data !! body_name = Some body -> body <> ∅ ->
  parse_scientific_number (get_or_empty body "mass") = Returns (Some vm) ->
  parse_scientific_number (get_or_empty body "radius") = Returns (Some vr) ->
  is_number vr = true ->
  normal (as_float vr ^ 3) -> normal (4 / 3 * 3.1415926535 * as_float vr ^ 3) ->
  exists volume,
    (volume == 4 / 3 * 3.1415926535 * as_float vr ^ 3)%Q /\
    calculate_density data body_name =
      if Qlt_bool 0 volume then
        try_except
          (density ← py_div vm (PyFloat volume);
           density_g ← py_div density (PyInt 1000);
           Returns (Some {| name := body_name;
                            mass_kg := vm;
                            radius_m := vr;
                            volume_m3 := PyFloat volume;
                            density_kg_m3 := density;
                            density_g_cm3 := density_g;
                            formula := u "ρ = 3M/(4πR³)" |}))
          (Returns None)
      else Returns (Some {| name := body_name;
                            mass_kg := vm;
                            radius_m := vr;
                            volume_m3 := PyFloat volume;
                            density_kg_m3 := PyInt 0;
                            density_g_cm3 := PyFloat (0 / 1000);
                            formula := u "ρ = 3M/(4πR³)" |}).
Proof.
  intros Hb Hne Hm Hr Hnum Hc Hvol.
  destruct (volume_computed vr Hnum Hc Hvol) as (cube & volume & Hcube & Hmul & Hv).
  exists volume. split; [exact Hv|].
  unfold calculate_density. rewrite Hb.
  rewrite bool_decide_eq_false_2 by exact Hne.
  rewrite Hm, Hr. cbn [mbind outcome_bind].
  change (py_div (PyInt 4) (PyInt 3)) with (Returns (PyFloat (4 / 3))).
  cbn [mbind outcome_bind].
  change (py_mul (PyFloat (4 / 3)) (PyFloat 3.1415926535))
    with (Returns (PyFloat (4 / 3 * 3.1415926535))).
  cbn [mbind outcome_bind]. rewrite Hcube. cbn [mbind outcome_bind].
  rewrite Hmul. cbn [mbind outcome_bind].
  change (py_gt (PyFloat volume) (PyInt 0)) with (Returns (Qlt_bool 0 volume)).
  cbn [mbind outcome_bind].
  destruct (Qlt_bool 0 volume) eqn:Hpos; [reflexivity|].
  change (py_div (PyInt 0) (PyInt 1000)) with (Returns (PyFloat (0 / 1000))).
  reflexivity.
Qed.

(** * The constant of the volume formula *)

Lemma Q2R_qpow q n : Q2R (qpow q n) = (Q2R q ^ n)%R.
Proof.
  induction n as [|n IH]; simpl.
  - unfold Q2R. simpl. lra.
  - rewrite Q2R_mult, IH. reflexivity.
Qed.

Lemma Q2R_inject_nat n : Q2R (inject_Z (Z.of_nat n)) = INR n.
Proof.
  rewrite INR_IZR_INZ. unfold Q2R. simpl. lra.
Qed.

Lemma Q2R_ratan_seq x n : Q2R (ratan_seq_q x n) = Ratan_seq (Q2R x) n.
Proof.
  unfold ratan_seq_q, Ratan_seq.
  rewrite Q2R_div, Q2R_qpow, Q2R_inject_nat; [reflexivity|].
  unfold Qeq. simpl. lia.
Qed.

Lemma Q2R_pi_term i : Q2R (pi_term_q i) = tg_alt PI_2_3_7_tg i.
Proof.
  unfold pi_term_q, tg_alt, PI_2_3_7_tg.
  rewrite Q2R_mult, Q2R_plus, Q2R_mult, Q2R_qpow, !Q2R_ratan_seq.
  replace (Q2R (-1)) with (-1)%R by (unfold Q2R; simpl; lra).
  replace (Q2R 2) with 2%R by (unfold Q2R; simpl; lra).
  replace (Q2R (1 # 3)) with (/ 3)%R by (unfold Q2R; simpl; lra).
  replace (Q2R (1 # 7)) with (/ 7)%R by (unfold Q2R; simpl; lra).
  reflexivity.
Qed.

Lemma Q2R_pi_sum n : Q2R (pi_sum_q n) = sum_f_R0 (tg_alt PI_2_3_7_tg) n.
Proof.
  induction n as [|n IH]; simpl.
  - apply Q2R_pi_term.
  - rewrite Q2R_plus, IH, Q2R_pi_term. reflexivity.
Qed.

(** The constant of the volume formula is [PI] to ten significant digits. *)
Lemma pi_literal_accuracy :
  (Q2R 3.1415926535 < PI < Q2R 3.1415926536)%R.
Proof.
  split.
  - destruct (PI_2_3_7_ineq 4) as [H _]. rewrite <- Q2R_pi_sum in H.
    apply Rlt_le_trans with (Q2R (4 * pi_sum_q (S (2 * 4)))).
    + apply Qlt_Rlt. vm_compute. reflexivity.
    + rewrite Q2R_mult. replace (Q2R 4) with 4%R by (unfold Q2R; simpl; lra). lra.
  - destruct (PI_2_3_7_ineq 5) as [_ H]. rewrite <- Q2R_pi_sum in H.
    apply Rle_lt_trans with (Q2R (4 * pi_sum_q (2 * 5))).
    + rewrite Q2R_mult. replace (Q2R 4) with 4%R by (unfold Q2R; simpl; lra). lra.
    + apply Qlt_Rlt. vm_compute. reflexivity.
Qed.

(** * The density calculators (C1, C3, C7) *)

Lemma volume_positive r volume :
  (0 < r)%Q -> (volume == 4 / 3 * 3.1415926535 * r ^ 3)%Q ->
  Qlt_bool 0 volume = true.
Proof.
  intros Hr Hv. apply Qlt_bool_iff. rewrite Hv.
  apply Qmult_lt_0_compat; [reflexivity | apply cube_sign, Hr].
Qed.

Lemma volume_nonpositive r volume :
  (r <= 0)%Q -> (volume == 4 / 3 * 3.1415926535 * r ^ 3)%Q ->
  Qlt_bool 0 volume = false /\ (volume <= 0)%Q.
Proof.
  intros Hr Hv.
  assert (H : (volume <= 0)%Q).
  { rewrite Hv. apply cube_nonpos in Hr.
    assert (0 < 4 / 3 * 3.1415926535)%Q by reflexivity. nra. }
  split; [|exact H].
  destruct (Qlt_bool 0 volume) eqn:E; [|reflexivity].
  apply Qlt_bool_iff in E. exfalso. eapply Qlt_not_le; eassumption.
Qed.

Lemma volume_zero r : Qzero (4 / 3 * 3.1415926535 * r ^ 3) = Qzero r.
Proof.
  destruct (Qzero r) eqn:E.
  - apply Qzero_iff. apply Qzero_iff in E. rewrite E. reflexivity.
  - destruct (Qzero (4 / 3 * 3.1415926535 * r ^ 3)) eqn:E'; [|reflexivity].
    apply Qzero_iff in E'. rewrite Qcube in E'.
    assert (Hr : ~ (r == 0)%Q).
    { intros H. apply Qzero_iff in H. congruence. }
    exfalso. apply Hr.
    destruct (Qmult_integral _ _ E') as [H | H]; [discriminate H|].
    destruct (Qmult_integral _ _ H) as [H1 | H1]; [|exact H1].
    destruct (Qmult_integral _ _ H1) as [H2 | H2]; exact H2.
Qed.

(** The reply of the free-text calculator to two numbers that [float]
    accepts, when the results are inside the normal range. *)
Lemma calculate_density_from_text_numeric text m r :
  contains (u "масса=") (lower text) = true ->
  contains (u "радиус=") (lower text) = true ->
  Float.py_float (number_after (u "масса=") (lower text)) = Returns m ->
  Float.py_float (number_after (u "радиус=") (lower text)) = Returns r ->
  density_in_range m r ->
  calculate_density_from_text text =
    let volume := (4 / 3 * 3.1415926535 * r ^ 3)%Q in
    if Qzero r then
      send (reply_text [Lit (u "❌ Ошибка расчета: " ++ u "float division by zero")]
              Markdown None)
    else
      send (reply_text (density_report m r volume (m / volume) (m / volume / 1000))
              Markdown None).
Proof.
  intros Hm Hr Hfm Hfr (_ & Hc & Hv & Hd & Hg). unfold calculate_density_from_text.
  rewrite Hm, Hr, Hfm, Hfr. cbn [andb]. cbv iota.
  rewrite (float_of_normal _ _ Hc), (float_of_normal _ _ Hv).
  rewrite volume_zero. cbv zeta. destruct (Qzero r); [reflexivity|].
  rewrite (float_of_normal _ _ Hd), (float_of_normal _ _ Hg). reflexivity.
Qed.

(** The result block carries the five figures. *)
Lemma density_report_figures m r volume density_kg density_g :
  In (Sci 3 m) (density_report m r volume density_kg density_g) /\
  In (Sci 3 r) (density_report m r volume density_kg density_g) /\
  In (Sci 3 volume) (density_report m r volume density_kg density_g) /\
  In (Fixed 2 density_kg) (density_report m r volume density_kg density_g) /\
  In (Fixed 3 density_g) (density_report m r volume density_kg density_g).
Proof.
  unfold density_report. cbn [In].
  repeat split; repeat first [left; reflexivity | right].
Qed.

(** The computed volume is within 10⁻⁹ (relative) of the volume of the
    sphere. *)
Lemma volume_relative_error (r : Q) :
  (0 < r)%Q ->
  (Rabs (Q2R (4 / 3 * 3.1415926535 * r ^ 3) - 4 / 3 * PI * Q2R r ^ 3)
   < / 10 ^ 9 * (4 / 3 * PI * Q2R r ^ 3))%R.
Proof.
  intros Hr. apply Qlt_Rlt in Hr. rewrite RMicromega.Q2R_0 in Hr.
  destruct pi_literal_accuracy as [Hlo Hhi].
  assert (E : Q2R (4 / 3 * 3.1415926535 * r ^ 3)
              = (Q2R (4 / 3) * Q2R 3.1415926535 * (Q2R r * Q2R r * Q2R r))%R).
  { rewrite <- !Q2R_mult. apply Qeq_eqR. rewrite Qcube. reflexivity. }
  rewrite E. clear E.
  change (4 / 3)%Q with (4 # 3).
  replace (Q2R (4 # 3)) with (4 / 3)%R by (unfold Q2R; simpl; lra).
  set (p := Q2R 3.1415926535) in *.
  assert (Hp : Q2R 3.1415926536 = (p + / 10 ^ 10)%R).
  { unfold p, Q2R. simpl. lra. }
  rewrite Hp in Hhi. set (x := Q2R r) in *.
  assert (Hc : (0 < x * x * x)%R)
    by (apply Rmult_lt_0_compat; [apply Rmult_lt_0_compat|]; exact Hr).
  replace (x ^ 3)%R with (x * x * x)%R by ring.
  set (c := (x * x * x)%R) in *.
  assert (Hp0 : (3 < p)%R) by (unfold p, Q2R; simpl; lra).
  rewrite Rabs_left.
  - assert (H : (0 < c * (/ 10 ^ 9 * PI - (PI - p)))%R).
    { apply Rmult_lt_0_compat; [exact Hc | lra]. }
    lra.
  - assert (H : (0 < c * (PI - p))%R) by (apply Rmult_lt_0_compat; lra).
    lra.
Qed.


(** C1 (amended).  For a positive mass and a positive radius for which the
    mass, the cube of the radius, the volume, the density and the g/cm³
    figure are inside the normal float range, both calculators return the
    volume (4/3)·3.1415926535·r³, the density m / volume and the g/cm³ figure
    density / 1000 (rounding ignored), and the reply of the free-text
    calculator carries these figures; the constant 3.1415926535 lies within
    10⁻¹⁰ of π, so that this volume is within 10⁻⁹ (relative) of
    (4/3)·π·r³. *)
Theorem density_formula (m r : Q) :
  (0 < m)%Q -> (0 < r)%Q -> density_in_range m r ->
  (forall data body_name body vm vr,
      data !! body_name = Some body -> body <> ∅ ->
      parse_scientific_number (get_or_empty body "mass") = Returns (Some vm) ->
      parse_scientific_number (get_or_empty body "radius") = Returns (Some vr) ->
      is_number vm = true -> is_number vr = true ->
      (as_float vm == m)%Q -> (as_float vr == r)%Q ->
      exists info,
        calculate_density data body_name = Returns (Some info) /\
        (as_float (volume_m3 info) == 4 / 3 * 3.1415926535 * r ^ 3)%Q /\
        (as_float (density_kg_m3 info) == m / as_float (volume_m3 info))%Q /\
        (as_float (density_g_cm3 info) == as_float (density_kg_m3 info) / 1000)%Q)
  /\ (forall text,
      contains (u "масса=") (lower text) = true ->
      contains (u "радиус=") (lower text) = true ->
      Float.py_float (number_after (u "масса=") (lower text)) = Returns m ->
      Float.py_float (number_after (u "радиус=") (lower text)) = Returns r ->
      exists report volume density_kg density_g,
        calculate_density_from_text text = send (reply_text report Markdown None) /\
        In (Sci 3 volume) report /\
        In (Fixed 2 density_kg) report /\
        In (Fixed 3 density_g) report /\
        (volume == 4 / 3 * 3.1415926535 * r ^ 3)%Q /\
        (density_kg == m / volume)%Q /\
        (density_g == density_kg / 1000)%Q)
  /\ (Q2R 3.1415926535 < PI < Q2R 3.1415926536)%R
  /\ (Rabs (Q2R (4 / 3 * 3.1415926535 * r ^ 3) - 4 / 3 * PI * Q2R r ^ 3)
      < / 10 ^ 9 * (4 / 3 * PI * Q2R r ^ 3))%R.
Proof.
  intros Hm Hr Hrange. split; [|split; [|split]].
  - intros data body_name body vm vr Hb Hne Hpm Hpr Hnm Hnr Hvm Hvr.
    destruct Hrange as (Hnm' & Hc & Hvol & Hd & Hg).
    assert (Hc' : normal (as_float vr ^ 3))
      by (apply (normal_compat (r ^ 3)); [rewrite Hvr; reflexivity | exact Hc]).
    assert (Hvol' : normal (4 / 3 * 3.1415926535 * as_float vr ^ 3))
      by (apply (normal_compat (4 / 3 * 3.1415926535 * r ^ 3));
          [rewrite Hvr; reflexivity | exact Hvol]).
    destruct (calculate_density_numeric data body_name body vm vr
                Hb Hne Hpm Hpr Hnr Hc' Hvol') as (volume & Hv & Hcalc).
    rewrite Hvr in Hv. rewrite (volume_positive r volume Hr Hv) in Hcalc.
    assert (Hz : Qzero volume = false).
    { destruct (Qzero volume) eqn:E; [|reflexivity]. apply Qzero_iff in E.
      pose proof (volume_positive r volume Hr Hv) as Hp.
      apply Qlt_bool_iff in Hp. rewrite E in Hp. discriminate. }
    assert (Hnz : ~ (volume == 0)%Q)
      by (intros E; apply Qzero_iff in E; congruence).
    assert (Hnz' : ~ (4 / 3 * 3.1415926535 * r ^ 3 == 0)%Q)
      by (rewrite <- Hv; exact Hnz).
    destruct (density_computed vm volume Hnm) as [Hdk Hdg]; try exact Hz.
    + apply (normal_compat m); [symmetry; exact Hvm | exact Hnm'].
    + apply (normal_compat (m / (4 / 3 * 3.1415926535 * r ^ 3)));
        [rewrite Hvm, Hv; reflexivity | exact Hd].
    + apply (normal_compat (m / (4 / 3 * 3.1415926535 * r ^ 3) / 1000));
        [rewrite Hvm, Hv; reflexivity | exact Hg].
    + rewrite Hdk in Hcalc. cbn [mbind outcome_bind] in Hcalc.
      rewrite Hdg in Hcalc. cbn [mbind outcome_bind try_except] in Hcalc.
      eexists. split; [exact Hcalc|]. cbn [volume_m3 density_kg_m3 density_g_cm3 as_float].
      split; [exact Hv|]. rewrite Hvm. split; reflexivity.
  - intros text Hcm Hcr Hfm Hfr.
    rewrite (calculate_density_from_text_numeric text m r Hcm Hcr Hfm Hfr Hrange).
    cbv zeta.
    assert (Hz : Qzero r = false).
    { destruct (Qzero r) eqn:E; [|reflexivity]. apply Qzero_iff in E.
      rewrite E in Hr. discriminate. }
    rewrite Hz.
    destruct (density_report_figures m r (4 / 3 * 3.1415926535 * r ^ 3)
                (m / (4 / 3 * 3.1415926535 * r ^ 3))
                (m / (4 / 3 * 3.1415926535 * r ^ 3) / 1000))
      as (_ & _ & Hv & Hd & Hg).
    eexists. exists (4 / 3 * 3.1415926535 * r ^ 3)%Q.
    exists (m / (4 / 3 * 3.1415926535 * r ^ 3))%Q.
    exists (m / (4 / 3 * 3.1415926535 * r ^ 3) / 1000)%Q.
    split; [reflexivity|]. repeat split; try assumption; reflexivity.
  - exact pi_literal_accuracy.
  - exact (volume_relative_error r Hr).
Qed.

(** The scenario of the specification:
    density(mass = 5.9722e24, radius = 6.371e6). *)
Lemma density_formula_witness :
  exists report volume density_kg density_g,
    calculate_density_from_text (u "плотность: масса=5.9722e24 радиус=6.371e6") =
      send (reply_text report Markdown None) /\
    In (Sci 3 volume) report /\
    In (Fixed 2 density_kg) report /\
    In (Fixed 3 density_g) report /\
    (5512 <= density_kg <= 5516)%Q /\ (5.505 <= density_g <= 5.515)%Q.
Proof.
  assert (Hrange : density_in_range ((59722 # 10000) * 10 ^ 24) ((6371 # 1000) * 10 ^ 6))
    by (repeat split; vm_compute; reflexivity).
  destruct (density_formula ((59722 # 10000) * 10 ^ 24) ((6371 # 1000) * 10 ^ 6)
              eq_refl eq_refl Hrange) as (_ & Htext & _).
  destruct (Htext (u "плотность: масса=5.9722e24 радиус=6.371e6"))
    as (report & volume & density_kg & density_g & Hsend & Hiv & Hid & Hig & Hv & Hd & Hg);
    try (vm_compute; reflexivity).
  exists report, volume, density_kg, density_g.
  split; [exact Hsend|]. split; [exact Hiv|]. split; [exact Hid|]. split; [exact Hig|].
  rewrite Hg, Hd, Hv.
  repeat split; unfold Qle; vm_compute; discriminate.
Defined.

(** C1 (counterexample).  Outside the range the figures are not returned: for
    the radius 1e103 the cube overflows, [calculate_density] returns [None]
    and the free-text calculator answers with its calculation error; for the
    radius 1e-108 the cube underflows to zero, [calculate_density] returns
    the density 0 and the free-text calculator answers with the division
    error. *)
Lemma density_formula_out_of_range :
  calculate_density
    {[ u "X" := list_to_map [field "mass" "1 кг"; field "radius" "1e103 м"] ]} (u "X")
  = Returns None
  /\ calculate_density_from_text (u "плотность: масса=1 радиус=1e103")
     = send (reply_text [Lit (u "❌ Ошибка расчета: "); ErrnoText 34] Markdown None)
  /\ match calculate_density
             {[ u "X" := list_to_map [field "mass" "1 кг"; field "radius" "1e-108 м"] ]}
             (u "X") with
     | Returns (Some info) => Some (density_kg_m3 info)
     | _ => None
     end = Some (PyInt 0)
  /\ calculate_density_from_text (u "плотность: масса=1 радиус=1e-108")
     = send (reply_text [Lit (u "❌ Ошибка расчета: " ++ u "float division by zero")]
               Markdown None).
Proof.
  repeat split; vm_compute; reflexivity.
Qed.

Lemma calculate_density_inv data body_name info :
  calculate_density data body_name = Returns (Some info) ->
  exists body,
    data !! body_name = Some body /\ body <> ∅ /\
    parse_scientific_number (get_or_empty body "mass") = Returns (Some (mass_kg info)) /\
    parse_scientific_number (get_or_empty body "radius") = Returns (Some (radius_m info)).
Proof.
  unfold calculate_density. intros H.
  destruct (data !! body_name) as [body|]; [|discriminate].
  exists body. split; [reflexivity|].
  destruct (bool_decide (body = ∅)) eqn:Hne; [discriminate|].
  apply bool_decide_eq_false in Hne. split; [exact Hne|].
  destruct (parse_scientific_number (get_or_empty body "mass")) as [[vm|]| |];
    try discriminate;
    destruct (parse_scientific_number (get_or_empty body "radius")) as [[vr|]| |];
    try discriminate.
  cbn [mbind outcome_bind] in H.
  repeat match type of H with
         | try_except (mbind _ ?o) _ = _ =>
             let x := fresh "x" in
             destruct o as [x| |]; try discriminate; cbn [mbind outcome_bind] in H
         end.
  injection H as <-. split; reflexivity.
Qed.

(** C3 (amended).  When [float] accepts the two numbers of a free-text
    request, the radius is positive and the results are inside the normal
    float range, the reply carries the volume, the density and the g/cm³
    figure that [calculate_density] returns for a record holding the same
    mass and radius. *)
Theorem free_text_matches_calculator text m r data body_name info :
  contains (u "масса=") (lower text) = true ->
  contains (u "радиус=") (lower text) = true ->
  Float.py_float (number_after (u "масса=") (lower text)) = Returns m ->
  Float.py_float (number_after (u "радиус=") (lower text)) = Returns r ->
  (0 < r)%Q -> density_in_range m r ->
  calculate_density data body_name = Returns (Some info) ->
  is_number (mass_kg info) = true ->
  is_number (radius_m info) = true ->
  (as_float (mass_kg info) == m)%Q ->
  (as_float (radius_m info) == r)%Q ->
  exists report volume density_kg density_g,
    calculate_density_from_text text = send (reply_text report Markdown None) /\
    In (Sci 3 volume) report /\
    In (Fixed 2 density_kg) report /\
    In (Fixed 3 density_g) report /\
    (volume == as_float (volume_m3 info))%Q /\
    (density_kg == as_float (density_kg_m3 info))%Q /\
    (density_g == as_float (density_g_cm3 info))%Q.
Proof.
  intros Hcm Hcr Hfm Hfr Hr Hrange Hcalc Hnm Hnr Hm Hrad.
  destruct (calculate_density_inv _ _ _ Hcalc) as (body & Hb & Hne & Hpm & Hpr).
  pose proof Hrange as (Hnm' & Hc & Hvol & Hd & Hg).
  assert (Hc' : normal (as_float (radius_m info) ^ 3))
    by (apply (normal_compat (r ^ 3)); [rewrite Hrad; reflexivity | exact Hc]).
  assert (Hvol' : normal (4 / 3 * 3.1415926535 * as_float (radius_m info) ^ 3))
    by (apply (normal_compat (4 / 3 * 3.1415926535 * r ^ 3));
        [rewrite Hrad; reflexivity | exact Hvol]).
  destruct (calculate_density_numeric _ _ _ _ _ Hb Hne Hpm Hpr Hnr Hc' Hvol')
    as (volume & Hv & Hclosed).
  rewrite Hrad in Hv. rewrite (volume_positive r volume Hr Hv) in Hclosed.
  assert (Hz : Qzero volume = false).
  { destruct (Qzero volume) eqn:E; [|reflexivity]. apply Qzero_iff in E.
    pose proof (volume_positive r volume Hr Hv) as Hp.
    apply Qlt_bool_iff in Hp. rewrite E in Hp. discriminate. }
  assert (Hnz : ~ (volume == 0)%Q) by (intros E; apply Qzero_iff in E; congruence).
  assert (Hnz' : ~ (4 / 3 * 3.1415926535 * r ^ 3 == 0)%Q) by (rewrite <- Hv; exact Hnz).
  destruct (density_computed (mass_kg info) volume Hnm) as [Hdk Hdg]; try exact Hz.
  { apply (normal_compat m); [symmetry; exact Hm | exact Hnm']. }
  { apply (normal_compat (m / (4 / 3 * 3.1415926535 * r ^ 3)));
      [rewrite Hm, Hv; reflexivity | exact Hd]. }
  { apply (normal_compat (m / (4 / 3 * 3.1415926535 * r ^ 3) / 1000));
      [rewrite Hm, Hv; reflexivity | exact Hg]. }
  rewrite Hdk in Hclosed. cbn [mbind outcome_bind] in Hclosed.
  rewrite Hdg in Hclosed. cbn [mbind outcome_bind try_except] in Hclosed.
  rewrite Hcalc in Hclosed. injection Hclosed as Hinfo.
  rewrite (calculate_density_from_text_numeric text m r Hcm Hcr Hfm Hfr Hrange). cbv zeta.
  assert (Hzr : Qzero r = false).
  { destruct (Qzero r) eqn:E; [|reflexivity]. apply Qzero_iff in E.
    rewrite E in Hr. discriminate. }
  rewrite Hzr.
  destruct (density_report_figures m r (4 / 3 * 3.1415926535 * r ^ 3)
              (m / (4 / 3 * 3.1415926535 * r ^ 3))
              (m / (4 / 3 * 3.1415926535 * r ^ 3) / 1000))
    as (_ & _ & Hiv & Hid & Hig).
  eexists. exists (4 / 3 * 3.1415926535 * r ^ 3)%Q.
  exists (m / (4 / 3 * 3.1415926535 * r ^ 3))%Q.
  exists (m / (4 / 3 * 3.1415926535 * r ^ 3) / 1000)%Q.
  split; [reflexivity|]. split; [exact Hiv|]. split; [exact Hid|]. split; [exact Hig|].
  pose proof (f_equal volume_m3 Hinfo) as Ev. cbn [volume_m3] in Ev.
  pose proof (f_equal density_kg_m3 Hinfo) as Ed. cbn [density_kg_m3] in Ed.
  pose proof (f_equal density_g_cm3 Hinfo) as Eg. cbn [density_g_cm3] in Eg.
  rewrite Ev, Ed, Eg. cbn [as_float].
  split; [symmetry; exact Hv|]. rewrite Hm, Hv. split; reflexivity.
Qed.

Lemma free_text_matches_calculator_witness :
  exists info report volume density_kg density_g,
    calculate_density
      {[ u "Земля" := list_to_map [field "mass" "5.9722e24 кг"; field "radius" "6.371e6 м"] ]}
      (u "Земля") = Returns (Some info) /\
    calculate_density_from_text (u "плотность: масса=5.9722e24 радиус=6.371e6") =
      send (reply_text report Markdown None) /\
    In (Sci 3 volume) report /\
    In (Fixed 2 density_kg) report /\
    In (Fixed 3 density_g) report /\
    (volume == as_float (volume_m3 info))%Q /\
    (density_kg == as_float (density_kg_m3 info))%Q /\
    (density_g == as_float (density_g_cm3 info))%Q.
Proof.
  eexists.
  assert (Hcalc : calculate_density
      {[ u "Земля" := list_to_map [field "mass" "5.9722e24 кг"; field "radius" "6.371e6 м"] ]}
      (u "Земля") = Returns (Some _)) by (vm_compute; reflexivity).
  assert (Hrange : density_in_range ((59722 # 10000) * 10 ^ 24) ((6371 # 1000) * 10 ^ 6))
    by (repeat split; vm_compute; reflexivity).
  destruct (free_text_matches_calculator
              (u "плотность: масса=5.9722e24 радиус=6.371e6")
              ((59722 # 10000) * 10 ^ 24)%Q ((6371 # 1000) * 10 ^ 6)%Q
              _ _ _ eq_refl eq_refl eq_refl eq_refl eq_refl Hrange Hcalc eq_refl eq_refl
              (Qeq_refl _) (Qeq_refl _))
    as (report & volume & density_kg & density_g & H).
  exists report, volume, density_kg, density_g. split; [exact Hcalc | exact H].
Defined.

(** C3 (second counterexample).  For the tiny radius 1e-108 the cube
    underflows to zero: [calculate_density] returns the density 0 and the
    free-text calculator the division error, so the two differ outside the
    normal range. *)
Lemma free_text_differs_on_underflow :
  match calculate_density
          {[ u "X" := list_to_map [field "mass" "1 кг"; field "radius" "1e-108 м"] ]}
          (u "X") with
  | Returns (Some info) => Some (density_kg_m3 info)
  | _ => None
  end = Some (PyInt 0)
  /\ calculate_density_from_text (u "плотность: масса=1 радиус=1e-108")
     = send (reply_text [Lit (u "❌ Ошибка расчета: " ++ u "float division by zero")]
               Markdown None).
Proof.
  split; vm_compute; reflexivity.
Qed.

(** C3 (counterexample).  The parser accepts [5.9722×10²⁴] and [6.371×10⁶],
    but the free-text handler answers a request written with them with its
    number-format error. *)
Lemma free_text_rejects_parser_syntax :
  parse_scientific_number (u "5.9722×10²⁴") = Returns (Some (PyFloat ((59722 # 10000) * 1024))) /\
  parse_scientific_number (u "6.371×10⁶") = Returns (Some (PyFloat ((6371 # 1000) * 106))) /\
  calculate_density_from_text (u "плотность: масса=5.9722×10²⁴ радиус=6.371×10⁶") =
    send (reply_text [Lit (u "❌ Ошибка в формате чисел. Используйте научную нотацию.")]
            Markdown None).
Proof.
  repeat split; vm_compute; reflexivity.
Qed.

(** * The scientific-value parser (C4, C5, C6, C10) *)

(** C4.  The superscript minus is not in the kept class and the superscript
    digits are pasted after the [10]: [6.674×10⁻¹¹] is evaluated as
    [6.674*1011], not as 6.674e-11. *)
Theorem superscript_minus_is_dropped :
  residue (u "6.674×10⁻¹¹") = u "6.674*1011" /\
  parse_scientific_number (u "6.674×10⁻¹¹") = Returns (Some (PyFloat ((6674 # 1000) * 1011))) /\
  ~ ((6674 # 1000) * 1011 == (6674 # 1000) * 10 ^ (-11))%Q.
Proof.
  repeat split; try (vm_compute; reflexivity).
  intros H. vm_compute in H. discriminate.
Qed.

(** A negative exponent written in ASCII, after [e] or after [^], is read as
    such. *)
Lemma ascii_negative_exponent :
  parse_scientific_number (u "6.674e-11") = Returns (Some (PyFloat ((6674 # 1000) * 10 ^ (-11)))) /\
  exists q, parse_scientific_number (u "6.674×10^-11 Н·м") = Returns (Some (PyFloat q)) /\
            (q == (6674 # 1000) * 10 ^ (-11))%Q.
Proof.
  split; [vm_compute; reflexivity|].
  eexists. split; vm_compute; reflexivity.
Qed.

(** C5.  [1.5×10²] is evaluated as [1.5*102] = 153, while the literal
    [1.5e2] is 150. *)
Theorem superscript_exponent_is_pasted :
  residue (u "1.5×10²") = u "1.5*102" /\
  parse_scientific_number (u "1.5×10²") = Returns (Some (PyFloat ((15 # 10) * 102))) /\
  Eval.py_eval (u "1.5e2") = Returns (PyFloat ((15 # 10) * 10 ^ 2)) /\
  ~ ((15 # 10) * 102 == (15 # 10) * 10 ^ 2)%Q.
Proof.
  repeat split; try (vm_compute; reflexivity).
  intros H. vm_compute in H. discriminate.
Qed.

(** The catalogue's own worked solution for [Марс] quotes a density of about
    3933 kg/m³ (mass 6.4171×10²³ kg, radius 3.3895×10⁶ m); the calculator,
    reading the two strings as [6.4171*1023] and [3.3895*106], returns less
    than 10⁻⁴. *)
Lemma mars_density_contradicts_solution :
  (create_sample_data !! u "Марс" ≫= (fun body => body !! "solution"))
    = Some (u "ρ = 3M/(4πR³) = 3×6.417×10²³/(4×3.1416×(3.390×10⁶)³) ≈ 3933 кг/м³") /\
  exists info,
    calculate_density create_sample_data (u "Марс") = Returns (Some info) /\
    mass_kg info = PyFloat ((64171 # 10000) * 1023) /\
    radius_m info = PyFloat ((33895 # 10000) * 106) /\
    (as_float (density_kg_m3 info) < 1 # 10000)%Q.
Proof.
  split; [vm_compute; reflexivity|].
  eexists. split; [vm_compute; reflexivity|].
  repeat split; vm_compute; reflexivity.
Qed.

(** C6 (amended).  Parsing fails on the empty string, on a string without
    digits whose residue is not [...], and on a residue that [eval] rejects:
    the parser then returns [None]; it never raises; and [calculate_density]
    returns [None] for a record whose mass or radius fails to parse. *)
Theorem parse_failure_returns_none s :
  s = [] \/ (has_digit s = false /\ residue s <> u "...")
  \/ Eval.py_eval (residue s) = Raises ->
  parse_scientific_number s = Returns None /\
  (forall s', parse_scientific_number s' <> Raises) /\
  (forall data body_name body,
      data !! body_name = Some body ->
      (get_or_empty body "mass" = s /\
       parse_scientific_number (get_or_empty body "radius") <> Untracked)
      \/ (get_or_empty body "radius" = s /\
          exists m, parse_scientific_number (get_or_empty body "mass") = Returns m) ->
      calculate_density data body_name = Returns None).
Proof.
  intros H.
  assert (Hnone : parse_scientific_number s = Returns None).
  { destruct H as [-> | [[Hd Hne] | Hraise]].
    - reflexivity.
    - apply parse_no_digit; assumption.
    - apply parse_unparseable, Hraise. }
  split; [exact Hnone|]. split; [exact parse_scientific_number_total|].
  intros data body_name body Hb [[Hm Hr] | [Hr [m Hm]]].
  - eapply calculate_density_mass_unavailable; [exact Hb | rewrite Hm; exact Hnone | exact Hr].
  - eapply calculate_density_radius_unavailable; [exact Hb | exact Hm | rewrite Hr; exact Hnone].
Qed.

Lemma parse_failure_returns_none_witness :
  parse_scientific_number (u "кг") = Returns None /\
  calculate_density {[ u "X" := list_to_map [field "mass" "кг"; field "radius" "1 м"] ]} (u "X")
    = Returns None.
Proof.
  destruct (parse_failure_returns_none (u "кг")) as (Hnone & _ & Hcaller).
  { right; left. split; [vm_compute; reflexivity | vm_compute; discriminate]. }
  split; [exact Hnone|].
  eapply Hcaller.
  - vm_compute. reflexivity.
  - left. split; [vm_compute; reflexivity | vm_compute; discriminate].
Defined.

(** C6 (counterexample).  The failure value is the same [None] for different
    inputs: it cannot carry the original string. *)
Lemma parse_failure_carries_no_string :
  ~ exists payload : outcome (option pyval) -> pystr,
      forall s, parse_scientific_number s = Returns None ->
                payload (parse_scientific_number s) = s.
Proof.
  intros [payload H].
  pose proof (H [] eq_refl) as H1.
  pose proof (H (u "кг") eq_refl) as H2.
  change (parse_scientific_number []) with (@Returns (option pyval) None) in H1.
  change (parse_scientific_number (u "кг")) with (@Returns (option pyval) None) in H2.
  rewrite H1 in H2. vm_compute in H2. discriminate.
Qed.

(** A string without digits can still evaluate: [eval("...")] is [Ellipsis]. *)
Lemma parse_dots_is_ellipsis :
  has_digit (u "н.д.п.") = false /\
  parse_scientific_number (u "н.д.п.") = Returns (Some PyEllipsis).
Proof. split; vm_compute; reflexivity. Qed.

(** A zero radius is answered with the division error. *)
Lemma free_text_zero_radius text m r :
  contains (u "масса=") (lower text) = true ->
  contains (u "радиус=") (lower text) = true ->
  Float.py_float (number_after (u "масса=") (lower text)) = Returns m ->
  Float.py_float (number_after (u "радиус=") (lower text)) = Returns r ->
  (r == 0)%Q ->
  calculate_density_from_text text =
    send (reply_text [Lit (u "❌ Ошибка расчета: " ++ u "float division by zero")]
            Markdown None).
Proof.
  intros Hcm Hcr Hfm Hfr Hr0. unfold calculate_density_from_text.
  rewrite Hcm, Hcr, Hfm, Hfr. cbn [andb]. cbv iota.
  assert (Hc : (r ^ 3 == 0)%Q) by (rewrite Qcube, Hr0; reflexivity).
  rewrite (float_of_normal _ _ (normal_zero _ Hc)).
  assert (Hv : (4 / 3 * 3.1415926535 * r ^ 3 == 0)%Q) by (rewrite Hc; reflexivity).
  rewrite (float_of_normal _ _ (normal_zero _ Hv)).
  rewrite (proj2 (Qzero_iff _) Hv). reflexivity.
Qed.

(** C7 (amended).  For a radius that parses to a number ≤ 0 whose cube and
    volume are inside the normal float range, [calculate_density] returns a
    record whose volume is ≤ 0 and whose density is forced to 0; the
    free-text calculator answers a zero radius with its calculation
    error. *)
Theorem nonpositive_radius_zero_density data body_name body mass radius :
  data !! body_name = Some body -> body <> ∅ ->
  parse_scientific_number (get_or_empty body "mass") = Returns (Some mass) ->
  parse_scientific_number (get_or_empty body "radius") = Returns (Some radius) ->
  is_number radius = true ->
  (as_float radius <= 0)%Q ->
  normal (as_float radius ^ 3) ->
  normal (4 / 3 * 3.1415926535 * as_float radius ^ 3) ->
  (exists volume,
      (volume <= 0)%Q /\
      calculate_density data body_name =
        Returns (Some {| name := body_name;
                         mass_kg := mass;
                         radius_m := radius;
                         volume_m3 := PyFloat volume;
                         density_kg_m3 := PyInt 0;
                         density_g_cm3 := PyFloat (0 / 1000);
                         formula := u "ρ = 3M/(4πR³)" |}))
  /\ (forall text m r,
        contains (u "масса=") (lower text) = true ->
        contains (u "радиус=") (lower text) = true ->
        Float.py_float (number_after (u "масса=") (lower text)) = Returns m ->
        Float.py_float (number_after (u "радиус=") (lower text)) = Returns r ->
        (r == 0)%Q ->
        calculate_density_from_text text =
          send (reply_text [Lit (u "❌ Ошибка расчета: " ++ u "float division by zero")]
                  Markdown None)).
Proof.
  intros Hb Hne Hpm Hpr Hnum Hle Hc Hvol. split.
  - destruct (calculate_density_numeric _ _ _ _ _ Hb Hne Hpm Hpr Hnum Hc Hvol)
      as (volume & Hv & Hcalc).
    destruct (volume_nonpositive _ _ Hle Hv) as [Hneg Hvle].
    rewrite Hneg in Hcalc. exists volume. split; assumption.
  - exact free_text_zero_radius.
Qed.

Lemma nonpositive_radius_zero_density_witness :
  (exists volume,
      (volume <= 0)%Q /\
      calculate_density
        {[ u "X" := list_to_map [field "mass" "5 кг"; field "radius" "-1 м"] ]} (u "X") =
        Returns (Some {| name := u "X";
                         mass_kg := PyInt 5;
                         radius_m := PyInt (-1);
                         volume_m3 := PyFloat volume;
                         density_kg_m3 := PyInt 0;
                         density_g_cm3 := PyFloat (0 / 1000);
                         formula := u "ρ = 3M/(4πR³)" |}))
  /\ calculate_density_from_text (u "плотность: масса=1 радиус=0") =
       send (reply_text [Lit (u "❌ Ошибка расчета: " ++ u "float division by zero")]
               Markdown None).
Proof.
  destruct (nonpositive_radius_zero_density
              {[ u "X" := list_to_map [field "mass" "5 кг"; field "radius" "-1 м"] ]}
              (u "X") (list_to_map [field "mass" "5 кг"; field "radius" "-1 м"])
              (PyInt 5) (PyInt (-1)))
    as [Hcat Htext];
    try (vm_compute; reflexivity).
  - vm_compute. discriminate.
  - unfold Qle. vm_compute. discriminate.
  - split; [exact Hcat|].
    apply (Htext _ 1%Q 0%Q); vm_compute; reflexivity.
Defined.

(** C7 (out of range).  For the radius -1e103 the cube overflows and
    [calculate_density] returns [None]. *)
Lemma nonpositive_radius_overflow :
  calculate_density
    {[ u "X" := list_to_map [field "mass" "5 кг"; field "radius" "-1e103 м"] ]} (u "X")
  = Returns None.
Proof. vm_compute. reflexivity. Qed.

(** C7 (counterexample).  With radius [-1] the catalogue calculator returns a
    record (density 0), and the free-text calculator a result block with a
    negative density: neither is the Undefined result. *)
Lemma nonpositive_radius_is_not_undefined :
  (exists info,
     calculate_density
       {[ u "X" := list_to_map [field "mass" "5 кг"; field "radius" "-1 м"] ]} (u "X")
     = Returns (Some info) /\
     radius_m info = PyInt (-1) /\ density_kg_m3 info = PyInt 0)
  /\ exists volume density_kg density_g,
       calculate_density_from_text (u "плотность: масса=1 радиус=-1") =
         send (reply_text (density_report 1 (-1) volume density_kg density_g)
                 Markdown None) /\
       (density_kg < 0)%Q.
Proof.
  split.
  - eexists. split; [vm_compute; reflexivity|]. split; reflexivity.
  - do 3 eexists. split; [vm_compute; reflexivity|]. reflexivity.
Qed.

(** The empty string needs no special case: [eval] rejects it. *)
Lemma parse_scientific_number_residue s :
  parse_scientific_number s =
  try_except (v ← Eval.py_eval (residue s); Returns (Some v)) (Returns None).
Proof. destruct s; reflexivity. Qed.

(** Only the kept characters of the argument matter. *)
Lemma parse_ignores_units s :
  parse_scientific_number s = parse_scientific_number (strip_units s).
Proof.
  rewrite !parse_scientific_number_residue. unfold residue.
  assert (Hidem : strip_units (strip_units s) = strip_units s).
  { unfold strip_units. induction s as [|c t IH]; [reflexivity|].
    simpl. destruct (kept_char c) eqn:E; simpl; [rewrite E, IH|]; auto. }
  rewrite Hidem. reflexivity.
Qed.

(** C10.  Unit tokens are dropped, scale factors included (the parser sees
    only the kept characters, and [M], [R] and [☉] are not kept): the mass
    and radius strings of [Сириус] parse to 2.02 and 1.71, and
    [calculate_density] returns a numeric record computed from them. *)
Theorem sirius_solar_units_are_discarded :
  (forall s, parse_scientific_number s = parse_scientific_number (strip_units s)) /\
  List.map kept_char (u "MR☉") = [false; false; false] /\
  (create_sample_data !! u "Сириус" ≫= (fun body => body !! "mass"))
    = Some (u "2.02 M☉ (Сириус A)") /\
  (create_sample_data !! u "Сириус" ≫= (fun body => body !! "radius"))
    = Some (u "1.71 R☉") /\
  parse_scientific_number (u "2.02 M☉ (Сириус A)") = Returns (Some (PyFloat 2.02)) /\
  parse_scientific_number (u "1.71 R☉") = Returns (Some (PyFloat 1.71)) /\
  exists volume density density_g,
    calculate_density create_sample_data (u "Сириус") =
      Returns (Some {| name := u "Сириус";
                       mass_kg := PyFloat 2.02;
                       radius_m := PyFloat 1.71;
                       volume_m3 := PyFloat volume;
                       density_kg_m3 := PyFloat density;
                       density_g_cm3 := PyFloat density_g;
                       formula := u "ρ = 3M/(4πR³)" |}) /\
    (volume == 4 / 3 * 3.1415926535 * 1.71 ^ 3)%Q /\
    (density == 2.02 / volume)%Q /\
    (density_g == density / 1000)%Q.
Proof.
  split; [exact parse_ignores_units|].
  split; [|split; [|split; [|split; [|split]]]]; try (vm_compute; reflexivity).
  do 3 eexists. split; [vm_compute; reflexivity|].
  repeat split; vm_compute; reflexivity.
Qed.

Lemma pasted_exponent_all :
  forallb (fun d1 => forallb (fun d2 => forallb (pasted_exponent d1 d2)
    decimal_digits) decimal_digits) decimal_digits = true.
Proof. vm_compute. reflexivity. Qed.

(** Every one-digit form [d.d×10ᵉ] is read as [d.d * 10e]; it agrees with the
    literal [d.de<e>] only when the mantissa is zero. *)
Lemma superscript_form_misread d1 d2 e :
  In d1 decimal_digits -> In d2 decimal_digits -> In e decimal_digits ->
  exists q,
    parse_scientific_number (superscript_form d1 d2 e) = Returns (Some (PyFloat q)) /\
    (q == Eval.float_value [d1] [d2] 0 * inject_Z (100 + Z.of_N e))%Q /\
    ((q == Eval.float_value [d1] [d2] 0 * 10 ^ Z.of_N e)%Q ->
     (Eval.float_value [d1] [d2] 0 == 0)%Q).
Proof.
  intros H1 H2 H3. pose proof pasted_exponent_all as Hall.
  rewrite forallb_forall in Hall. specialize (Hall d1 H1).
  rewrite forallb_forall in Hall. specialize (Hall d2 H2).
  rewrite forallb_forall in Hall. specialize (Hall e H3).
  unfold pasted_exponent in Hall.
  destruct (parse_scientific_number (superscript_form d1 d2 e)) as [[[z|q|]|]| |];
    try discriminate.
  exists q. split; [reflexivity|].
  apply andb_true_iff in Hall as [Ha Hb]. split.
  - apply Qeq_bool_iff, Ha.
  - intros Heq. apply Qeq_bool_iff in Heq. rewrite Heq in Hb.
    apply Qzero_iff. exact Hb.
Qed.

(** * The presentation formatter (C9) *)

Lemma optional_line_absent body key label :
  body !! key = None \/ body !! key = Some [] ->
  optional_line body key label = [].
Proof.
  unfold optional_line. intros [-> | ->]; reflexivity.
Qed.

Lemma optional_line_present body key label v :
  body !! key = Some v -> v <> [] ->
  optional_line body key label = label ++ v ++ u "
".
Proof.
  unfold optional_line. intros -> Hv. destruct v; [contradiction | reflexivity].
Qed.

Lemma format_body_info_complete
    body_name body emoji name_en type mass radius accuracy sources task solution :
  body !! "emoji" = Some emoji ->
  body !! "name_en" = Some name_en ->
  body !! "type" = Some type ->
  body !! "mass" = Some mass ->
  body !! "radius" = Some radius ->
  body !! "accuracy" = Some accuracy ->
  body !! "sources" = Some sources ->
  body !! "task" = Some task ->
  body !! "solution" = Some solution ->
  format_body_info body_name body =
    Returns
      (emoji ++ u " *" ++ upper body_name ++ u "* (" ++ name_en ++ u ")

" ++ u "📌 *Тип:* " ++ type ++ u "

" ++ u "⚖️ *Масса:* " ++ mass ++ u "
" ++ u "📏 *Радиус:* " ++ radius ++ u "
" ++ optional_line body "distance" (u "📍 *Расстояние:* ")
  ++ optional_line body "period" (u "🔄 *Период обращения:* ")
  ++ optional_line body "luminosity" (u "☀️ *Светимость:* ")
  ++ optional_line body "temperature" (u "🌡️ *Температура:* ")
  ++ u "
📊 *Точность:* " ++ accuracy ++ u "
" ++ u "📚 *Источники:* " ++ sources ++ u "

" ++ u "🎯 *" ++ task ++ u "*

" ++ solution ++ u "

_Используйте данные для решения олимпиадных задач!_").
Proof.
  intros H1 H2 H3 H4 H5 H6 H7 H8 H9. unfold format_body_info, getitem.
  rewrite H1, H2, H3, H4, H5, H6, H7, H8, H9. cbn [mbind outcome_bind].
  f_equal. rewrite <- !app_assoc. reflexivity.
Qed.

(** C9 (amended).  On a record that holds the nine keys read without a guard
    the formatter returns the text below, in which distance, period,
    luminosity and temperature appear only if present and non-empty. *)
Theorem format_body_info_on_complete_record
    body_name body emoji name_en type mass radius accuracy sources task solution :
  body !! "emoji" = Some emoji ->
  body !! "name_en" = Some name_en ->
  body !! "type" = Some type ->
  body !! "mass" = Some mass ->
  body !! "radius" = Some radius ->
  body !! "accuracy" = Some accuracy ->
  body !! "sources" = Some sources ->
  body !! "task" = Some task ->
  body !! "solution" = Some solution ->
  format_body_info body_name body =
    Returns
      (emoji ++ u " *" ++ upper body_name ++ u "* (" ++ name_en ++ u ")

" ++ u "📌 *Тип:* " ++ type ++ u "

" ++ u "⚖️ *Масса:* " ++ mass ++ u "
" ++ u "📏 *Радиус:* " ++ radius ++ u "
" ++ optional_line body "distance" (u "📍 *Расстояние:* ")
  ++ optional_line body "period" (u "🔄 *Период обращения:* ")
  ++ optional_line body "luminosity" (u "☀️ *Светимость:* ")
  ++ optional_line body "temperature" (u "🌡️ *Температура:* ")
  ++ u "
📊 *Точность:* " ++ accuracy ++ u "
" ++ u "📚 *Источники:* " ++ sources ++ u "

" ++ u "🎯 *" ++ task ++ u "*

" ++ solution ++ u "

_Используйте данные для решения олимпиадных задач!_").
Proof.
  apply format_body_info_complete.
Qed.

Lemma format_body_info_on_complete_record_witness :
  exists text,
    format_body_info (u "Марс")
      (list_to_map
         [field "emoji" "♂"; field "name_en" "Mars"; field "type" "Планета земной группы";
          field "mass" "6.4171×10²³ кг"; field "radius" "3.3895×10⁶ м";
          field "accuracy" "Высокая"; field "sources" "NASA"; field "task" "Найти плотность Марса";
          field "solution" "ρ = 3M/(4πR³)"]) = Returns text.
Proof.
  eexists.
  apply (format_body_info_on_complete_record (u "Марс") _
           (u "♂") (u "Mars") (u "Планета земной группы")
           (u "6.4171×10²³ кг") (u "3.3895×10⁶ м")
           (u "Высокая") (u "NASA") (u "Найти плотность Марса")
           (u "ρ = 3M/(4πR³)"));
    vm_compute; reflexivity.
Defined.

(** The formatter returns exactly when the nine keys are present. *)
Lemma format_body_info_returns_iff body_name body :
  (exists text, format_body_info body_name body = Returns text) <->
  Forall (fun key => is_Some (body !! key)) required_keys.
Proof.
  split.
  - intros [text H]. unfold format_body_info, getitem in H.
    repeat match type of H with
           | context [body !! ?k] =>
               let E := fresh "E" in
               destruct (body !! k) eqn:E; [|discriminate H];
               cbn [mbind outcome_bind] in H
           end.
    unfold required_keys. repeat constructor; eauto.
  - unfold required_keys. intros H.
    repeat match goal with
           | H : Forall _ (_ :: _) |- _ => apply Forall_cons_1 in H; destruct H as [[? ?] H]
           end.
    eexists. eapply format_body_info_complete; eassumption.
Qed.

(** C9 (counterexample).  A record with only its type makes the formatter
    raise (KeyError on 'emoji'). *)
Lemma format_body_info_needs_optional_fields :
  format_body_info (u "Плутон") (list_to_map [field "type" "Карликовая планета"]) = Raises.
Proof. vm_compute. reflexivity. Qed.

(** * Navigation (C8, C2) *)

(** ** Dispatch of callback tokens *)

Lemma split_on_no_sep sep a :
  forallb (fun c => negb (c =? sep)%N) a = true -> split_on sep a = [a].
Proof.
  induction a as [|c a IH]; simpl; intros H; [reflexivity|].
  apply andb_true_iff in H as [Hc Ha]. apply negb_true_iff in Hc.
  rewrite Hc, (IH Ha). reflexivity.
Qed.

Lemma split_on_app sep a rest :
  forallb (fun c => negb (c =? sep)%N) a = true ->
  split_on sep (a ++ sep :: rest) = a :: split_on sep rest.
Proof.
  induction a as [|c a IH]; simpl; intros H.
  - rewrite N.eqb_refl. reflexivity.
  - apply andb_true_iff in H as [Hc Ha]. apply negb_true_iff in Hc.
    rewrite Hc, (IH Ha). reflexivity.
Qed.

Lemma hbind_lift {A B} (o : outcome A) (k : A -> handler B) :
  hbind (lift o) k =
  match o with
  | Returns a => k a
  | Raises => ([], Raises)
  | Untracked => ([], Untracked)
  end.
Proof.
  destruct o as [a| |]; try reflexivity. unfold hbind, lift.
  destruct (k a). reflexivity.
Qed.

Lemma rendered_after_answer {A} (h : handler A) :
  rendered_markup (hbind (send answer) (fun _ => h)) = rendered_markup h.
Proof.
  unfold rendered_markup, hbind, send. destruct h as [acts o]. simpl.
  destruct acts as [|a acts]; [reflexivity|].
  change (answer :: a :: acts) with ([answer] ++ a :: acts).
  rewrite last_app. destruct (last (a :: acts)) eqn:E; [reflexivity|].
  apply last_None in E. discriminate.
Qed.

Lemma outcome_after_answer {A} (h : handler A) :
  snd (hbind (send answer) (fun _ => h)) = snd h.
Proof. unfold hbind, send. destruct h. reflexivity. Qed.

Lemma offered_after_answer {A} (h : handler A) :
  offered_tokens (hbind (send answer) (fun _ => h)) = offered_tokens h.
Proof. unfold offered_tokens. rewrite rendered_after_answer. reflexivity. Qed.

Lemma button_callback_body data body_name :
  forallb (fun c => negb (c =? 95)%N) body_name = true ->
  button_callback data (u "body_" ++ body_name) =
  hbind (send answer) (fun _ => show_celestial_body_inline data body_name).
Proof.
  intros H. unfold button_callback, split_item.
  literal "body_"%string. cbn [startswith app N.eqb Pos.eqb andb].
  change (98 :: 111 :: 100 :: 121 :: 95 :: body_name)%N
    with ([98; 111; 100; 121] ++ 95 :: body_name)%N.
  rewrite split_on_app by reflexivity. rewrite (split_on_no_sep _ _ H).
  cbn [lookup list_lookup]. unfold mbind at 2, handler_bind.
  rewrite hbind_lift. reflexivity.
Qed.

Lemma button_callback_compare data body1 body2 :
  forallb (fun c => negb (c =? 95)%N) body1 = true ->
  forallb (fun c => negb (c =? 95)%N) body2 = true ->
  button_callback data (u "compare_" ++ body1 ++ u "_" ++ body2) =
  hbind (send answer) (fun _ => show_comparison data body1 body2).
Proof.
  intros H1 H2. unfold button_callback.
  literal "body_"%string. literal "compare_"%string. literal "_"%string.
  cbn [startswith app N.eqb Pos.eqb andb].
  change (99 :: 111 :: 109 :: 112 :: 97 :: 114 :: 101 :: 95 :: body1 ++ 95 :: body2)%N
    with ([99; 111; 109; 112; 97; 114; 101] ++ 95 :: (body1 ++ 95 :: body2))%N.
  rewrite split_on_app by reflexivity. rewrite (split_on_app _ _ _ H1).
  rewrite (split_on_no_sep _ _ H2). reflexivity.
Qed.

Lemma button_callback_task data task_type :
  forallb (fun c => negb (c =? 95)%N) task_type = true ->
  button_callback data (u "task_" ++ task_type) =
  hbind (send answer) (fun _ => show_task_with_solution task_type).
Proof.
  intros H. unfold button_callback, split_item.
  literal "body_"%string. literal "compare_"%string. literal "task_"%string.
  cbn [startswith app N.eqb Pos.eqb andb].
  change (116 :: 97 :: 115 :: 107 :: 95 :: task_type)%N
    with ([116; 97; 115; 107] ++ 95 :: task_type)%N.
  rewrite split_on_app by reflexivity. rewrite (split_on_no_sep _ _ H).
  cbn [lookup list_lookup]. unfold mbind at 2, handler_bind.
  rewrite hbind_lift. reflexivity.
Qed.

(** ** The keyboards left on screen *)

Lemma hbind_send_last {A} (m : handler A) (f : A -> action) :
  snd (hbind m (fun a => send (f a))) = Returns tt ->
  exists a, last (fst (hbind m (fun a => send (f a)))) = Some (f a).
Proof.
  unfold hbind, send. destruct m as [acts [a| |]]; try discriminate.
  intros _. exists a. simpl. rewrite last_snoc. reflexivity.
Qed.

Lemma hbind_last_markup {A} (m : handler A) (k : A -> handler unit) mk :
  (forall a, rendered_markup (k a) = Some mk /\ fst (k a) <> []) ->
  snd (hbind m k) = Returns tt ->
  rendered_markup (hbind m k) = Some mk.
Proof.
  intros Hk. unfold hbind. destruct m as [acts [a| |]]; try discriminate.
  destruct (Hk a) as [Hm Hne]. unfold rendered_markup in *.
  destruct (k a) as [acts' o]. simpl in *. intros _.
  destruct acts' as [|x acts'] using rev_ind; [contradiction|].
  rewrite app_assoc, last_snoc. rewrite last_snoc in Hm. exact Hm.
Qed.

Lemma show_celestial_body_inline_markup data body_name :
  is_Some (data !! body_name) ->
  snd (show_celestial_body_inline data body_name) = Returns tt ->
  rendered_markup (show_celestial_body_inline data body_name) =
    Some (InlineKeyboardMarkup
            (if bool_decide (body_name ∈ planets)
             then [[(u "🔙 Назад к планетам", u "back_planets")]]
             else [[(u "🔙 Назад в меню", u "back_main")]])).
Proof.
  intros [body Hb]. unfold show_celestial_body_inline. rewrite Hb.
  unfold mbind, handler_bind. intros H.
  destruct (hbind_send_last _ _ H) as [resp Hlast].
  unfold rendered_markup. rewrite Hlast. reflexivity.
Qed.

Lemma show_celestial_body_direct_markup data body_name :
  is_Some (data !! body_name) ->
  snd (show_celestial_body_direct data body_name) = Returns tt ->
  rendered_markup (show_celestial_body_direct data body_name) = Some get_main_keyboard.
Proof.
  intros [body Hb]. unfold show_celestial_body_direct, send_body_info. rewrite Hb.
  unfold mbind, handler_bind. intros H.
  destruct (hbind_send_last _ _ H) as [resp Hlast].
  unfold rendered_markup. rewrite Hlast. reflexivity.
Qed.

Lemma show_comparison_markup data body1 body2 :
  is_Some (data !! body1) -> is_Some (data !! body2) ->
  snd (show_comparison data body1 body2) = Returns tt ->
  rendered_markup (show_comparison data body1 body2) =
    Some (InlineKeyboardMarkup [[(u "🔙 Назад к сравнению", u "back_compare")]]).
Proof.
  intros [b1 H1] [b2 H2]. unfold show_comparison. rewrite H1, H2.
  unfold mbind, handler_bind. intros H.
  repeat (rewrite hbind_lift in H |- *;
          match type of H with
          | context [getitem ?b ?k] => destruct (getitem b k); try discriminate H
          end).
  apply hbind_last_markup; [|exact H].
  intros special. split; [|discriminate].
  unfold rendered_markup, send. cbn [fst last]. reflexivity.
Qed.

Lemma show_task_with_solution_markup task_type :
  rendered_markup (show_task_with_solution task_type) =
    Some (InlineKeyboardMarkup [[(u "🔙 Назад к задачам", u "back_tasks")]]).
Proof. reflexivity. Qed.

(** C8.  The detail and result screens offer one button, and pressing it
    shows the picker they belong to: a planet's detail leads back to the
    planet picker, a comparison to the pair picker, a task to the task picker;
    the detail of another body (the bodies of the main-menu shortcuts) leads
    back to the main menu, and a detail opened from the main-menu shortcut
    keeps the main-menu keyboard. *)
Theorem back_returns_to_picker data :
  (forall body_name,
      forallb (fun c => negb (c =? 95)%N) body_name = true ->
      is_Some (data !! body_name) ->
      snd (button_callback data (u "body_" ++ body_name)) = Returns tt ->
      exists token,
        offered_tokens (button_callback data (u "body_" ++ body_name)) = [token] /\
        rendered_markup (button_callback data token) =
          Some (if bool_decide (body_name ∈ planets)
                then get_planets_keyboard else get_main_keyboard))
  /\ (forall body1 body2,
      forallb (fun c => negb (c =? 95)%N) body1 = true ->
      forallb (fun c => negb (c =? 95)%N) body2 = true ->
      is_Some (data !! body1) -> is_Some (data !! body2) ->
      snd (button_callback data (u "compare_" ++ body1 ++ u "_" ++ body2)) = Returns tt ->
      exists token,
        offered_tokens (button_callback data (u "compare_" ++ body1 ++ u "_" ++ body2))
          = [token] /\
        rendered_markup (button_callback data token) = Some get_compare_keyboard)
  /\ (forall task_type,
      forallb (fun c => negb (c =? 95)%N) task_type = true ->
      exists token,
        offered_tokens (button_callback data (u "task_" ++ task_type)) = [token] /\
        rendered_markup (button_callback data token) = Some get_tasks_keyboard)
  /\ (forall label body_name,
      (label, body_name) ∈ [(u "⭐️ Сириус", u "Сириус"); (u "☀️ Солнце", u "Солнце")] ->
      is_Some (data !! body_name) ->
      snd (handle_message data label) = Returns tt ->
      rendered_markup (handle_message data label) = Some get_main_keyboard).
Proof.
  split; [|split; [|split]].
  - intros body_name Hsep Hin Hok.
    rewrite (button_callback_body data body_name Hsep) in Hok |- *.
    rewrite outcome_after_answer in Hok. rewrite offered_after_answer.
    unfold offered_tokens.
    rewrite (show_celestial_body_inline_markup data body_name Hin Hok).
    destruct (bool_decide (body_name ∈ planets)).
    + exists (u "back_planets"). split; vm_compute; reflexivity.
    + exists (u "back_main"). split; vm_compute; reflexivity.
  - intros body1 body2 Hs1 Hs2 Hin1 Hin2 Hok.
    rewrite (button_callback_compare data body1 body2 Hs1 Hs2) in Hok |- *.
    rewrite outcome_after_answer in Hok. rewrite offered_after_answer.
    unfold offered_tokens.
    rewrite (show_comparison_markup data body1 body2 Hin1 Hin2 Hok).
    exists (u "back_compare"). split; vm_compute; reflexivity.
  - intros task_type Hsep.
    rewrite (button_callback_task data task_type Hsep).
    rewrite offered_after_answer. unfold offered_tokens.
    rewrite show_task_with_solution_markup.
    exists (u "back_tasks"). split; vm_compute; reflexivity.
  - intros label body_name Hl Hin Hok.
    apply list_elem_of_In in Hl. destruct Hl as [Hl | [Hl | []]];
      injection Hl as <- <-.
    + change (handle_message data (u "⭐️ Сириус"))
        with (show_celestial_body_direct data (u "Сириус")) in Hok |- *.
      apply show_celestial_body_direct_markup; assumption.
    + change (handle_message data (u "☀️ Солнце"))
        with (show_celestial_body_direct data (u "Солнце")) in Hok |- *.
      apply show_celestial_body_direct_markup; assumption.
Qed.

Lemma back_returns_to_picker_witness :
  exists token,
    offered_tokens (button_callback create_sample_data (u "body_Земля")) = [token] /\
    rendered_markup (button_callback create_sample_data token) = Some get_planets_keyboard.
Proof.
  destruct (back_returns_to_picker create_sample_data) as (Hbody & _).
  assert (H1 : forallb (fun c => negb (c =? 95)%N) (u "Земля") = true)
    by (vm_compute; reflexivity).
  assert (H2 : is_Some (create_sample_data !! u "Земля"))
    by (apply (bool_decide_unpack _); vm_compute; exact I).
  assert (H3 : snd (button_callback create_sample_data (u "body_" ++ u "Земля")) = Returns tt)
    by (vm_compute; reflexivity).
  destruct (Hbody (u "Земля") H1 H2 H3) as (token & Htok & Hback).
  exists token. split; [exact Htok | exact Hback].
Defined.

(** C2.  A callback token that no branch of [button_callback] recognises is
    answered but nothing is sent or edited, whereas [handle_message] replies
    to an unrecognised text with the main-menu prompt. *)
Theorem unknown_callback_gets_no_render data :
  button_callback data (u "unknown") = ([answer], Returns tt) /\
  button_callback data (u "compare_Земля") = ([answer], Returns tt) /\
  handle_message data (u "unknown") =
    send (reply_text [Lit (u "Пожалуйста, используйте кнопки меню ⬇️")]
            Plain (Some get_main_keyboard)).
Proof.
  repeat split; vm_compute; reflexivity.
Qed.

(** ** Totality of the two event handlers *)

Lemma button_callback_unrecognised data token :
  startswith (u "body_") token = false ->
  startswith (u "compare_") token = false ->
  startswith (u "task_") token = false ->
  token ∉ [u "back_main"; u "back_planets"; u "back_compare"; u "back_tasks"] ->
  button_callback data token = ([answer], Returns tt).
Proof.
  intros Hb Hc Ht Hn. unfold button_callback. rewrite Hb, Hc, Ht.
  unfold eqb.
  repeat rewrite bool_decide_eq_false_2
    by (intros ->; apply Hn; apply list_elem_of_In; simpl; tauto).
  reflexivity.
Qed.

Lemma calculate_density_from_text_replies text :
  snd (calculate_density_from_text text) = Returns tt ->
  existsb is_render (fst (calculate_density_from_text text)) = true.
Proof.
  unfold calculate_density_from_text.
  repeat match goal with
         | |- context [if ?b then _ else _] => destruct b
         | |- context [match ?o with Returns _ => _ | Raises => _ | Untracked => _ end] =>
             destruct o
         end; simpl; try reflexivity; discriminate.
Qed.

Lemma show_celestial_body_direct_replies data body_name :
  snd (show_celestial_body_direct data body_name) = Returns tt ->
  existsb is_render (fst (show_celestial_body_direct data body_name)) = true.
Proof.
  unfold show_celestial_body_direct, send_body_info.
  destruct (data !! body_name); [|reflexivity].
  unfold mbind, handler_bind. rewrite hbind_lift.
  destruct (format_body_info _ _); simpl; try reflexivity; discriminate.
Qed.

(** Every text message that is handled to completion gets a reply. *)
Lemma handle_message_replies data text :
  snd (handle_message data text) = Returns tt ->
  existsb is_render (fst (handle_message data text)) = true.
Proof.
  unfold handle_message.
  repeat match goal with
         | |- context [if ?b then _ else _] => destruct b
         end;
    try (intros _; reflexivity);
    auto using show_celestial_body_direct_replies, calculate_density_from_text_replies.
Qed.

(** A text whose lower-case form starts with [плотность:] reaches the
    free-text calculator. *)
Lemma handle_message_density data text :
  startswith (u "плотность:") (lower text) = true ->
  handle_message data text = calculate_density_from_text text.
Proof.
  intros H. unfold handle_message, eqb.
  repeat match goal with
         | |- context [bool_decide (text = ?l)] =>
             destruct (bool_decide (text = l)) eqn:E;
             [apply bool_decide_eq_true in E; subst text;
              vm_compute in H; discriminate H | clear E]
         end.
  rewrite H. reflexivity.
Qed.

(** * The free-text grammar: [find] and [number_after] *)

Lemma startswith_app p a : startswith p (p ++ a) = true.
Proof.
  induction p as [|x p IH]; simpl; [reflexivity|]. rewrite N.eqb_refl. exact IH.
Qed.

Lemma find_at_here sub a pos : startswith sub a = true -> find_at sub a pos = Some pos.
Proof.
  intros H. destruct a; simpl; rewrite H; reflexivity.
Qed.

(** Characters that differ from the first character of [sub] are skipped. *)
Lemma find_at_skip_first x sub pre rest pos :
  forallb (fun c => negb (c =? x)%N) pre = true ->
  find_at (x :: sub) (pre ++ rest) pos = find_at (x :: sub) rest (pos + length pre)%nat.
Proof.
  revert pos. induction pre as [|c pre IH]; intros pos H.
  - cbn [app length]. rewrite Nat.add_0_r. reflexivity.
  - simpl in H. apply andb_true_iff in H as [Hc H]. apply negb_true_iff in Hc.
    change (find_at (x :: sub) ((c :: pre) ++ rest) pos)
      with (if (x =? c)%N && startswith sub (pre ++ rest) then Some pos
            else find_at (x :: sub) (pre ++ rest) (S pos)).
    rewrite N.eqb_sym, Hc. cbn [andb]. rewrite (IH (S pos) H).
    cbn [length]. rewrite Nat.add_succ_r. reflexivity.
Qed.

Lemma startswith_app_inv p : forall a c b,
  startswith p (a ++ c :: b) = true -> In c p \/ exists a2, a = p ++ a2.
Proof.
  induction p as [|x p IH]; intros a c b H.
  - right. exists a. reflexivity.
  - destruct a as [|y a]; simpl in H; apply andb_true_iff in H as [Hx H].
    + left. left. apply N.eqb_eq in Hx. exact Hx.
    + apply N.eqb_eq in Hx. subst y. destruct (IH _ _ _ H) as [Hin | [a2 ->]].
      * left. right. exact Hin.
      * right. exists a2. reflexivity.
Qed.

(** A stretch [a] that lacks a character of [sub], closed by a character
    that is not in [sub], holds no occurrence of [sub]. *)
Lemma find_at_skip_stretch sub y a c rest : forall pos,
  In y sub -> ~ In y a -> ~ In c sub ->
  find_at sub (a ++ c :: rest) pos = find_at sub (c :: rest) (pos + length a)%nat.
Proof.
  induction a as [|z a IH]; intros pos Hy Hya Hc.
  - cbn [app length]. rewrite Nat.add_0_r. reflexivity.
  - assert (Hno : startswith sub ((z :: a) ++ c :: rest) = false).
    { destruct (startswith sub ((z :: a) ++ c :: rest)) eqn:E; [|reflexivity].
      apply startswith_app_inv in E as [Hin | [a2 Ha2]]; [contradiction|].
      exfalso. apply Hya. rewrite Ha2. apply in_or_app. left. exact Hy. }
    change (find_at sub ((z :: a) ++ c :: rest) pos)
      with (if startswith sub ((z :: a) ++ c :: rest) then Some pos
            else find_at sub (a ++ c :: rest) (S pos)).
    rewrite Hno, IH; [|assumption| |assumption].
    + cbn [length]. rewrite Nat.add_succ_r. reflexivity.
    + intros Hin. apply Hya. right. exact Hin.
Qed.

Lemma forallb_not_In (x : N) l :
  forallb (fun c => negb (c =? x)%N) l = true -> ~ In x l.
Proof.
  intros H Hin. rewrite forallb_forall in H. specialize (H x Hin).
  rewrite N.eqb_refl in H. discriminate.
Qed.

Lemma spaces_differ x l :
  x <> 32%N -> forallb (N.eqb 32) l = true ->
  forallb (fun c => negb (c =? x)%N) l = true.
Proof.
  intros Hx H. apply forallb_forall. intros c Hc.
  rewrite forallb_forall in H. specialize (H c Hc). apply N.eqb_eq in H. subst c.
  apply negb_true_iff, N.eqb_neq. congruence.
Qed.

(** The number that follows [key] at position [i], up to the next space. *)
Lemma number_after_at key text pre num tail :
  text = pre ++ key ++ num ++ tail ->
  find key text 0 = Some (length pre) ->
  forallb (fun c => negb (c =? 32)%N) num = true ->
  tail = [] \/ (exists t, tail = 32%N :: t) ->
  number_after key text = replace1 44 (u ".") num.
Proof.
  intros -> Hfind Hnum Htail. unfold number_after. rewrite Hfind.
  set (start := (length pre + length key)%nat).
  assert (Hdrop : drop start (pre ++ key ++ num ++ tail) = num ++ tail).
  { unfold start. rewrite app_assoc, <- length_app.
    replace (length (pre ++ key)) with (length (pre ++ key) + 0)%nat by lia.
    rewrite drop_app_add. reflexivity. }
  assert (Hlen : length (pre ++ key ++ num ++ tail)
                 = (start + length num + length tail)%nat).
  { unfold start. rewrite !length_app. lia. }
  assert (Hstop : match find (u " ") (pre ++ key ++ num ++ tail) start with
                  | Some j => j
                  | None => length (pre ++ key ++ num ++ tail)
                  end = (start + length num)%nat).
  { unfold find. rewrite (proj2 (Nat.leb_le _ _)) by lia. rewrite Hdrop.
    literal " "%string.
    rewrite (find_at_skip_first 32 [] num tail _ Hnum).
    destruct Htail as [-> | [t ->]].
    - cbn [find_at startswith]. rewrite Hlen. cbn [length]. lia.
    - rewrite find_at_here by reflexivity. reflexivity. }
  rewrite Hstop. f_equal. unfold slice. rewrite Hdrop.
  replace (start + length num - start)%nat with (length num) by lia.
  apply take_app_length.
Qed.

(** A lower-cased request written after the grammar
    [плотность: масса=<number> радиус=<number>]: the handler finds both keys
    and extracts the two numbers, commas turned into periods. *)
Lemma free_text_grammar sp1 ms sp2 rs tail :
  forallb (N.eqb 32) sp1 = true ->
  forallb (N.eqb 32) sp2 = true ->
  forallb (fun c => negb (c =? 32)%N) ms = true ->
  forallb (fun c => negb (c =? 61)%N) ms = true ->
  forallb (fun c => negb (c =? 32)%N) rs = true ->
  tail = [] \/ (exists t, tail = 32%N :: t) ->
  let text := u "плотность:" ++ sp1 ++ u "масса=" ++ ms
              ++ 32%N :: sp2 ++ u "радиус=" ++ rs ++ tail in
  contains (u "масса=") text = true /\
  contains (u "радиус=") text = true /\
  number_after (u "масса=") text = replace1 44 (u ".") ms /\
  number_after (u "радиус=") text = replace1 44 (u ".") rs.
Proof.
  intros Hsp1 Hsp2 Hms32 Hms61 Hrs Htail text.
  assert (Hmass : find (u "масса=") text 0 = Some (length (u "плотность:" ++ sp1))).
  { unfold find, text. simpl Nat.leb. rewrite drop_0.
    rewrite app_assoc. literal "масса="%string.
    rewrite find_at_skip_first.
    - apply find_at_here. apply (startswith_app [1084; 1072; 1089; 1089; 1072; 61]%N).
    - rewrite forallb_app. apply andb_true_iff. split; [vm_compute; reflexivity|].
      apply spaces_differ; [discriminate | exact Hsp1]. }
  assert (Hradius : find (u "радиус=") text 0
            = Some (length (u "плотность:" ++ sp1 ++ u "масса=" ++ ms ++ 32%N :: sp2))).
  { unfold find, text. simpl Nat.leb. rewrite drop_0.
    replace (u "плотность:" ++ sp1 ++ u "масса=" ++ ms
             ++ 32%N :: sp2 ++ u "радиус=" ++ rs ++ tail)
      with ((u "плотность:" ++ sp1 ++ u "масса=") ++ ms
            ++ 32%N :: sp2 ++ u "радиус=" ++ rs ++ tail)
      by (rewrite <- !app_assoc; reflexivity).
    literal "радиус="%string.
    rewrite find_at_skip_first.
    2:{ rewrite !forallb_app. repeat (apply andb_true_iff; split);
          try (vm_compute; reflexivity).
        apply spaces_differ; [discriminate | exact Hsp1]. }
    rewrite (find_at_skip_stretch _ 61%N).
    2:{ simpl. tauto. }
    2:{ apply forallb_not_In, Hms61. }
    2:{ simpl. intros H. repeat destruct H as [H|H]; try discriminate H. exact H. }
    rewrite (app_comm_cons sp2 _ 32%N).
    rewrite find_at_skip_first.
    2:{ simpl. apply spaces_differ; [discriminate | exact Hsp2]. }
    rewrite find_at_here.
    - f_equal. rewrite !length_app. simpl. lia.
    - apply (startswith_app [1088; 1072; 1076; 1080; 1091; 1089; 61]%N). }
  split; [unfold contains; rewrite Hmass; reflexivity|].
  split; [unfold contains; rewrite Hradius; reflexivity|].
  split.
  - apply (number_after_at _ _ (u "плотность:" ++ sp1) ms
             (32%N :: sp2 ++ u "радиус=" ++ rs ++ tail));
      [| exact Hmass | exact Hms32 | right; eexists; reflexivity].
    unfold text. rewrite <- ?app_assoc. reflexivity.
  - apply (number_after_at _ _
             (u "плотность:" ++ sp1 ++ u "масса=" ++ ms ++ 32%N :: sp2) rs tail);
      [| exact Hradius | exact Hrs | exact Htail].
    unfold text. rewrite <- ?app_assoc. cbn [app]. rewrite <- ?app_assoc.
    reflexivity.
Qed.

(** * Further properties of the parser *)

(** ** The sanitiser works character by character *)

Lemma replace1_app old new a b :
  replace1 old new (a ++ b) = replace1 old new a ++ replace1 old new b.
Proof. unfold replace1. apply flat_map_app. Qed.

Lemma replace_superscripts_app a b :
  replace_superscripts (a ++ b) = replace_superscripts a ++ replace_superscripts b.
Proof.
  unfold replace_superscripts. generalize superscript_map. intros m.
  revert a b. induction m as [|p m IH]; intros a b; [reflexivity|].
  simpl. rewrite replace1_app. apply IH.
Qed.

Lemma residue_app a b : residue (a ++ b) = residue a ++ residue b.
Proof.
  unfold residue, strip_units.
  rewrite List.filter_app, replace_superscripts_app, !replace1_app. reflexivity.
Qed.

Lemma residue_dropped unit :
  forallb (fun c => negb (kept_char c)) unit = true -> residue unit = [].
Proof.
  intros H. unfold residue, strip_units.
  replace (List.filter kept_char unit) with (@nil N); [reflexivity|].
  induction unit as [|c t IH]; [reflexivity|]. simpl in H |- *.
  apply andb_true_iff in H as [Hc Ht]. apply negb_true_iff in Hc.
  rewrite Hc. apply IH, Ht.
Qed.

Lemma plain_char_kept c : plain_char c = true -> kept_char c = true.
Proof.
  unfold plain_char, kept_char. intros H.
  destruct (is_ascii_digit c) eqn:E.
  - rewrite (ascii_digit_is_decimal c E). reflexivity.
  - simpl in H.
    repeat match type of H with
           | context [(c =? ?k)%N] => destruct (c =? k)%N; simpl in H
           end; try discriminate H; repeat rewrite orb_true_r; reflexivity.
Qed.

Lemma residue_plain s : forallb plain_char s = true -> residue s = s.
Proof.
  intros H. unfold residue, strip_units.
  assert (Hkept : List.filter kept_char s = s).
  { induction s as [|c t IH]; [reflexivity|]. simpl in H |- *.
    apply andb_true_iff in H as [Hc Ht].
    rewrite (plain_char_kept c Hc), (IH Ht). reflexivity. }
  rewrite Hkept.
  assert (Hne : forall k, plain_char k = false ->
                  forallb (fun c => negb (c =? k)%N) s = true).
  { intros k Hk. apply forallb_forall. intros c Hc.
    rewrite forallb_forall in H. specialize (H c Hc).
    apply negb_true_iff, N.eqb_neq. intros ->. congruence. }
  rewrite replace_superscripts_absent.
  - rewrite (replace1_absent 215) by (apply Hne; reflexivity).
    rewrite (replace1_absent 94) by (apply Hne; reflexivity). reflexivity.
  - apply forallb_forall. intros c Hc.
    rewrite forallb_forall in H. specialize (H c Hc).
    apply negb_true_iff, bool_decide_eq_false. intros Hin.
    apply list_elem_of_In in Hin. simpl in Hin.
    repeat destruct Hin as [<- | Hin]; try discriminate H. exact Hin.
Qed.

Lemma ascii_digits_plain ds : all_digits ds = true -> forallb plain_char (ascii_digits ds) = true.
Proof.
  induction ds as [|d ds IH]; intros H; [reflexivity|].
  simpl in H. apply andb_true_iff in H as [Hd H]. apply N.ltb_lt in Hd.
  cbn [ascii_digits List.map forallb]. fold (ascii_digits ds). rewrite (IH H).
  unfold plain_char, is_ascii_digit.
  replace (48 <=? 48 + d)%N with true by (symmetry; apply N.leb_le; lia).
  replace (48 + d <=? 57)%N with true by (symmetry; apply N.leb_le; lia).
  reflexivity.
Qed.

(** ** The tokenizer on runs of digits *)

Lemma classify_ascii_digit d : (d < 10)%N -> Eval.classify (48 + d) = Eval.CDigit d.
Proof.
  intros H. unfold Eval.classify, is_ascii_digit.
  replace (48 <=? 48 + d)%N with true by (symmetry; apply N.leb_le; lia).
  replace (48 + d <=? 57)%N with true by (symmetry; apply N.leb_le; lia).
  simpl. f_equal. lia.
Qed.

Lemma lex_nil_step (o : option (list Eval.token)) :
  match o with Some rest => Some ([] ++ rest) | None => None end = o.
Proof. destruct o; reflexivity. Qed.

Lemma lex_int_run ds : forall acc rest,
  all_digits ds = true ->
  Eval.lex (Eval.LInt acc) (ascii_digits ds ++ rest) = Eval.lex (Eval.LInt (acc ++ ds)) rest.
Proof.
  induction ds as [|d ds IH]; intros acc rest H.
  - rewrite app_nil_r. reflexivity.
  - simpl in H. apply andb_true_iff in H as [Hd H]. apply N.ltb_lt in Hd.
    cbn [ascii_digits List.map app Eval.lex].
    rewrite (classify_ascii_digit d Hd). cbn [Eval.lex_step].
    rewrite lex_nil_step. fold (ascii_digits ds). rewrite (IH _ _ H).
    rewrite <- app_assoc. reflexivity.
Qed.

Lemma lex_frac_run fs : forall ds acc rest,
  all_digits fs = true ->
  Eval.lex (Eval.LFrac ds acc) (ascii_digits fs ++ rest)
  = Eval.lex (Eval.LFrac ds (acc ++ fs)) rest.
Proof.
  induction fs as [|d fs IH]; intros ds acc rest H.
  - rewrite app_nil_r. reflexivity.
  - simpl in H. apply andb_true_iff in H as [Hd H]. apply N.ltb_lt in Hd.
    cbn [ascii_digits List.map app Eval.lex].
    rewrite (classify_ascii_digit d Hd). cbn [Eval.lex_step].
    rewrite lex_nil_step. fold (ascii_digits fs). rewrite (IH _ _ _ H).
    rewrite <- app_assoc. reflexivity.
Qed.

Lemma lex_exp_run es : forall ds fs neg acc rest,
  all_digits es = true ->
  Eval.lex (Eval.LExp ds fs neg acc) (ascii_digits es ++ rest)
  = Eval.lex (Eval.LExp ds fs neg (acc ++ es)) rest.
Proof.
  induction es as [|d es IH]; intros ds fs neg acc rest H.
  - rewrite app_nil_r. reflexivity.
  - simpl in H. apply andb_true_iff in H as [Hd H]. apply N.ltb_lt in Hd.
    cbn [ascii_digits List.map app Eval.lex].
    rewrite (classify_ascii_digit d Hd). cbn [Eval.lex_step].
    rewrite lex_nil_step. fold (ascii_digits es). rewrite (IH _ _ _ _ _ H).
    rewrite <- app_assoc. reflexivity.
Qed.

(** A run of digits at the start of a token. *)
Lemma lex_start_run d ds rest :
  all_digits (d :: ds) = true ->
  Eval.lex Eval.LStart (ascii_digits (d :: ds) ++ rest) = Eval.lex (Eval.LInt (d :: ds)) rest.
Proof.
  intros H. pose proof H as H'. simpl in H'. apply andb_true_iff in H' as [Hd Hds].
  apply N.ltb_lt in Hd.
  cbn [ascii_digits List.map app Eval.lex].
  rewrite (classify_ascii_digit d Hd). cbn [Eval.lex_step Eval.lex_start].
  rewrite lex_nil_step. fold (ascii_digits ds). apply (lex_int_run ds [d] rest Hds).
Qed.

(** The mantissa [ds.fs]. *)
Lemma lex_mantissa d ds fs rest :
  all_digits (d :: ds) = true -> all_digits fs = true ->
  Eval.tokenize (ascii_digits (d :: ds) ++ 46%N :: ascii_digits fs ++ rest)
  = Eval.lex (Eval.LFrac (d :: ds) fs) rest.
Proof.
  intros Hds Hfs. unfold Eval.tokenize. rewrite (lex_start_run d ds _ Hds).
  cbn [Eval.lex]. change (Eval.classify 46) with Eval.CDot. cbn [Eval.lex_step].
  rewrite lex_nil_step. apply (lex_frac_run fs (d :: ds) [] rest Hfs).
Qed.

Lemma digits_value_snoc ds d :
  Eval.digits_value (ds ++ [d]) = Eval.digits_value ds * 10 + Z.of_N d.
Proof. unfold Eval.digits_value. rewrite fold_left_app. reflexivity. Qed.

Lemma digits_value_nonneg ds : 0 <= Eval.digits_value ds.
Proof.
  induction ds as [|d ds IH] using rev_ind; [reflexivity|].
  rewrite digits_value_snoc. lia.
Qed.

Lemma int_token_plain e es :
  e <> 0%N \/ es = [] ->
  Eval.int_token (e :: es) = Some (Eval.TNum (PyInt (Eval.digits_value (e :: es)))).
Proof.
  intros [H | ->]; unfold Eval.int_token.
  - destruct e; [contradiction|]. reflexivity.
  - destruct e; reflexivity.
Qed.

Lemma residue_strip s : residue s = residue (strip_units s).
Proof.
  unfold residue.
  assert (Hidem : strip_units (strip_units s) = strip_units s).
  { unfold strip_units. induction s as [|c t IH]; [reflexivity|].
    simpl. destruct (kept_char c) eqn:E; simpl; [rewrite E, IH|]; auto. }
  rewrite Hidem. reflexivity.
Qed.

Lemma parse_by_residue s t :
  residue s = residue t -> parse_scientific_number s = parse_scientific_number t.
Proof. intros H. rewrite !parse_scientific_number_residue, H. reflexivity. Qed.

(** Evaluation of one number token. *)
Lemma parse_number s v :
  Eval.tokenize (residue s) = Some [Eval.TNum v] ->
  match v with PyFloat q => normal q | _ => True end ->
  parse_scientific_number s = Returns (Some v).
Proof.
  intros H Hn. rewrite parse_scientific_number_residue. unfold Eval.py_eval.
  rewrite H. destruct v as [z|q|]; try reflexivity.
  cbn. rewrite (float_result_normal _ _ Hn). reflexivity.
Qed.

(** A normal magnitude other than zero is at least 2⁻¹⁰²¹. *)
Lemma normal_low q : normal q -> Qzero q = false -> (float_low <= Qabs q)%Q.
Proof.
  unfold normal, float_class_of. intros H Hz. rewrite Hz in H.
  destruct (Qle_bool (Qabs q) float_tiny); [discriminate|].
  destruct (Qle_bool float_huge (Qabs q)); [discriminate|].
  destruct (Qle_bool float_low (Qabs q)) eqn:E; [|discriminate].
  apply Qle_bool_iff, E.
Qed.

(** A negative exponent whose power of ten is normal converts to a float. *)
Lemma small_exponent n : n < 0 -> normal (Qpower 10 n) -> Z.abs n < int_max.
Proof.
  intros Hn Hq. destruct n as [|p|p]; try lia.
  pose proof (Z.pow_gt_lin_r 10 (Z.pos p) ltac:(lia) ltac:(lia)) as Hlin.
  pose proof (Zpower_Qpower 10 (Z.pos p) ltac:(lia)) as Hpow.
  assert (Heq : (Qpower 10 (Z.neg p) == / inject_Z (10 ^ Z.pos p))%Q).
  { rewrite Hpow. reflexivity. }
  destruct (10 ^ Z.pos p) as [|x|x] eqn:Ex; try lia.
  assert (Hz : Qzero (Qpower 10 (Z.neg p)) = false).
  { rewrite (Qzero_compat _ _ Heq). reflexivity. }
  pose proof (normal_low _ Hq Hz) as Hlow.
  rewrite Heq in Hlow. unfold Qle, Qabs, Qinv, inject_Z, float_low in Hlow.
  cbn [Qnum Qden Z.abs] in Hlow. unfold int_max. lia.
Qed.

Lemma parse_untokenizable s :
  Eval.tokenize (residue s) = None -> parse_scientific_number s = Returns None.
Proof.
  intros H. rewrite parse_scientific_number_residue. unfold Eval.py_eval.
  rewrite H. reflexivity.
Qed.

(** X2.  Characters outside the kept class are ignored wherever they stand. *)
Theorem dropped_characters_are_invisible s1 unit s2 :
  forallb (fun c => negb (kept_char c)) unit = true ->
  parse_scientific_number (s1 ++ unit ++ s2) = parse_scientific_number (s1 ++ s2).
Proof.
  intros H. apply parse_by_residue.
  rewrite !residue_app, (residue_dropped unit H). reflexivity.
Qed.

Lemma dropped_characters_are_invisible_witness :
  parse_scientific_number (u "6.957" ++ u " м " ++ u "e8")
  = parse_scientific_number (u "6.957" ++ u "e8").
Proof.
  apply (dropped_characters_are_invisible (u "6.957") (u " м ") (u "e8")).
  vm_compute. reflexivity.
Defined.

(** The exponent part of a float literal. *)
Lemma lex_exponent ds fs mark sign e es :
  mark ∈ [101; 69]%N -> sign ∈ [[]; [43]; [45]]%N ->
  all_digits (e :: es) = true ->
  Eval.lex (Eval.LFrac ds fs) (mark :: sign ++ ascii_digits (e :: es))
  = Some [Eval.float_token ds fs (bool_decide (sign = [45%N])) (e :: es)].
Proof.
  intros Hmark Hsign Hes.
  pose proof Hes as H'. simpl in H'. apply andb_true_iff in H' as [He Hes'].
  apply N.ltb_lt in He.
  assert (Hc : Eval.classify mark = Eval.CExp).
  { apply list_elem_of_In in Hmark. simpl in Hmark.
    destruct Hmark as [<- | [<- | []]]; reflexivity. }
  cbn [Eval.lex]. rewrite Hc. cbn [Eval.lex_step]. rewrite lex_nil_step.
  assert (Hrun : forall neg,
            Eval.lex (Eval.LExp ds fs neg [e]) (ascii_digits es)
            = Some [Eval.float_token ds fs neg (e :: es)]).
  { intros neg. rewrite <- (app_nil_r (ascii_digits es)).
    rewrite (lex_exp_run es ds fs neg [e] [] Hes'). reflexivity. }
  apply list_elem_of_In in Hsign. simpl in Hsign.
  destruct Hsign as [<- | [<- | [<- | []]]];
    cbn [app ascii_digits List.map Eval.lex];
    try change (Eval.classify 43) with Eval.CPlus;
    try change (Eval.classify 45) with Eval.CMinus;
    rewrite ?(classify_ascii_digit e He);
    cbn [Eval.lex_step]; rewrite ?lex_nil_step;
    cbn [Eval.lex]; rewrite ?(classify_ascii_digit e He);
    cbn [Eval.lex_step]; rewrite ?lex_nil_step;
    fold (ascii_digits es); rewrite Hrun; reflexivity.
Qed.

(** X4.  A decimal literal with an [e] exponent, followed by units, is read as
    the number it denotes, when that number is zero or of a magnitude inside
    the normal float range. *)
Theorem e_notation_is_read d ds fs mark sign e es unit :
  all_digits (d :: ds) = true -> all_digits fs = true ->
  all_digits (e :: es) = true ->
  mark ∈ [101; 69]%N -> sign ∈ [[]; [43]; [45]]%N ->
  forallb (fun c => negb (kept_char c)) unit = true ->
  normal (Eval.float_value (d :: ds) fs
            (if bool_decide (sign = [45%N]) then - Eval.digits_value (e :: es)
             else Eval.digits_value (e :: es))) ->
  parse_scientific_number
    (ascii_digits (d :: ds) ++ 46%N :: ascii_digits fs
     ++ mark :: sign ++ ascii_digits (e :: es) ++ unit)
  = Returns (Some (PyFloat
      (Eval.float_value (d :: ds) fs
         (if bool_decide (sign = [45%N]) then - Eval.digits_value (e :: es)
          else Eval.digits_value (e :: es))))).
Proof.
  intros Hds Hfs Hes Hmark Hsign Hunit Hnormal.
  apply parse_number; [|exact Hnormal].
  set (lit := ascii_digits (d :: ds) ++ 46%N :: ascii_digits fs
              ++ mark :: sign ++ ascii_digits (e :: es)).
  replace (ascii_digits (d :: ds) ++ 46%N :: ascii_digits fs
           ++ mark :: sign ++ ascii_digits (e :: es) ++ unit)
    with (lit ++ unit).
  2:{ unfold lit. rewrite <- !app_assoc. cbn [app]. rewrite <- !app_assoc.
      cbn [app]. rewrite <- !app_assoc. reflexivity. }
  rewrite residue_app, (residue_dropped unit Hunit), app_nil_r.
  rewrite residue_plain.
  - unfold lit. rewrite (lex_mantissa d ds fs _ Hds Hfs).
    apply (lex_exponent (d :: ds) fs mark sign e es Hmark Hsign Hes).
  - unfold lit. rewrite forallb_app. cbn [forallb].
    rewrite forallb_app. cbn [forallb]. rewrite forallb_app.
    rewrite !ascii_digits_plain by assumption.
    apply list_elem_of_In in Hmark. simpl in Hmark.
    apply list_elem_of_In in Hsign. simpl in Hsign.
    destruct Hmark as [<- | [<- | []]];
      destruct Hsign as [<- | [<- | [<- | []]]]; reflexivity.
Qed.

Lemma e_notation_is_read_witness :
  parse_scientific_number (u "5.9722e24 кг")
  = Returns (Some (PyFloat (Eval.float_value [5] [9; 7; 2; 2] 24)%N)).
Proof.
  apply (e_notation_is_read 5 [] [9; 7; 2; 2] 101 [] 2 [4] (u " кг"))%N;
    vm_compute; try reflexivity.
  - apply list_elem_of_In. simpl. tauto.
  - apply list_elem_of_In. simpl. tauto.
Defined.

(** The exponent of the caret form, [*10**] with an optional minus sign. *)
Lemma lex_caret_exponent ds fs (neg : bool) e es :
  all_digits (e :: es) = true -> e <> 0%N \/ es = [] ->
  Eval.lex (Eval.LFrac ds fs)
    (u "*10**" ++ (if neg then [45%N] else []) ++ ascii_digits (e :: es))
  = Some ([Eval.float_token ds fs false []; Eval.TStar; Eval.TNum (PyInt 10); Eval.TPow]
          ++ (if neg then [Eval.TMinus] else [])
          ++ [Eval.TNum (PyInt (Eval.digits_value (e :: es)))]).
Proof.
  intros Hes Hlead.
  assert (Hint : Eval.lex Eval.LStart (ascii_digits (e :: es))
                 = Some [Eval.TNum (PyInt (Eval.digits_value (e :: es)))]).
  { rewrite <- (app_nil_r (ascii_digits (e :: es))).
    rewrite (lex_start_run e es [] Hes). cbn [Eval.lex Eval.lex_finish].
    rewrite (int_token_plain e es Hlead). reflexivity. }
  literal "*10**"%string.
  assert (Hhead : forall rest toks,
            Eval.lex Eval.LStart rest = Some toks ->
            Eval.lex (Eval.LFrac ds fs) ([42; 49; 48; 42; 42]%N ++ rest)
            = Some ([Eval.float_token ds fs false []; Eval.TStar;
                     Eval.TNum (PyInt 10); Eval.TPow] ++ toks)).
  { intros rest toks Hrest. cbn [app Eval.lex].
    change (Eval.classify 42) with Eval.CStar.
    change (Eval.classify 49) with (Eval.CDigit 1).
    change (Eval.classify 48) with (Eval.CDigit 0).
    cbn [Eval.lex_step Eval.lex_emit Eval.lex_start Eval.int_token app].
    rewrite Hrest. reflexivity. }
  apply Hhead. destruct neg; [|exact Hint].
  cbn [app Eval.lex]. change (Eval.classify 45) with Eval.CMinus.
  cbn [Eval.lex_step Eval.lex_start]. rewrite Hint. reflexivity.
Qed.

Lemma Qred_inject_Z z : Qred (inject_Z z) = inject_Z z.
Proof.
  unfold Qred, inject_Z. cbn [Qnum Qden].
  pose proof (Z.ggcd_gcd z 1) as Hg.
  pose proof (Z.ggcd_correct_divisors z 1) as Hd.
  destruct (Z.ggcd z 1) as [g [a b]]. cbn [fst snd] in *.
  rewrite Z.gcd_1_r in Hg. subst g. destruct Hd as [Ha Hb].
  replace a with z by lia. replace b with 1 by lia. reflexivity.
Qed.

(** [10 ** n] for an integer [n] of either sign, when the power is inside
    the normal float range. *)
Lemma py_pow_ten n :
  normal (Qpower 10 n) ->
  exists v, py_pow (PyInt 10) (PyInt n) = Returns v /\ is_number v = true /\
            (as_float v == Qpower 10 n)%Q /\ to_float v = Returns (as_float v).
Proof.
  intros Hn. unfold py_pow. destruct (0 <=? n) eqn:E.
  - apply Z.leb_le in E. exists (PyInt (10 ^ n)).
    pose proof (Zpower_Qpower 10 n E) as Hpow.
    split; [reflexivity|]. split; [reflexivity|]. split; [exact Hpow|].
    apply to_float_normal; [reflexivity|].
    apply (normal_compat (Qpower 10 n)); [symmetry; exact Hpow | exact Hn].
  - apply Z.leb_gt in E. pose proof (small_exponent n E Hn) as Hsmall.
    apply Z.ltb_lt in Hsmall.
    unfold to_float. change (Z.abs 10 <? int_max) with true. rewrite Hsmall.
    cbv iota. cbn [mbind outcome_bind].
    unfold float_pow. change (Qzero (inject_Z 10)) with false. cbv iota.
    unfold Qintegral. rewrite Qred_inject_Z. cbn [Qden inject_Z Pos.eqb Qnum].
    change (10 # 1)%Q with (inject_Z 10).
    rewrite (float_result_normal _ _ Hn).
    eexists. split; [reflexivity|]. split; [reflexivity|]. split; reflexivity.
Qed.

(** X5.  The caret form [m×10^n] is read as [m] times ten to the [n], for an
    exponent of either sign, when the mantissa, the power of ten and their
    product are inside the normal float range. *)
Theorem caret_notation_is_read d ds fs (neg : bool) e es unit :
  all_digits (d :: ds) = true -> all_digits fs = true ->
  all_digits (e :: es) = true -> e <> 0%N \/ es = [] ->
  forallb (fun c => negb (kept_char c)) unit = true ->
  normal (Eval.float_value (d :: ds) fs 0) ->
  normal (Qpower 10 (if neg then - Eval.digits_value (e :: es)
                     else Eval.digits_value (e :: es))) ->
  normal (Eval.float_value (d :: ds) fs 0
          * Qpower 10 (if neg then - Eval.digits_value (e :: es)
                       else Eval.digits_value (e :: es))) ->
  exists q,
    parse_scientific_number
      (ascii_digits (d :: ds) ++ 46%N :: ascii_digits fs
       ++ u "×10^" ++ (if neg then u "-" else []) ++ ascii_digits (e :: es) ++ unit)
    = Returns (Some (PyFloat q)) /\
    (q == Eval.float_value (d :: ds) fs 0
          * Qpower 10 (if neg then - Eval.digits_value (e :: es)
                       else Eval.digits_value (e :: es)))%Q.
Proof.
  intros Hds Hfs Hes Hlead Hunit Hmant Hten Hprod.
  set (n := Eval.digits_value (e :: es)) in *.
  destruct (py_pow_ten (if neg then - n else n) Hten) as (v & Hv & Hnum & Hval & Hfl).
  exists (Eval.float_value (d :: ds) fs 0 * as_float v)%Q.
  split; [|rewrite Hval; reflexivity].
  assert (Hprod' : normal (Eval.float_value (d :: ds) fs 0 * as_float v)).
  { eapply normal_compat; [|exact Hprod]. rewrite Hval. reflexivity. }
  rewrite parse_scientific_number_residue.
  set (mant := ascii_digits (d :: ds) ++ 46%N :: ascii_digits fs).
  set (expo := (if neg then u "-" else []) ++ ascii_digits (e :: es)).
  replace (ascii_digits (d :: ds) ++ 46%N :: ascii_digits fs
           ++ u "×10^" ++ (if neg then u "-" else []) ++ ascii_digits (e :: es) ++ unit)
    with (mant ++ u "×10^" ++ expo ++ unit).
  2:{ unfold mant, expo. rewrite <- ?app_assoc. cbn [app]. rewrite <- ?app_assoc.
      reflexivity. }
  rewrite !residue_app, (residue_dropped unit Hunit), app_nil_r.
  change (residue (u "×10^")) with (u "*10**").
  rewrite (residue_plain mant), (residue_plain expo).
  - unfold Eval.py_eval, mant.
    replace ((ascii_digits (d :: ds) ++ 46%N :: ascii_digits fs) ++ u "*10**" ++ expo)
      with (ascii_digits (d :: ds) ++ 46%N :: ascii_digits fs ++ u "*10**" ++ expo)
      by (rewrite <- !app_assoc; reflexivity).
    rewrite (lex_mantissa d ds fs _ Hds Hfs). unfold expo.
    change (u "-") with [45%N].
    rewrite (lex_caret_exponent (d :: ds) fs neg e es Hes Hlead).
    fold n. unfold Eval.float_token. change (Eval.digits_value []) with 0.
    cbv iota.
    set (m := Eval.float_value (d :: ds) fs 0) in *.
    assert (Hmul : py_mul (PyFloat m) v = Returns (PyFloat (m * as_float v))).
    { unfold py_mul, py_arith. destruct v as [z|q|]; [| |discriminate Hnum].
      - rewrite Hfl. cbn [to_float mbind outcome_bind as_float].
        apply float_result_normal, Hprod'.
      - cbn [to_float mbind outcome_bind as_float].
        apply float_result_normal, Hprod'. }
    destruct neg; cbn [app Eval.parse] in Hv |- *; cbn;
      rewrite (float_result_normal _ _ Hmant); cbn [mbind outcome_bind];
      cbn in Hv; rewrite Hv; cbn [mbind outcome_bind];
      rewrite Hmul; reflexivity.
  - unfold expo. rewrite forallb_app, (ascii_digits_plain _ Hes).
    destruct neg; reflexivity.
  - unfold mant. rewrite forallb_app. cbn [forallb].
    rewrite !ascii_digits_plain by assumption. reflexivity.
Qed.

Lemma caret_notation_is_read_witness :
  exists q,
    parse_scientific_number (u "6.674×10^-11 Н")
    = Returns (Some (PyFloat q)) /\
    (q == Eval.float_value [6%N] [6%N; 7%N; 4%N] 0
          * Qpower 10 (- Eval.digits_value [1%N; 1%N]))%Q.
Proof.
  apply (caret_notation_is_read 6 [] [6; 7; 4] true 1 [1] (u " Н"))%N;
    try (vm_compute; reflexivity).
  left. discriminate.
Defined.

(** A number followed by [e] or [E] and no exponent digits is no literal. *)
Lemma lex_dangling_exponent st rest :
  (exists ds, st = Eval.LInt ds) \/ (exists ds fs, st = Eval.LFrac ds fs) ->
  rest <> [] ->
  forallb (fun c => (c =? 101)%N || (c =? 69)%N) rest = true ->
  Eval.lex st rest = None.
Proof.
  intros Hst Hne Hall. destruct rest as [|c rest]; [contradiction|].
  simpl in Hall. apply andb_true_iff in Hall as [Hc Hrest].
  assert (Hcls : forall x, (x =? 101)%N || (x =? 69)%N = true ->
                           Eval.classify x = Eval.CExp).
  { intros x Hx. apply orb_true_iff in Hx as [Hx | Hx]; apply N.eqb_eq in Hx;
      subst x; reflexivity. }
  assert (Hmark : forall ds fs, Eval.lex (Eval.LExpMark ds fs) rest = None).
  { intros ds fs. destruct rest as [|c' rest']; [reflexivity|].
    simpl in Hrest. apply andb_true_iff in Hrest as [Hc' _].
    cbn [Eval.lex]. rewrite (Hcls c' Hc'). reflexivity. }
  cbn [Eval.lex]. rewrite (Hcls c Hc).
  destruct Hst as [[ds ->] | (ds & fs & ->)]; cbn [Eval.lex_step];
    rewrite Hmark; reflexivity.
Qed.

(** X6.  A unit written with a Latin [e] or [E] (and otherwise dropped
    characters) right after a plain number makes the value unreadable: the
    letter is kept and read as the start of an exponent. *)
Theorem latin_e_in_unit_defeats_parser d ds (frac : option (list N)) unit :
  all_digits (d :: ds) = true ->
  all_digits (default [] frac) = true ->
  strip_units unit <> [] ->
  forallb (fun c => (c =? 101)%N || (c =? 69)%N) (strip_units unit) = true ->
  parse_scientific_number
    (ascii_digits (d :: ds)
     ++ match frac with Some fs => 46%N :: ascii_digits fs | None => [] end
     ++ unit)
  = Returns None.
Proof.
  intros Hds Hfs Hne Hall. apply parse_untokenizable.
  assert (Hunit : residue unit = strip_units unit).
  { rewrite residue_strip. apply residue_plain.
    apply forallb_forall. intros c Hc. rewrite forallb_forall in Hall.
    specialize (Hall c Hc). unfold plain_char.
    apply orb_true_iff in Hall as [H | H]; rewrite H;
      repeat rewrite orb_true_r; reflexivity. }
  destruct frac as [fs|]; cbn [default] in Hfs.
  - replace (ascii_digits (d :: ds) ++ (46%N :: ascii_digits fs) ++ unit)
      with ((ascii_digits (d :: ds) ++ 46%N :: ascii_digits fs) ++ unit)
      by (rewrite <- app_assoc; reflexivity).
    rewrite residue_app, Hunit, residue_plain.
    + rewrite <- app_assoc. cbn [app].
      rewrite (lex_mantissa d ds fs _ Hds Hfs).
      apply lex_dangling_exponent; [right; eauto | exact Hne | exact Hall].
    + rewrite forallb_app. cbn [forallb].
      rewrite !ascii_digits_plain by assumption. reflexivity.
  - cbn [app]. rewrite residue_app, Hunit, residue_plain
      by (apply ascii_digits_plain, Hds).
    unfold Eval.tokenize. rewrite (lex_start_run d ds _ Hds).
    apply lex_dangling_exponent; [left; eauto | exact Hne | exact Hall].
Qed.

Lemma latin_e_in_unit_defeats_parser_witness :
  parse_scientific_number (u "5772 Kelvin") = Returns None /\
  parse_scientific_number (u "6.957 meters") = Returns None.
Proof.
  split.
  - apply (latin_e_in_unit_defeats_parser 5 [7; 7; 2] None (u " Kelvin"))%N;
      vm_compute; try reflexivity; discriminate.
  - apply (latin_e_in_unit_defeats_parser 6 [] (Some [9; 5; 7]) (u " meters"))%N;
      vm_compute; try reflexivity; discriminate.
Defined.

(** X7.  A hyphen between two whole numbers is kept and evaluated as a
    subtraction. *)
Theorem hyphen_is_subtraction a al b bl unit :
  all_digits (a :: al) = true -> a <> 0%N \/ al = [] ->
  all_digits (b :: bl) = true -> b <> 0%N \/ bl = [] ->
  forallb (fun c => negb (kept_char c)) unit = true ->
  parse_scientific_number
    (ascii_digits (a :: al) ++ u "-" ++ ascii_digits (b :: bl) ++ unit)
  = Returns (Some (PyInt (Eval.digits_value (a :: al) - Eval.digits_value (b :: bl)))).
Proof.
  intros Ha Hla Hb Hlb Hunit.
  rewrite parse_scientific_number_residue.
  rewrite !residue_app, (residue_dropped unit Hunit), app_nil_r.
  rewrite !residue_plain by (try apply ascii_digits_plain; auto).
  unfold Eval.py_eval, Eval.tokenize.
  rewrite (lex_start_run a al _ Ha). change (u "-") with [45%N].
  cbn [app Eval.lex]. change (Eval.classify 45) with Eval.CMinus.
  cbn [Eval.lex_step]. rewrite (int_token_plain a al Hla).
  cbn [Eval.lex_emit Eval.lex_start app].
  rewrite <- (app_nil_r (ascii_digits (b :: bl))).
  rewrite (lex_start_run b bl [] Hb). cbn [Eval.lex Eval.lex_finish].
  rewrite (int_token_plain b bl Hlb). reflexivity.
Qed.

Lemma hyphen_is_subtraction_witness :
  parse_scientific_number (u "10-12 часов") = Returns (Some (PyInt (-2))).
Proof.
  apply (hyphen_is_subtraction 1 [0] 1 [2] (u " часов"))%N;
    try (vm_compute; reflexivity); left; discriminate.
Defined.

(** X3.  A plain decimal number followed by units is read as that number: a
    whole number (written without a leading zero) as an [int], a number with
    a decimal point, zero or of a magnitude inside the normal float range,
    as a [float]. *)
Theorem plain_number_is_read d ds (frac : option (list N)) unit :
  all_digits (d :: ds) = true ->
  all_digits (default [] frac) = true ->
  (frac = None -> d <> 0%N \/ ds = []) ->
  (forall fs, frac = Some fs -> normal (Eval.float_value (d :: ds) fs 0)) ->
  forallb (fun c => negb (kept_char c)) unit = true ->
  parse_scientific_number
    (ascii_digits (d :: ds)
     ++ match frac with Some fs => 46%N :: ascii_digits fs | None => [] end
     ++ unit)
  = Returns (Some (match frac with
                   | Some fs => PyFloat (Eval.float_value (d :: ds) fs 0)
                   | None => PyInt (Eval.digits_value (d :: ds))
                   end)).
Proof.
  intros Hds Hfs Hlead Hnormal Hunit.
  apply parse_number; [|destruct frac as [fs|]; [exact (Hnormal fs eq_refl) | exact I]].
  destruct frac as [fs|]; cbn [default] in Hfs.
  - replace (ascii_digits (d :: ds) ++ (46%N :: ascii_digits fs) ++ unit)
      with ((ascii_digits (d :: ds) ++ 46%N :: ascii_digits fs) ++ unit)
      by (rewrite <- app_assoc; reflexivity).
    rewrite residue_app, (residue_dropped unit Hunit), app_nil_r, residue_plain.
    + rewrite <- (app_nil_r (ascii_digits fs)).
      rewrite (lex_mantissa d ds fs [] Hds Hfs). reflexivity.
    + rewrite forallb_app. cbn [forallb].
      rewrite !ascii_digits_plain by assumption. reflexivity.
  - cbn [app]. rewrite residue_app, (residue_dropped unit Hunit), app_nil_r.
    rewrite residue_plain by (apply ascii_digits_plain, Hds).
    unfold Eval.tokenize. rewrite <- (app_nil_r (ascii_digits (d :: ds))).
    rewrite (lex_start_run d ds [] Hds). cbn [Eval.lex Eval.lex_finish].
    rewrite (int_token_plain d ds (Hlead eq_refl)). reflexivity.
Qed.

Lemma plain_number_is_read_witness :
  parse_scientific_number (u "5772 K") = Returns (Some (PyInt 5772)) /\
  parse_scientific_number (u "25.05 дн")
  = Returns (Some (PyFloat (Eval.float_value [2; 5] [0; 5] 0)%N)).
Proof.
  split.
  - apply (plain_number_is_read 5 [7; 7; 2] None (u " K"))%N;
      [ vm_compute; reflexivity | vm_compute; reflexivity
      | intros _; left; discriminate | intros fs; discriminate
      | vm_compute; reflexivity ].
  - apply (plain_number_is_read 2 [5] (Some [0; 5]) (u " дн"))%N;
      [ vm_compute; reflexivity | vm_compute; reflexivity
      | discriminate | intros fs [= <-]; vm_compute; reflexivity
      | vm_compute; reflexivity ].
Defined.

(** * Further properties of the handlers *)

(** ** The shape of the handlers' output *)

Lemma one_action_send (P : action -> Prop) a :
  P a -> one_action P (send a).
Proof. intros H. exists a. split; [reflexivity | exact H]. Qed.

Lemma one_action_bind {A B} (P : action -> Prop) (m : handler A) (k : A -> handler B) :
  fst m = [] -> (forall a, one_action P (k a)) -> one_action P (hbind m k).
Proof.
  destruct m as [acts [a| |]]; cbn [fst]; intros -> Hk; try reflexivity.
  specialize (Hk a). unfold hbind. destruct (k a) as [acts' o]. exact Hk.
Qed.

Lemma hbind_answer {A} (h : handler A) :
  hbind (send answer) (fun _ => h) = (answer :: fst h, snd h).
Proof. destruct h. reflexivity. Qed.

Ltac known_keyboard :=
  cbn [inline_screen reply_screen];
  try match goal with |- context [if ?b then _ else _] => destruct b end;
  solve [repeat first [apply list_elem_of_here | apply list_elem_of_further]].

Ltac one_action_step :=
  match goal with
  | |- one_action _ (mbind _ _) => unfold mbind, handler_bind
  | |- one_action _ (hbind (lift _) _) => apply one_action_bind; [reflexivity | intros ?]
  | |- one_action _ (send _) => apply one_action_send; known_keyboard
  | |- one_action _ (if ?b then _ else _) => destruct b
  | |- one_action _ (match ?o with Returns _ => _ | Raises => _ | Untracked => _ end) =>
      destruct o
  | |- one_action _ (lift Untracked) => reflexivity
  | |- one_action _ (lift Raises) => reflexivity
  end.

Lemma show_celestial_body_inline_one data body_name :
  one_action inline_screen (show_celestial_body_inline data body_name).
Proof.
  unfold show_celestial_body_inline. destruct (data !! body_name).
  - repeat one_action_step.
  - repeat one_action_step.
Qed.

Lemma show_task_with_solution_one task_type :
  one_action inline_screen (show_task_with_solution task_type).
Proof. unfold show_task_with_solution. cbv zeta. repeat one_action_step. Qed.

Lemma show_comparison_one data body1 body2 :
  one_action inline_screen (show_comparison data body1 body2).
Proof.
  unfold show_comparison.
  destruct (data !! body1); [destruct (data !! body2)|];
    try (apply one_action_send; known_keyboard).
  repeat one_action_step.
  apply one_action_bind; [|intros ?; cbv zeta; apply one_action_send; known_keyboard].
  repeat match goal with
         | |- context [if ?b then _ else _] => destruct b
         end; try reflexivity; unfold mbind, handler_bind;
    match goal with |- fst (hbind (lift ?o) _) = [] => destruct o; reflexivity end.
Qed.

Lemma show_celestial_body_direct_one data body_name :
  one_action reply_screen (show_celestial_body_direct data body_name).
Proof.
  unfold show_celestial_body_direct, send_body_info. destruct (data !! body_name);
    repeat one_action_step.
Qed.

Lemma calculate_density_from_text_one text :
  one_action reply_screen (calculate_density_from_text text).
Proof. unfold calculate_density_from_text. cbv zeta. repeat one_action_step. Qed.

Lemma handle_message_one data text :
  one_action reply_screen (handle_message data text).
Proof.
  unfold handle_message, show_methods, show_help.
  repeat match goal with
         | |- one_action _ (if ?b then _ else _) => destruct b
         end;
    try (apply one_action_send; known_keyboard);
    auto using show_celestial_body_direct_one, calculate_density_from_text_one.
Qed.

(** The three shapes of what a callback does. *)
Lemma button_callback_cases data token :
  (exists o, button_callback data token = ([answer], o) /\
             (startswith (u "body_") token || startswith (u "compare_") token
              || startswith (u "task_") token = false -> o = Returns tt))
  \/ (exists a, inline_screen a /\
                button_callback data token = ([answer; a], Returns tt))
  \/ (token = u "back_main" /\
      button_callback data token = (back_main_actions, Returns tt)).
Proof.
  assert (Hone : forall h : handler unit,
             one_action inline_screen h ->
             (exists o, hbind (send answer) (fun _ => h) = ([answer], o) /\
                        o <> Returns tt) \/
             (exists a, inline_screen a /\
                        hbind (send answer) (fun _ => h) = ([answer; a], Returns tt))).
  { intros h Hh. rewrite hbind_answer. unfold one_action in Hh.
    destruct h as [acts [[]| |]]; cbn [fst snd] in *.
    - right. destruct Hh as (a & -> & Ha). exists a. split; [exact Ha | reflexivity].
    - left. subst acts. eexists. split; [reflexivity | discriminate].
    - left. subst acts. eexists. split; [reflexivity | discriminate]. }
  unfold button_callback. unfold mbind at 1, handler_bind at 1.
  destruct (startswith (u "body_") token) eqn:Hb.
  { destruct (Hone (body_name ← lift (split_item token 1);
                    show_celestial_body_inline data body_name)) as [(o & -> & Ho) | H].
    - repeat one_action_step. apply show_celestial_body_inline_one.
    - left. exists o. split; [reflexivity | discriminate].
    - right. left. exact H. }
  destruct (startswith (u "compare_") token) eqn:Hc.
  { destruct (tail (split_on 95 token)) as [|b1 [|b2 [|b3 l]]];
      try (left; eexists; split; [reflexivity | discriminate]).
    destruct (Hone (show_comparison data b1 b2)) as [(o & -> & Ho) | H].
    - apply show_comparison_one.
    - left. exists o. split; [reflexivity | discriminate].
    - right. left. exact H. }
  destruct (startswith (u "task_") token) eqn:Ht.
  { destruct (Hone (task_type ← lift (split_item token 1);
                    show_task_with_solution task_type)) as [(o & -> & Ho) | H].
    - repeat one_action_step. apply show_task_with_solution_one.
    - left. exists o. split; [reflexivity | discriminate].
    - right. left. exact H. }
  unfold eqb.
  destruct (bool_decide (token = u "back_main")) eqn:E1.
  { right. right. apply bool_decide_eq_true in E1. split; [exact E1 | reflexivity]. }
  repeat match goal with
         | |- context [bool_decide (token = ?l)] => destruct (bool_decide (token = l))
         end;
    try (right; left; eexists; split; [|reflexivity]; known_keyboard).
  left. eexists. split; reflexivity.
Qed.

(** X8.  Every callback query is answered exactly once, before anything else,
    and a callback that raises has changed nothing on screen. *)
Theorem callback_is_answered_once data token :
  exists rest,
    fst (button_callback data token) = answer :: rest /\
    existsb is_answer rest = false /\
    (snd (button_callback data token) = Raises -> rest = []).
Proof.
  destruct (button_callback_cases data token)
    as [(o & -> & _) | [(a & Ha & ->) | (_ & ->)]].
  - exists []. repeat split.
  - exists [a]. repeat split.
    + destruct a; try contradiction. reflexivity.
    + discriminate.
  - eexists. repeat split. discriminate.
Qed.

Lemma callback_is_answered_once_witness :
  fst (button_callback {[ u "Плутон" := list_to_map [field "type" "Карликовая планета"] ]}
         (u "body_Плутон")) = [answer].
Proof.
  destruct (callback_is_answered_once
              {[ u "Плутон" := list_to_map [field "type" "Карликовая планета"] ]}
              (u "body_Плутон")) as (rest & Hfst & _ & Hraise).
  rewrite Hfst, Hraise; [reflexivity|]. vm_compute. reflexivity.
Defined.

(** X9.  A text message that is handled to completion gets exactly one message
    in reply, sent with [reply_text]; when the handler raises, nothing has
    been sent. *)
Theorem text_message_gets_one_reply data text :
  (snd (handle_message data text) = Returns tt ->
   exists t mode m, fst (handle_message data text) = [reply_text t mode m])
  /\ (snd (handle_message data text) = Raises ->
      fst (handle_message data text) = []).
Proof.
  pose proof (handle_message_one data text) as H. unfold one_action in H.
  destruct (snd (handle_message data text)); split; try discriminate.
  - intros _. destruct H as (act & -> & Ha). destruct act; try contradiction. eauto.
  - intros _. exact H.
Qed.

Lemma text_message_gets_one_reply_witness :
  (exists t mode m,
      fst (handle_message create_sample_data (u "привет")) = [reply_text t mode m])
  /\ fst (handle_message
            {[ u "Сириус" := list_to_map [field "type" "Звезда"] ]} (u "⭐️ Сириус")) = [].
Proof.
  split.
  - apply (text_message_gets_one_reply create_sample_data (u "привет")).
    vm_compute. reflexivity.
  - apply (text_message_gets_one_reply
             {[ u "Сириус" := list_to_map [field "type" "Звезда"] ]} (u "⭐️ Сириус")).
    vm_compute. reflexivity.
Defined.

Lemma sample_records_complete body_name body :
  create_sample_data !! body_name = Some body ->
  Forall (fun key => is_Some (body !! key)) required_keys.
Proof.
  revert body_name body. apply map_Forall_lookup.
  apply (bool_decide_unpack _). vm_compute. exact I.
Qed.

Lemma startswith_split p : forall a,
  startswith p a = true -> exists r, a = p ++ r.
Proof.
  induction p as [|x p IH]; intros a H; [exists a; reflexivity|].
  destruct a as [|y a]; [discriminate|]. simpl in H.
  apply andb_true_iff in H as [Hx H]. apply N.eqb_eq in Hx. subst y.
  destruct (IH a H) as [r ->]. exists r. reflexivity.
Qed.

Lemma split_on_nonempty sep a : split_on sep a <> [].
Proof.
  induction a as [|c a IH]; simpl; [discriminate|].
  destruct (c =? sep)%N; [discriminate|].
  destruct (split_on sep a); discriminate.
Qed.

(** [data.split("_")[1]] exists whenever [data] holds an underscore. *)
Lemma split_item_second prefix rest :
  forallb (fun c => negb (c =? 95)%N) prefix = true ->
  exists w, split_item (prefix ++ 95%N :: rest) 1 = Returns w.
Proof.
  intros H. unfold split_item. rewrite (split_on_app _ _ _ H).
  pose proof (split_on_nonempty 95 rest) as Hne.
  destruct (split_on 95 rest) as [|w ws]; [contradiction|].
  exists w. reflexivity.
Qed.

Lemma show_celestial_body_inline_sample body_name :
  snd (show_celestial_body_inline create_sample_data body_name) = Returns tt.
Proof.
  unfold show_celestial_body_inline.
  destruct (create_sample_data !! body_name) as [body|] eqn:E; [|reflexivity].
  apply sample_records_complete in E.
  apply format_body_info_returns_iff with (body_name := body_name) in E as [text ->].
  reflexivity.
Qed.

Lemma show_celestial_body_direct_sample body_name :
  snd (show_celestial_body_direct create_sample_data body_name) = Returns tt.
Proof.
  unfold show_celestial_body_direct, send_body_info.
  destruct (create_sample_data !! body_name) as [body|] eqn:E; [|reflexivity].
  apply sample_records_complete in E.
  apply format_body_info_returns_iff with (body_name := body_name) in E as [text ->].
  reflexivity.
Qed.

Lemma getitem_required body key :
  Forall (fun key => is_Some (body !! key)) required_keys ->
  In key required_keys -> exists v, getitem body key = Returns v.
Proof.
  intros H Hin. rewrite List.Forall_forall in H. destruct (H key Hin) as [v Hv].
  exists v. unfold getitem. rewrite Hv. reflexivity.
Qed.


Lemma snd_hbind_send {A} (m : handler A) (f : A -> action) :
  match snd m with Returns _ => true | _ => false end = true ->
  snd (hbind m (fun x => send (f x))) = Returns tt.
Proof. destruct m as [acts [a| |]]; try discriminate. reflexivity. Qed.

Lemma show_comparison_sample body1 body2 :
  snd (show_comparison create_sample_data body1 body2) = Returns tt.
Proof.
  unfold show_comparison.
  destruct (create_sample_data !! body1) as [b1|] eqn:E1; [|reflexivity].
  destruct (create_sample_data !! body2) as [b2|] eqn:E2; [|reflexivity].
  pose proof (sample_records_complete _ _ E1) as H1.
  pose proof (sample_records_complete _ _ E2) as H2.
  unfold mbind, handler_bind.
  repeat match goal with
         | |- context [getitem ?b ?k] =>
             let v := fresh "v" in
             let Hv := fresh "Hv" in
             assert (exists v, getitem b k = Returns v) as [v Hv]
               by (first [apply (getitem_required b k H1) | apply (getitem_required b k H2)];
                   simpl; tauto);
             rewrite Hv, hbind_lift
         end.
  cbv zeta. apply snd_hbind_send.
  repeat match goal with
         | |- context [if ?b then _ else _] => destruct b
         end; vm_compute; reflexivity.
Qed.

Lemma split_item_after_prefix prefix token :
  forallb (fun c => negb (c =? 95)%N) prefix = true ->
  startswith (prefix ++ [95%N]) token = true ->
  exists w, split_item token 1 = Returns w.
Proof.
  intros Hp H. apply startswith_split in H as [r ->].
  rewrite <- app_assoc. apply (split_item_second prefix r Hp).
Qed.

Lemma button_callback_sample token :
  snd (button_callback create_sample_data token) = Returns tt.
Proof.
  unfold button_callback. unfold mbind at 1, handler_bind at 1.
  rewrite outcome_after_answer.
  destruct (startswith (u "body_") token) eqn:Hb.
  { destruct (split_item_after_prefix (u "body") token eq_refl Hb) as [w ->].
    unfold mbind, handler_bind. rewrite hbind_lift.
    apply show_celestial_body_inline_sample. }
  destruct (startswith (u "compare_") token) eqn:Hc.
  { destruct (tail (split_on 95 token)) as [|b1 [|b2 [|b3 l]]]; try reflexivity.
    apply show_comparison_sample. }
  destruct (startswith (u "task_") token) eqn:Ht.
  { destruct (split_item_after_prefix (u "task") token eq_refl Ht) as [w ->].
    unfold mbind, handler_bind. rewrite hbind_lift. reflexivity. }
  repeat match goal with
         | |- context [if ?b then _ else _] => destruct b
         end; reflexivity.
Qed.

Lemma handle_message_sample text :
  snd (handle_message create_sample_data text) <> Raises.
Proof.
  unfold handle_message, show_methods, show_help.
  repeat match goal with
         | |- context [if ?b then _ else _] => destruct b
         end; try discriminate;
    try (rewrite show_celestial_body_direct_sample; discriminate).
  unfold calculate_density_from_text. cbv zeta.
  repeat match goal with
         | |- context [if ?b then _ else _] => destruct b
         | |- context [match ?o with Returns _ => _ | Raises => _ | Untracked => _ end] =>
             destruct o
         end; discriminate.
Qed.

(** X10.  On the built-in catalogue no event makes a handler raise: every
    callback token is handled to completion, whatever it is, and no text
    message ends in an exception. *)
Theorem handlers_never_raise_on_sample_data :
  (forall token, snd (button_callback create_sample_data token) = Returns tt)
  /\ (forall text, snd (handle_message create_sample_data text) <> Raises)
  /\ snd start_command = Returns tt.
Proof.
  split; [exact button_callback_sample|].
  split; [exact handle_message_sample | reflexivity].
Qed.

(** Every token of the inline keyboards opens a screen. *)
Lemma inline_keyboards_are_live :
  Forall (fun m => Forall (fun token => shows_screen (button_callback create_sample_data token) = true)
                     (markup_tokens m))
    inline_keyboards.
Proof.
  apply List.Forall_forall. intros m Hm. apply List.Forall_forall. intros token Ht.
  assert (Hall : forallb (fun m => forallb (fun token =>
                    shows_screen (button_callback create_sample_data token))
                    (markup_tokens m)) inline_keyboards = true)
    by (vm_compute; reflexivity).
  rewrite forallb_forall in Hall. specialize (Hall m Hm).
  rewrite forallb_forall in Hall. exact (Hall token Ht).
Qed.

Lemma offered_tokens_single {A} (acts : list action) a (o : outcome A) :
  offered_tokens (acts ++ [a], o) =
  markup_tokens (match a with
                 | reply_text _ _ m | edit_message_text _ _ m
                 | edit_message_reply_markup m => m
                 | answer => None
                 end).
Proof.
  unfold offered_tokens, rendered_markup. cbn [fst]. rewrite last_snoc.
  destruct a as [|t p [m|]|t p [m|]|[m|]]; reflexivity.
Qed.

(** X11.  On the built-in catalogue every inline button that any screen offers,
    whether the screen came from a callback, a text message or [/start],
    opens a screen when pressed: the handler completes and sends or edits a
    message. *)
Theorem no_dead_buttons (h : handler unit) token :
  (exists data, h = button_callback create_sample_data data)
  \/ (exists text, h = handle_message create_sample_data text)
  \/ h = start_command ->
  token ∈ offered_tokens h ->
  shows_screen (button_callback create_sample_data token) = true.
Proof.
  intros Hh Htok.
  assert (Hlive : forall m, m ∈ inline_keyboards -> token ∈ markup_tokens m ->
                    shows_screen (button_callback create_sample_data token) = true).
  { intros m Hm Hin. pose proof inline_keyboards_are_live as H.
    rewrite List.Forall_forall in H. apply list_elem_of_In in Hm.
    specialize (H m Hm). rewrite List.Forall_forall in H.
    apply H, list_elem_of_In, Hin. }
  destruct Hh as [[data ->] | [[text ->] | ->]].
  - destruct (button_callback_cases create_sample_data data)
      as [(o & E & _) | [(a & Ha & E) | (_ & E)]]; rewrite E in Htok.
    + apply elem_of_nil in Htok. contradiction.
    + change [answer; a] with ([answer] ++ [a]) in Htok.
      rewrite offered_tokens_single in Htok.
      destruct a; try contradiction. exact (Hlive _ Ha Htok).
    + apply elem_of_nil in Htok. contradiction.
  - pose proof (handle_message_one create_sample_data text) as H.
    unfold one_action in H.
    destruct (handle_message create_sample_data text) as [acts o].
    cbn [fst snd] in H. destruct o as [[]| |]; try (subst acts; apply elem_of_nil in Htok; contradiction).
    destruct H as (a & -> & Ha). change [a] with ([] ++ [a]) in Htok.
    rewrite offered_tokens_single in Htok. destruct a; try contradiction.
    cbn [reply_screen] in Ha.
    assert (Hm : reply_markup ∈ inline_keyboards \/ reply_markup = Some get_main_keyboard).
    { apply list_elem_of_In in Ha. cbn [In reply_keyboards] in Ha.
      destruct Ha as [<- | [<- | [<- | [<- | [<- | []]]]]].
      - left. apply list_elem_of_here.
      - right. reflexivity.
      - left. apply list_elem_of_further, list_elem_of_here.
      - left. do 2 apply list_elem_of_further. apply list_elem_of_here.
      - left. do 3 apply list_elem_of_further. apply list_elem_of_here. }
    destruct Hm as [Hm | ->]; [exact (Hlive _ Hm Htok)|].
    apply elem_of_nil in Htok. contradiction.
  - apply elem_of_nil in Htok. contradiction.
Qed.

Lemma no_dead_buttons_witness :
  shows_screen (button_callback create_sample_data (u "body_Марс")) = true.
Proof.
  apply (no_dead_buttons (button_callback create_sample_data (u "back_planets"))).
  - left. exists (u "back_planets"). reflexivity.
  - apply (bool_decide_unpack _). vm_compute. exact I.
Defined.

Lemma button_callback_body_more data body_name rest :
  forallb (fun c => negb (c =? 95)%N) body_name = true ->
  button_callback data (u "body_" ++ body_name ++ u "_" ++ rest) =
  hbind (send answer) (fun _ => show_celestial_body_inline data body_name).
Proof.
  intros H. unfold button_callback, split_item.
  literal "body_"%string. literal "_"%string.
  cbn [startswith app N.eqb Pos.eqb andb].
  change (98 :: 111 :: 100 :: 121 :: 95 :: body_name ++ 95 :: rest)%N
    with ([98; 111; 100; 121] ++ 95 :: (body_name ++ 95 :: rest))%N.
  rewrite split_on_app by reflexivity. rewrite (split_on_app _ _ _ H).
  cbn [lookup list_lookup]. unfold mbind at 2, handler_bind.
  rewrite hbind_lift. reflexivity.
Qed.

Lemma button_callback_task_more data task_type rest :
  forallb (fun c => negb (c =? 95)%N) task_type = true ->
  button_callback data (u "task_" ++ task_type ++ u "_" ++ rest) =
  hbind (send answer) (fun _ => show_task_with_solution task_type).
Proof.
  intros H. unfold button_callback, split_item.
  literal "body_"%string. literal "compare_"%string. literal "task_"%string.
  literal "_"%string.
  cbn [startswith app N.eqb Pos.eqb andb].
  change (116 :: 97 :: 115 :: 107 :: 95 :: task_type ++ 95 :: rest)%N
    with ([116; 97; 115; 107] ++ 95 :: (task_type ++ 95 :: rest))%N.
  rewrite split_on_app by reflexivity. rewrite (split_on_app _ _ _ H).
  cbn [lookup list_lookup]. unfold mbind at 2, handler_bind.
  rewrite hbind_lift. reflexivity.
Qed.

(** X12.  A [body_] or [task_] token is read up to its second underscore; what
    follows is ignored. *)
Theorem callback_reads_second_segment data prefix item rest :
  prefix ∈ [u "body_"; u "task_"] ->
  forallb (fun c => negb (c =? 95)%N) item = true ->
  button_callback data (prefix ++ item ++ u "_" ++ rest)
  = button_callback data (prefix ++ item).
Proof.
  intros Hp Hitem. apply list_elem_of_In in Hp. cbn [In] in Hp.
  destruct Hp as [<- | [<- | []]].
  - rewrite button_callback_body_more, button_callback_body by exact Hitem.
    reflexivity.
  - rewrite button_callback_task_more, button_callback_task by exact Hitem.
    reflexivity.
Qed.

Lemma callback_reads_second_segment_witness :
  button_callback create_sample_data (u "body_Марс_2")
  = button_callback create_sample_data (u "body_Марс").
Proof.
  apply (callback_reads_second_segment create_sample_data (u "body_") (u "Марс") (u "2")).
  - apply list_elem_of_here.
  - vm_compute. reflexivity.
Defined.

Lemma show_celestial_body_direct_not_prompt data body_name :
  fst (show_celestial_body_direct data body_name)
  <> [reply_text [Lit (u "Пожалуйста, используйте кнопки меню ⬇️")]
        Plain (Some get_main_keyboard)].
Proof.
  unfold show_celestial_body_direct, send_body_info, not_found.
  destruct (data !! body_name) as [body|].
  - unfold mbind, handler_bind. rewrite hbind_lift.
    destruct (format_body_info body_name body); cbn [fst send]; discriminate.
  - cbn [fst send]. literal "❌ Объект '"%string.
    literal "Пожалуйста, используйте кнопки меню ⬇️"%string.
    cbn [app]. discriminate.
Qed.

Lemma main_keyboard_label_not_prompt data label :
  label ∈ markup_labels get_main_keyboard ->
  fst (handle_message data label)
  <> [reply_text [Lit (u "Пожалуйста, используйте кнопки меню ⬇️")]
        Plain (Some get_main_keyboard)].
Proof.
  intros Hl.
  apply list_elem_of_In in Hl. cbn [In markup_labels get_main_keyboard concat app] in Hl.
  repeat destruct Hl as [<- | Hl]; try contradiction;
    unfold handle_message;
    repeat match goal with
           | |- context [eqb ?a ?b] =>
               let r := eval vm_compute in (eqb a b) in change (eqb a b) with r
           end; cbv iota;
    try apply show_celestial_body_direct_not_prompt;
    unfold show_methods, show_help; cbn [fst send]; discriminate.
Qed.

(** X1.  Whatever the argument, the string handed to [eval] is written with
    decimal digits, [.], [e], [E], [+], [-] and [*] only: no name other than
    runs of [e], no call, no bracket, no quote. *)
Theorem eval_sees_only_arithmetic_characters s :
  parse_scientific_number s =
    try_except (v ← Eval.py_eval (residue s); Returns (Some v)) (Returns None)
  /\ forallb eval_alphabet (residue s) = true.
Proof.
  split; [apply parse_scientific_number_residue | apply residue_alphabet].
Qed.

(** The reply to a request written after the grammar. *)
Lemma free_text_reply data text sp1 ms sp2 rs tail m r :
  lower text = u "плотность:" ++ sp1 ++ u "масса=" ++ ms
               ++ 32%N :: sp2 ++ u "радиус=" ++ rs ++ tail ->
  forallb (N.eqb 32) sp1 = true ->
  forallb (N.eqb 32) sp2 = true ->
  forallb (fun c => negb (c =? 32)%N) ms = true ->
  forallb (fun c => negb (c =? 61)%N) ms = true ->
  forallb (fun c => negb (c =? 32)%N) rs = true ->
  tail = [] \/ (exists t, tail = 32%N :: t) ->
  Float.py_float (replace1 44 (u ".") ms) = Returns m ->
  Float.py_float (replace1 44 (u ".") rs) = Returns r ->
  Qzero r = false ->
  density_in_range m r ->
  handle_message data text =
    let volume := (4 / 3 * 3.1415926535 * r ^ 3)%Q in
    send (reply_text (density_report m r volume (m / volume) (m / volume / 1000))
            Markdown None).
Proof.
  intros Hlow Hsp1 Hsp2 Hms32 Hms61 Hrs Htail Hm Hr Hz Hrange.
  destruct (free_text_grammar sp1 ms sp2 rs tail Hsp1 Hsp2 Hms32 Hms61 Hrs Htail)
    as (Hcm & Hcr & Hnm & Hnr).
  cbv zeta in Hcm, Hcr, Hnm, Hnr. rewrite <- Hlow in Hcm, Hcr, Hnm, Hnr.
  rewrite <- Hnm in Hm. rewrite <- Hnr in Hr.
  rewrite handle_message_density.
  - rewrite (calculate_density_from_text_numeric text m r Hcm Hcr Hm Hr Hrange).
    cbv zeta. rewrite Hz. reflexivity.
  - rewrite Hlow. apply startswith_app.
Qed.

(** X14.  A text whose lower-case form is [плотность:], [масса=<m>], a space,
    [радиус=<r>], with numbers that [float] accepts once commas are turned
    into periods, a mass and a radius other than zero, and a mass, cube,
    volume and densities inside the normal float range, is answered with the
    result block computed from the two numbers. *)
Theorem free_text_request_is_answered data text sp1 ms sp2 rs tail m r :
  lower text = u "плотность:" ++ sp1 ++ u "масса=" ++ ms
               ++ 32%N :: sp2 ++ u "радиус=" ++ rs ++ tail ->
  forallb (N.eqb 32) sp1 = true ->
  forallb (N.eqb 32) sp2 = true ->
  forallb (fun c => negb (c =? 32)%N) ms = true ->
  forallb (fun c => negb (c =? 61)%N) ms = true ->
  forallb (fun c => negb (c =? 32)%N) rs = true ->
  tail = [] \/ (exists t, tail = 32%N :: t) ->
  Float.py_float (replace1 44 (u ".") ms) = Returns m ->
  Float.py_float (replace1 44 (u ".") rs) = Returns r ->
  Qzero m = false ->
  Qzero r = false ->
  density_in_range m r ->
  handle_message data text =
    let volume := (4 / 3 * 3.1415926535 * r ^ 3)%Q in
    send (reply_text (density_report m r volume (m / volume) (m / volume / 1000))
            Markdown None).
Proof.
  intros Hlow Hsp1 Hsp2 Hms32 Hms61 Hrs Htail Hm Hr _ Hz Hrange.
  exact (free_text_reply data text sp1 ms sp2 rs tail m r
           Hlow Hsp1 Hsp2 Hms32 Hms61 Hrs Htail Hm Hr Hz Hrange).
Qed.

Lemma free_text_request_is_answered_witness :
  exists m r,
    handle_message create_sample_data
      (u "Плотность:  масса=5,9722e24  радиус=6.371E6 спасибо") =
      (let volume := (4 / 3 * 3.1415926535 * r ^ 3)%Q in
       send (reply_text (density_report m r volume (m / volume) (m / volume / 1000))
               Markdown None)) /\
    (m == 5972200000000000000000000)%Q /\ (r == 6371000)%Q.
Proof.
  do 2 eexists. split.
  - apply (free_text_request_is_answered create_sample_data _
             (u "  ") (u "5,9722e24") (u " ") (u "6.371e6") (u " спасибо"));
      try (vm_compute; reflexivity);
      try (unfold density_in_range; repeat split; vm_compute; reflexivity).
    right. eexists. vm_compute. reflexivity.
  - split; vm_compute; reflexivity.
Defined.

(** X15.  The free-text calculator has no guard on the sign of the radius: a
    negative radius with a positive mass, the mass, cube, volume and
    densities being inside the normal float range, is answered with a result
    block whose volume and density are negative. *)
Theorem free_text_negative_radius data text sp1 ms sp2 rs tail m r :
  lower text = u "плотность:" ++ sp1 ++ u "масса=" ++ ms
               ++ 32%N :: sp2 ++ u "радиус=" ++ rs ++ tail ->
  forallb (N.eqb 32) sp1 = true ->
  forallb (N.eqb 32) sp2 = true ->
  forallb (fun c => negb (c =? 32)%N) ms = true ->
  forallb (fun c => negb (c =? 61)%N) ms = true ->
  forallb (fun c => negb (c =? 32)%N) rs = true ->
  tail = [] \/ (exists t, tail = 32%N :: t) ->
  Float.py_float (replace1 44 (u ".") ms) = Returns m ->
  Float.py_float (replace1 44 (u ".") rs) = Returns r ->
  (0 < m)%Q -> (r < 0)%Q ->
  density_in_range m r ->
  exists volume density,
    handle_message data text =
      send (reply_text (density_report m r volume density (density / 1000))
              Markdown None) /\
    (volume < 0)%Q /\ (density < 0)%Q.
Proof.
  intros Hlow Hsp1 Hsp2 Hms32 Hms61 Hrs Htail Hm Hr Hmpos Hrneg Hrange.
  assert (Hz : Qzero r = false).
  { destruct (Qzero r) eqn:E; [|reflexivity]. apply Qzero_iff in E.
    rewrite E in Hrneg. discriminate. }
  exists (4 / 3 * 3.1415926535 * r ^ 3)%Q, (m / (4 / 3 * 3.1415926535 * r ^ 3))%Q.
  split.
  - apply (free_text_reply data text sp1 ms sp2 rs tail m r); assumption.
  - assert (Hv : (4 / 3 * 3.1415926535 * r ^ 3 < 0)%Q).
    { rewrite Qcube.
      assert (Hn : (0 < - r)%Q) by lra.
      assert (Hc : (0 < 4 / 3 * 3.1415926535 * (- r * - r * - r))%Q).
      { repeat apply Qmult_lt_0_compat; try exact Hn; reflexivity. }
      assert (He : (4 / 3 * 3.1415926535 * (- r * - r * - r)
                    == - (4 / 3 * 3.1415926535 * (r * r * r)))%Q) by ring.
      rewrite He in Hc. lra. }
    split; [exact Hv|].
    set (v := (4 / 3 * 3.1415926535 * r ^ 3)%Q) in *.
    unfold Qdiv.
    assert (Hinv : (/ v < 0)%Q).
    { assert (H0 : (0 < / - v)%Q) by (apply Qinv_lt_0_compat; lra).
      assert (Hneq : ~ (v == 0)%Q) by (intros H; rewrite H in Hv; discriminate).
      assert (He : (/ - v == - / v)%Q) by (field; exact Hneq).
      rewrite He in H0. lra. }
    nra.
Qed.

Lemma free_text_negative_radius_witness :
  exists volume density,
    handle_message create_sample_data (u "плотность: масса=5 радиус=-1") =
      send (reply_text (density_report 5 (-1) volume density (density / 1000))
              Markdown None) /\
    (volume < 0)%Q /\ (density < 0)%Q.
Proof.
  apply (free_text_negative_radius create_sample_data _
           (u " ") (u "5") [] (u "-1") []);
    try (vm_compute; reflexivity);
    try (unfold density_in_range; repeat split; vm_compute; reflexivity).
  left. reflexivity.
Defined.

(** A field that parses to a value is present in the record. *)
Lemma parsed_field_present (body : gmap string (list N)) key v :
  parse_scientific_number (get_or_empty body key) = Returns (Some v) ->
  exists s, getitem body key = Returns s.
Proof.
  unfold get_or_empty, getitem. destruct (body !! key) as [s|]; [eauto|].
  cbn [default]. discriminate.
Qed.

(** The density of a record whose mass and radius parse to numbers, when the
    results are inside the normal float range. *)
Lemma calculate_density_in_range data body_name body vm vr :
  data !! body_name = Some body ->
  parse_scientific_number (get_or_empty body "mass") = Returns (Some vm) ->
  parse_scientific_number (get_or_empty body "radius") = Returns (Some vr) ->
  is_number vm = true -> is_number vr = true ->
  density_in_range (as_float vm) (as_float vr) ->
  exists info,
    calculate_density data body_name = Returns (Some info) /\
    ((exists q, density_kg_m3 info = PyFloat q) \/ density_kg_m3 info = PyInt 0).
Proof.
  intros Hb Hm Hr Hnm Hnr (Hmn & Hc & Hvol & Hd & Hg).
  assert (Hne : body <> ∅).
  { intros ->. unfold get_or_empty in Hm. rewrite lookup_empty in Hm. discriminate. }
  destruct (calculate_density_numeric _ _ _ _ _ Hb Hne Hm Hr Hnr Hc Hvol)
    as (volume & Hv & ->).
  destruct (Qlt_bool 0 volume) eqn:Hpos.
  - assert (Hz : Qzero volume = false).
    { destruct (Qzero volume) eqn:E; [|reflexivity]. apply Qzero_iff in E.
      apply Qlt_bool_iff in Hpos. rewrite E in Hpos. discriminate. }
    assert (Hd' : normal (as_float vm / volume)).
    { eapply normal_compat; [|exact Hd]. rewrite Hv. reflexivity. }
    assert (Hg' : normal (as_float vm / volume / 1000)).
    { eapply normal_compat; [|exact Hg]. rewrite Hv. reflexivity. }
    destruct (density_computed vm volume Hnm Hmn Hz Hd' Hg') as [H1 H2].
    rewrite H1. cbn [mbind outcome_bind]. rewrite H2. cbn [mbind outcome_bind try_except].
    eexists. split; [reflexivity|]. left. eexists. reflexivity.
  - eexists. split; [reflexivity|]. right. reflexivity.
Qed.

(** The density of a record whose radius is not positive. *)
Lemma calculate_density_nonpositive data body_name body vm vr :
  data !! body_name = Some body ->
  parse_scientific_number (get_or_empty body "mass") = Returns (Some vm) ->
  parse_scientific_number (get_or_empty body "radius") = Returns (Some vr) ->
  is_number vr = true -> (as_float vr <= 0)%Q ->
  normal (as_float vr ^ 3) -> normal (4 / 3 * 3.1415926535 * as_float vr ^ 3) ->
  exists info,
    calculate_density data body_name = Returns (Some info) /\
    density_kg_m3 info = PyInt 0.
Proof.
  intros Hb Hm Hr Hnr Hle Hc Hvol.
  assert (Hne : body <> ∅).
  { intros ->. unfold get_or_empty in Hm. rewrite lookup_empty in Hm. discriminate. }
  destruct (calculate_density_numeric _ _ _ _ _ Hb Hne Hm Hr Hnr Hc Hvol)
    as (volume & Hv & ->).
  destruct (volume_nonpositive _ _ Hle Hv) as [Hf _]. rewrite Hf.
  eexists. split; reflexivity.
Qed.

Lemma density_lines_zero_divisor data body1 body2 label1 label2 b1 b2 m1 r1 m2 r2 :
  data !! body1 = Some b1 -> data !! body2 = Some b2 ->
  parse_scientific_number (get_or_empty b1 "mass") = Returns (Some m1) ->
  parse_scientific_number (get_or_empty b1 "radius") = Returns (Some r1) ->
  parse_scientific_number (get_or_empty b2 "mass") = Returns (Some m2) ->
  parse_scientific_number (get_or_empty b2 "radius") = Returns (Some r2) ->
  is_number m1 = true -> is_number r1 = true ->
  density_in_range (as_float m1) (as_float r1) ->
  is_number r2 = true ->
  (as_float r2 <= 0)%Q ->
  normal (as_float r2 ^ 3) -> normal (4 / 3 * 3.1415926535 * as_float r2 ^ 3) ->
  density_lines data body1 body2 label1 label2 = Raises.
Proof.
  intros Hb1 Hb2 Hm1 Hr1 Hm2 Hr2 Hnm1 Hnr1 Hrange Hnr2 Hle Hc2 Hvol2.
  destruct (calculate_density_in_range _ _ _ _ _ Hb1 Hm1 Hr1 Hnm1 Hnr1 Hrange)
    as (i1 & Hc1 & Hd1).
  destruct (calculate_density_nonpositive _ _ _ _ _ Hb2 Hm2 Hr2 Hnr2 Hle Hc2 Hvol2)
    as (i2 & Hi2 & Hd2).
  unfold density_lines. rewrite Hc1, Hi2. cbn [mbind outcome_bind].
  rewrite Hd2. destruct Hd1 as [[q ->] | ->]; reflexivity.
Qed.

(** X16.  The three density comparisons divide the first density by the second.
    When the first body's density is computed inside the normal float range
    and the second body's radius parses to a number that is not positive
    (its cube and volume inside that range), the second density is 0, the
    division raises, and the callback ends having only answered the query:
    nothing is shown. *)
Theorem comparison_with_zero_density_raises data body1 body2 b1 b2 m1 r1 m2 r2 :
  (body1, body2) ∈ [(u "Земля", u "Марс"); (u "Венера", u "Земля");
                    (u "Юпитер", u "Сатурн")] ->
  data !! body1 = Some b1 -> data !! body2 = Some b2 ->
  is_Some (b1 !! "emoji") -> is_Some (b2 !! "emoji") ->
  parse_scientific_number (get_or_empty b1 "mass") = Returns (Some m1) ->
  parse_scientific_number (get_or_empty b1 "radius") = Returns (Some r1) ->
  parse_scientific_number (get_or_empty b2 "mass") = Returns (Some m2) ->
  parse_scientific_number (get_or_empty b2 "radius") = Returns (Some r2) ->
  is_number m1 = true -> is_number r1 = true ->
  density_in_range (as_float m1) (as_float r1) ->
  is_number r2 = true ->
  (as_float r2 <= 0)%Q ->
  normal (as_float r2 ^ 3) -> normal (4 / 3 * 3.1415926535 * as_float r2 ^ 3) ->
  button_callback data (u "compare_" ++ body1 ++ u "_" ++ body2) = ([answer], Raises).
Proof.
  intros Hpair Hb1 Hb2 [e1 He1] [e2 He2] Hm1 Hr1 Hm2 Hr2 Hnm1 Hnr1 Hrange Hnr2 Hle
    Hc2 Hvol2.
  assert (Hlines : forall l1 l2, density_lines data body1 body2 l1 l2 = Raises).
  { intros l1 l2. eapply density_lines_zero_divisor; eassumption. }
  destruct (parsed_field_present _ _ _ Hm1) as [sm1 Hgm1].
  destruct (parsed_field_present _ _ _ Hr1) as [sr1 Hgr1].
  destruct (parsed_field_present _ _ _ Hm2) as [sm2 Hgm2].
  destruct (parsed_field_present _ _ _ Hr2) as [sr2 Hgr2].
  assert (Hge1 : getitem b1 "emoji" = Returns e1) by (unfold getitem; rewrite He1; reflexivity).
  assert (Hge2 : getitem b2 "emoji" = Returns e2) by (unfold getitem; rewrite He2; reflexivity).
  assert (Hshow : show_comparison data body1 body2 = ([], Raises)).
  { unfold show_comparison. rewrite Hb1, Hb2.
    unfold mbind, handler_bind.
    rewrite Hge1, Hge2, Hgm1, Hgm2, Hgr1, Hgr2. rewrite !hbind_lift.
    apply list_elem_of_In in Hpair. cbn [In] in Hpair.
    destruct Hpair as [H | [H | [H | []]]]; injection H as <- <-;
      unfold eqb;
      repeat match goal with
             | |- context [bool_decide (?a = ?b)] =>
                 let r := eval vm_compute in (bool_decide (a = b)) in
                 change (bool_decide (a = b)) with r
             end; cbn [andb]; cbv iota;
      rewrite Hlines; reflexivity. }
  assert (Hsep : forall s, s ∈ [body1; body2] ->
                   forallb (fun c => negb (c =? 95)%N) s = true).
  { intros s Hs. apply list_elem_of_In in Hpair. cbn [In] in Hpair.
    apply list_elem_of_In in Hs. cbn [In] in Hs.
    destruct Hpair as [H | [H | [H | []]]]; injection H as <- <-;
      destruct Hs as [<- | [<- | []]]; vm_compute; reflexivity. }
  rewrite button_callback_compare.
  - rewrite Hshow. reflexivity.
  - apply Hsep, list_elem_of_here.
  - apply Hsep, list_elem_of_further, list_elem_of_here.
Qed.

Lemma comparison_with_zero_density_raises_witness :
  button_callback
    {[ u "Земля" := list_to_map [field "emoji" "🌍"; field "mass" "5.9722e24 кг";
                                 field "radius" "6.371e6 м"];
       u "Марс" := list_to_map [field "emoji" "♂"; field "mass" "6.4171e23 кг";
                                field "radius" "0 м"] ]}
    (u "compare_" ++ u "Земля" ++ u "_" ++ u "Марс") = ([answer], Raises).
Proof.
  eapply (comparison_with_zero_density_raises _ (u "Земля") (u "Марс")
            (list_to_map [field "emoji" "🌍"; field "mass" "5.9722e24 кг";
                          field "radius" "6.371e6 м"])
            (list_to_map [field "emoji" "♂"; field "mass" "6.4171e23 кг";
                          field "radius" "0 м"])
            (PyFloat (Eval.float_value [5] [9; 7; 2; 2] 24)%N)
            (PyFloat (Eval.float_value [6] [3; 7; 1] 6)%N)
            (PyFloat (Eval.float_value [6] [4; 1; 7; 1] 23)%N)
            (PyInt 0));
    try (vm_compute; reflexivity);
    try (apply (bool_decide_unpack _); vm_compute; exact I);
    try (unfold density_in_range; repeat split; vm_compute; reflexivity).
  vm_compute. discriminate.
Defined.

(** * What the handlers and the calculator depend on *)

Lemma calculate_density_from_text_not_prompt text :
  fst (calculate_density_from_text text)
  <> [reply_text [Lit (u "Пожалуйста, используйте кнопки меню ⬇️")]
        Plain (Some get_main_keyboard)].
Proof.
  unfold calculate_density_from_text. cbv zeta.
  repeat match goal with
         | |- context [if ?b then _ else _] => destruct b
         | |- context [match ?o with Returns _ => _ | Raises => _ | Untracked => _ end] =>
             destruct o
         end; cbn [fst send lift]; discriminate.
Qed.

(** X13.  [/start] shows the main keyboard, and the [use the menu buttons]
    prompt is the reply to exactly the texts that are neither a label of that
    keyboard nor, in lower case, a text that starts with [плотность:]. *)
Theorem menu_prompt_iff_unrecognised data text :
  rendered_markup start_command = Some get_main_keyboard /\
  ((fst (handle_message data text)
    = [reply_text [Lit (u "Пожалуйста, используйте кнопки меню ⬇️")]
         Plain (Some get_main_keyboard)])
   <-> ((text ∉ markup_labels get_main_keyboard)
        /\ startswith (u "плотность:") (lower text) = false)).
Proof.
  split; [reflexivity|]. split.
  - intros H. split.
    + intros Hl. exact (main_keyboard_label_not_prompt data text Hl H).
    + destruct (startswith (u "плотность:") (lower text)) eqn:E; [|reflexivity].
      rewrite (handle_message_density data text E) in H.
      destruct (calculate_density_from_text_not_prompt text H).
  - intros [Hl Hp]. unfold handle_message, eqb.
    repeat rewrite bool_decide_eq_false_2
      by (intros ->; apply Hl; apply (bool_decide_unpack _); vm_compute; exact I).
    rewrite Hp. reflexivity.
Qed.

(** X17.  [format_body_info] shows thirteen fields and nothing else: a field
    under any other key does not change the text. *)
Theorem format_body_info_ignores_other_fields body_name (body : gmap string (list N)) key value :
  key ∉ required_keys ++ ["distance"; "period"; "luminosity"; "temperature"]%string ->
  format_body_info body_name (<[key := value]> body) = format_body_info body_name body.
Proof.
  intros Hkey.
  assert (Hne : forall k,
             In k (required_keys ++ ["distance"; "period"; "luminosity"; "temperature"]%string) ->
             <[key := value]> body !! k = body !! k).
  { intros k Hk. apply lookup_insert_ne. intros ->. apply Hkey, list_elem_of_In, Hk. }
  unfold format_body_info, getitem, optional_line.
  repeat match goal with
         | |- context [<[key := value]> body !! ?k] =>
             rewrite (Hne k) by (simpl; tauto)
         end.
  reflexivity.
Qed.

Lemma format_body_info_ignores_other_fields_witness :
  format_body_info (u "Марс")
    (<["moons" := u "2"]> (list_to_map [field "type" "Планета"; field "emoji" "♂"]))
  = format_body_info (u "Марс") (list_to_map [field "type" "Планета"; field "emoji" "♂"]).
Proof.
  apply format_body_info_ignores_other_fields.
  apply (bool_decide_unpack _). vm_compute. exact I.
Defined.

(** X18.  [calculate_density] depends on the record through its [mass] and
    [radius] fields only; the emptiness test on the record changes nothing,
    since an empty record has neither. *)
Theorem calculate_density_reads_mass_and_radius data1 data2 body_name
    (body1 body2 : gmap string (list N)) :
  data1 !! body_name = Some body1 -> data2 !! body_name = Some body2 ->
  body1 !! "mass" = body2 !! "mass" ->
  body1 !! "radius" = body2 !! "radius" ->
  calculate_density data1 body_name = calculate_density data2 body_name.
Proof.
  intros H1 H2 Hm Hr.
  assert (Hempty : forall (data : gmap (list N) (gmap string (list N))) body,
             data !! body_name = Some body ->
             calculate_density data body_name =
             try_except
               (mass ← parse_scientific_number (get_or_empty body "mass");
                radius ← parse_scientific_number (get_or_empty body "radius");
                match mass, radius with
                | Some mass, Some radius =>
                    four_thirds ← py_div (PyInt 4) (PyInt 3);
                    k ← py_mul four_thirds (PyFloat 3.1415926535);
                    cube ← py_pow radius (PyInt 3);
                    volume ← py_mul k cube;
                    positive ← py_gt volume (PyInt 0);
                    density ← (if positive : bool then py_div mass volume
                               else Returns (PyInt 0));
                    density_g ← py_div density (PyInt 1000);
                    Returns (Some {| name := body_name;
                                     mass_kg := mass;
                                     radius_m := radius;
                                     volume_m3 := volume;
                                     density_kg_m3 := density;
                                     density_g_cm3 := density_g;
                                     formula := u "ρ = 3M/(4πR³)" |})
                | _, _ => Returns None
                end)
               (Returns None)).
  { intros data body Hb. unfold calculate_density. rewrite Hb.
    destruct (bool_decide (body = ∅)) eqn:E; [|reflexivity].
    apply bool_decide_eq_true in E. subst body. reflexivity. }
  rewrite (Hempty data1 body1 H1), (Hempty data2 body2 H2).
  unfold get_or_empty. rewrite Hm, Hr. reflexivity.
Qed.

Lemma calculate_density_reads_mass_and_radius_witness :
  calculate_density
    {[ u "Марс" := list_to_map [field "mass" "6.4171e23 кг"; field "radius" "3.3895e6 м"] ]}
    (u "Марс")
  = calculate_density
      {[ u "Марс" := list_to_map [field "emoji" "♂"; field "mass" "6.4171e23 кг";
                                  field "radius" "3.3895e6 м"; field "type" "Планета"] ]}
      (u "Марс").
Proof.
  apply (calculate_density_reads_mass_and_radius _ _ (u "Марс")
           (list_to_map [field "mass" "6.4171e23 кг"; field "radius" "3.3895e6 м"])
           (list_to_map [field "emoji" "♂"; field "mass" "6.4171e23 кг";
                         field "radius" "3.3895e6 м"; field "type" "Планета"]));
    vm_compute; reflexivity.
Defined.

(** X19.  The callback tokens the keyboards build are read back by the
    dispatcher: for names without an underscore, [body_<a>] opens the detail
    of [a], [compare_<a>_<b>] the comparison of [a] with [b], and [task_<a>]
    the task [a], each after the query has been answered. *)
Theorem callback_token_round_trip data a b :
  forallb (fun c => negb (c =? 95)%N) a = true ->
  forallb (fun c => negb (c =? 95)%N) b = true ->
  button_callback data (u "body_" ++ a)
  = (answer :: fst (show_celestial_body_inline data a),
     snd (show_celestial_body_inline data a))
  /\ button_callback data (u "compare_" ++ a ++ u "_" ++ b)
     = (answer :: fst (show_comparison data a b), snd (show_comparison data a b))
  /\ button_callback data (u "task_" ++ a)
     = (answer :: fst (show_task_with_solution a), snd (show_task_with_solution a)).
Proof.
  intros Ha Hb.
  rewrite (button_callback_body data a Ha), (button_callback_compare data a b Ha Hb),
    (button_callback_task data a Ha), !hbind_answer.
  repeat split.
Qed.

Lemma callback_token_round_trip_witness :
  button_callback create_sample_data (u "compare_" ++ u "Земля" ++ u "_" ++ u "Марс")
  = (answer :: fst (show_comparison create_sample_data (u "Земля") (u "Марс")),
     snd (show_comparison create_sample_data (u "Земля") (u "Марс"))).
Proof.
  apply (callback_token_round_trip create_sample_data (u "Земля") (u "Марс"));
    vm_compute; reflexivity.
Defined.

(** * The catalogue file *)

Section DatabaseFacts.

Variable content : Type.
Variable json_dump : Database.pydata -> content.
Variable json_load : content -> option Database.pydata.

Abbreviation startup := (Database.startup content json_dump json_load).
Abbreviation world := (Database.world content).

Lemma sample_data_truthy : Database.truthy (Database.Dict create_sample_data) = true.
Proof. vm_compute. reflexivity. Qed.

Lemma startup_existing (w : world) :
  is_Some (Database.file content w) -> fst (startup w) = w.
Proof.
  intros [c Hc]. unfold Database.startup, Database.load_data. rewrite Hc.
  destruct (Database.readable content w); [|reflexivity].
  destruct (json_load c) as [data|]; [|reflexivity].
  destruct (Database.has_len data); reflexivity.
Qed.

Lemma startup_unusable (w : world) c :
  Database.file content w = Some c ->
  Database.readable content w = false \/ json_load c = None
  \/ (exists data, json_load c = Some data /\
        (Database.has_len data = false \/ Database.truthy data = false)) ->
  startup w = (w, None).
Proof.
  intros Hc H. unfold Database.startup, Database.load_data. rewrite Hc.
  destruct H as [-> | [-> | (data & -> & [H | H])]]; try reflexivity.
  - destruct (Database.readable content w); reflexivity.
  - destruct (Database.readable content w); [|reflexivity]. rewrite H. reflexivity.
  - destruct (Database.readable content w); [|reflexivity].
    destruct (Database.has_len data); [|reflexivity]. rewrite H. reflexivity.
Qed.

(** X20.  A data file that exists is never written: a start leaves it as it
    is.  So a file that cannot be read, that [json.load] rejects, or that
    holds a value without [len] or a falsy value, makes this start and every
    later start exit: the sample data is not written over it. *)
Theorem unusable_file_is_never_repaired (w : world) c n :
  Database.file content w = Some c ->
  Database.readable content w = false \/ json_load c = None
  \/ (exists data, json_load c = Some data /\
        (Database.has_len data = false \/ Database.truthy data = false)) ->
  Nat.iter n (fun w => fst (startup w)) w = w /\
  startup (Nat.iter n (fun w => fst (startup w)) w) = (w, None).
Proof.
  intros Hc H.
  assert (Hn : Nat.iter n (fun w => fst (startup w)) w = w).
  { induction n as [|n IH]; [reflexivity|]. rewrite Nat.iter_succ, IH.
    apply startup_existing. rewrite Hc. eauto. }
  split; [exact Hn|]. rewrite Hn. apply (startup_unusable w c Hc H).
Qed.

Lemma startup_first (w : world) :
  Database.file content w = None ->
  startup w =
    (Database.save_data content json_dump w (Database.Dict create_sample_data),
     Some (Database.Dict create_sample_data)).
Proof.
  intros Hf. unfold Database.startup, Database.load_data. rewrite Hf.
  unfold Database.create_sample_data. rewrite sample_data_truthy. reflexivity.
Qed.

(** X21.  When the data file does not exist, the bot starts on the built-in
    catalogue whether or not the file could be written; the file afterwards
    holds the dumped catalogue if the write completed, is still absent if it
    could not be opened, and holds the partial text if the writing failed. *)
Theorem first_start_uses_sample_data (w : world) :
  Database.file content w = None ->
  snd (startup w) = Some (Database.Dict create_sample_data) /\
  Database.file content (fst (startup w)) =
    match Database.on_write content w with
    | Database.Written _ => Some (json_dump (Database.Dict create_sample_data))
    | Database.OpenFailed _ => None
    | Database.DumpFailed _ partial => Some partial
    end.
Proof.
  intros Hf. rewrite (startup_first w Hf). split; [reflexivity|].
  unfold Database.save_data, Database.write. cbn [fst].
  destruct (Database.on_write content w); try reflexivity. exact Hf.
Qed.

(** X22.  When [json.load] reads back what [json.dump] wrote for the built-in
    catalogue, a first start that writes the file is followed by starts that
    load the same catalogue from it and leave it unchanged. *)
Theorem restart_reloads_sample_data (w : world) n :
  json_load (json_dump (Database.Dict create_sample_data))
    = Some (Database.Dict create_sample_data) ->
  Database.file content w = None ->
  Database.on_write content w = Database.Written content ->
  Database.readable content w = true ->
  startup (Nat.iter n (fun w => fst (startup w)) (fst (startup w)))
  = (fst (startup w), Some (Database.Dict create_sample_data)).
Proof.
  intros Hrt Hf Hw Hr. rewrite (startup_first w Hf). cbn [fst].
  set (w1 := Database.save_data content json_dump w (Database.Dict create_sample_data)).
  assert (Hfile : Database.file content w1
                  = Some (json_dump (Database.Dict create_sample_data))).
  { unfold w1, Database.save_data, Database.write. rewrite Hw. reflexivity. }
  assert (Hread : Database.readable content w1 = true).
  { unfold w1, Database.save_data, Database.write. rewrite Hw. exact Hr. }
  assert (Hn : Nat.iter n (fun w => fst (startup w)) w1 = w1).
  { induction n as [|k IH]; [reflexivity|]. rewrite Nat.iter_succ, IH.
    apply startup_existing. rewrite Hfile. eauto. }
  rewrite Hn. unfold Database.startup, Database.load_data.
  rewrite Hfile, Hread, Hrt. cbn [Database.has_len].
  rewrite sample_data_truthy. reflexivity.
Qed.

End DatabaseFacts.

Lemma unusable_file_is_never_repaired_witness :
  Database.startup Database.pydata (fun data => data) Some
    (Nat.iter 3 (fun w => fst (Database.startup Database.pydata (fun data => data) Some w))
       {| Database.file := Some (Database.Dict ∅);
          Database.readable := true;
          Database.on_write := Database.Written _ |})
  = ({| Database.file := Some (Database.Dict ∅);
        Database.readable := true;
        Database.on_write := Database.Written _ |}, None).
Proof.
  apply (unusable_file_is_never_repaired Database.pydata (fun data => data) Some _ (Database.Dict ∅) 3).
  - reflexivity.
  - right. right. exists (Database.Dict ∅). split; [reflexivity|].
    right. vm_compute. reflexivity.
Defined.

Lemma first_start_uses_sample_data_witness :
  snd (Database.startup Database.pydata (fun data => data) Some
         {| Database.file := None; Database.readable := true;
            Database.on_write := Database.OpenFailed _ |})
  = Some (Database.Dict create_sample_data).
Proof.
  apply (first_start_uses_sample_data Database.pydata (fun data => data) Some
           {| Database.file := None; Database.readable := true;
              Database.on_write := Database.OpenFailed _ |}).
  reflexivity.
Defined.

Lemma restart_reloads_sample_data_witness :
  Database.startup Database.pydata (fun data => data) Some
    (Nat.iter 2 (fun w => fst (Database.startup Database.pydata (fun data => data) Some w))
       (fst (Database.startup Database.pydata (fun data => data) Some
               {| Database.file := None; Database.readable := true;
                  Database.on_write := Database.Written _ |})))
  = (fst (Database.startup Database.pydata (fun data => data) Some
            {| Database.file := None; Database.readable := true;
               Database.on_write := Database.Written _ |}),
     Some (Database.Dict create_sample_data)).
Proof.
  apply (restart_reloads_sample_data Database.pydata (fun data => data) Some
           {| Database.file := None; Database.readable := true;
              Database.on_write := Database.Written _ |} 2);
    reflexivity.
Defined.
